(** * xpra-tools: the AI control plane of an Xpra session

    A shallow embedding of [protocol.py], [framebuffer.py] and the mode
    gate / query handler of [plugin.py], and the properties of the
    specification that were checked against it.

    Conventions of the embedding.
    - Python objects that are mutated in place (a [WindowFramebuffer], the
      registry dictionary, the plugin) are passed and returned explicitly.
    - A call that may raise returns a [result]; when an object is mutated
      before the exception leaves the method, the mutated object is returned
      next to the [Raise].
    - Python [int] is [Z]; [bytes] is [list byte]; a [str] is the [string]
      of its UTF-8 bytes.
    - Clock readings and the float parameters of the compositor
      ([time.time()], [scale], [min_interval]) are exact rationals [Q]: the
      results of float arithmetic are only compared or truncated in the
      source, never stored, and rounding is not modelled.  A float that is
      carried inside a wire message is its IEEE-754 binary64 bit pattern.
    - Pillow, the msgpack wire format, the ZMQ sockets and the system clock
      are not part of the repository: Pillow is an interface ([PIL]), msgpack
      is written out from its format specification, a socket is the trace of
      the messages handed to [send], the clock reading is an argument. *)

From Stdlib Require Import ZArith List String Ascii Bool Lia QArith.
From Stdlib Require Import Strings.Byte Sorted.
Import ListNotations.

#[local] Set Warnings "-register-all".

Open Scope string_scope.
Open Scope list_scope.
Open Scope Z_scope.

(** ** Python values and exceptions *)

Module Py.

Inductive exn : Type :=
| TypeError | ValueError | AttributeError | IndexError | KeyError
| OverflowError | ZeroDivisionError | OutOfData | ExtraData | StackError
| FormatError | ImageError.

Inductive result (A : Type) : Type :=
| Ok (a : A)
| Raise (e : exn).
Arguments Ok {A} a.
Arguments Raise {A} e.

Definition bind {A B} (r : result A) (k : A -> result B) : result B :=
  match r with
  | Ok a => k a
  | Raise e => Raise e
  end.

Definition is_ok {A} (r : result A) : bool :=
  match r with Ok _ => true | Raise _ => false end.

Definition of_option {A} (e : exn) (o : option A) : result A :=
  match o with Some a => Ok a | None => Raise e end.

(** The values that travel in packets and wire messages. [VFloat] holds
    the binary64 bit pattern; [VDict] keeps the insertion order of a
    Python dict. *)
Inductive value : Type :=
| VNone
| VBool (b : bool)
| VInt (z : Z)
| VFloat (bits : Z)
| VStr (s : string)
| VBytes (b : list byte)
| VList (l : list value)
| VTuple (l : list value)
| VDict (d : list (value * value)).

Definition bytes_eqb (a b : list byte) : bool :=
  if list_eq_dec Byte.byte_eq_dec a b then true else false.

(** [==] on the hashable values used as dictionary keys.  Numeric keys
    compare by value across [bool] and [int]; a float key is compared by
    its bit pattern only with another float. *)
Definition key_eqb (a b : value) : bool :=
  match a, b with
  | VNone, VNone => true
  | VBool x, VBool y => Bool.eqb x y
  | VBool x, VInt y | VInt y, VBool x => (if x then 1 else 0) =? y
  | VInt x, VInt y => x =? y
  | VFloat x, VFloat y => x =? y
  | VStr x, VStr y => String.eqb x y
  | VBytes x, VBytes y => bytes_eqb x y
  | _, _ => false
  end.

(** *** Insertion-ordered dictionaries *)

Section Dict.
Context {K V : Type} (eqb : K -> K -> bool).

Fixpoint dict_get (k : K) (d : list (K * V)) : option V :=
  match d with
  | [] => None
  | (k', v) :: d' => if eqb k k' then Some v else dict_get k d'
  end.

(** [d[k] = v]: an existing key keeps its position. *)
Fixpoint dict_set (k : K) (v : V) (d : list (K * V)) : list (K * V) :=
  match d with
  | [] => [(k, v)]
  | (k', v') :: d' =>
      if eqb k k' then (k', v) :: d' else (k', v') :: dict_set k v d'
  end.

(** [d.pop(k, None)] *)
Fixpoint dict_pop (k : K) (d : list (K * V)) : list (K * V) :=
  match d with
  | [] => []
  | (k', v') :: d' =>
      if eqb k k' then dict_pop k d' else (k', v') :: dict_pop k d'
  end.

Definition dict_keys (d : list (K * V)) : list K := map fst d.
Definition dict_values (d : list (K * V)) : list V := map snd d.

Definition dict_mem (k : K) (d : list (K * V)) : bool :=
  existsb (eqb k) (dict_keys d).

(** no key occurs twice *)
Fixpoint dict_wf (d : list (K * V)) : bool :=
  match d with
  | [] => true
  | (k, _) :: d' => negb (dict_mem k d') && dict_wf d'
  end.

(** the dictionary built by inserting the pairs from left to right *)
Definition dict_of_pairs (l : list (K * V)) : list (K * V) :=
  fold_left (fun d kv => dict_set (fst kv) (snd kv) d) l [].
End Dict.

(** *** [str.lower] and [str.split] *)

Definition lower_ascii (c : ascii) : ascii :=
  let n := nat_of_ascii c in
  if andb (Nat.leb 65 n) (Nat.leb n 90) then ascii_of_nat (n + 32) else c.

(** [s.lower()]; the letters outside ASCII are left as they are. *)
Fixpoint lower (s : string) : string :=
  match s with
  | EmptyString => EmptyString
  | String c s' => String (lower_ascii c) (lower s')
  end.

(** [s.split(sep)] for a one-character separator: [cur] is the field
    being read, kept reversed. *)
Fixpoint split_aux (sep : ascii) (s : string) (cur : list ascii) : list string :=
  match s with
  | EmptyString => [string_of_list_ascii (rev cur)]
  | String c s' =>
      if Ascii.eqb c sep
      then string_of_list_ascii (rev cur) :: split_aux sep s' []
      else split_aux sep s' (c :: cur)
  end.

Definition split (sep : ascii) (s : string) : list string := split_aux sep s [].

End Py.

Export Py.

Declare Scope py_scope.
Notation "x <- r ;; k" := (bind r (fun x => k))
  (at level 61, r at next level, right associativity) : py_scope.
Notation "' p <- r ;; k" := (bind r (fun p => k))
  (at level 61, p pattern, r at next level, right associativity) : py_scope.
Open Scope py_scope.

(** ** protocol.py: the wire messages *)

Module Protocol.

(** *** The enumerations *)

Inductive InputMode : Type := OBSERVER | SUPERVISED | AUTONOMOUS | COLLABORATIVE.

Definition InputMode_value (m : InputMode) : string :=
  match m with
  | OBSERVER => "observer"
  | SUPERVISED => "supervised"
  | AUTONOMOUS => "autonomous"
  | COLLABORATIVE => "collaborative"
  end.

(** [InputMode(s)]: the member with that value, [ValueError] otherwise. *)
Definition InputMode_of_string (s : string) : result InputMode :=
  if String.eqb s "observer" then Ok OBSERVER
  else if String.eqb s "supervised" then Ok SUPERVISED
  else if String.eqb s "autonomous" then Ok AUTONOMOUS
  else if String.eqb s "collaborative" then Ok COLLABORATIVE
  else Raise ValueError.

Inductive EventType : Type :=
| WINDOW_CREATE | WINDOW_DESTROY | WINDOW_FOCUS | WINDOW_RESIZE | WINDOW_TITLE
| WINDOW_ICON | MODE_CHANGE | CLIPBOARD_UPDATE | KILL_SWITCH.

Definition EventType_value (e : EventType) : string :=
  match e with
  | WINDOW_CREATE => "window_create"
  | WINDOW_DESTROY => "window_destroy"
  | WINDOW_FOCUS => "window_focus"
  | WINDOW_RESIZE => "window_resize"
  | WINDOW_TITLE => "window_title"
  | WINDOW_ICON => "window_icon"
  | MODE_CHANGE => "mode_change"
  | CLIPBOARD_UPDATE => "clipboard_update"
  | KILL_SWITCH => "kill_switch"
  end.

Inductive QueryType : Type :=
| WINDOW_LIST | WINDOW_INFO | FOCUSED_WINDOW | CLIPBOARD | SCREENSHOT | CURRENT_MODE.

Definition QueryType_value (q : QueryType) : string :=
  match q with
  | WINDOW_LIST => "window_list"
  | WINDOW_INFO => "window_info"
  | FOCUSED_WINDOW => "focused_window"
  | CLIPBOARD => "clipboard"
  | SCREENSHOT => "screenshot"
  | CURRENT_MODE => "current_mode"
  end.

(** *** msgpack: [packb(o, use_bin_type=True)] and [unpackb(b, raw=False)] *)

Definition Z_of_byte (b : byte) : Z := Z.of_N (Byte.to_N b).

Definition byte_of_Z (z : Z) : byte :=
  match Byte.of_N (Z.to_N (z mod 256)) with
  | Some b => b
  | None => x00
  end.

(** the [n] low-order bytes of [z], most significant first *)
Fixpoint be_bytes (n : nat) (z : Z) : list byte :=
  match n with
  | O => []
  | S k => byte_of_Z (z / 256 ^ Z.of_nat k) :: be_bytes k z
  end.

Definition be_value (bs : list byte) : Z :=
  fold_left (fun acc b => acc * 256 + Z_of_byte b) bs 0.

Definition pack_int (z : Z) : result (list byte) :=
  if z <? - 2 ^ 63 then Raise OverflowError
  else if z <? - 2 ^ 31 then Ok (xd3 :: be_bytes 8 z)
  else if z <? - 2 ^ 15 then Ok (xd2 :: be_bytes 4 z)
  else if z <? - 2 ^ 7 then Ok (xd1 :: be_bytes 2 z)
  else if z <? - 2 ^ 5 then Ok (xd0 :: be_bytes 1 z)
  else if z <? 2 ^ 7 then Ok (be_bytes 1 z)
  else if z <? 2 ^ 8 then Ok (xcc :: be_bytes 1 z)
  else if z <? 2 ^ 16 then Ok (xcd :: be_bytes 2 z)
  else if z <? 2 ^ 32 then Ok (xce :: be_bytes 4 z)
  else if z <? 2 ^ 64 then Ok (xcf :: be_bytes 8 z)
  else Raise OverflowError.

Definition len_Z {A} (l : list A) : Z := Z.of_nat (List.length l).

(** the header of a [str] of [n] bytes *)
Definition str_header (n : Z) : result (list byte) :=
  if n <? 32 then Ok [byte_of_Z (160 + n)]
  else if n <? 2 ^ 8 then Ok (xd9 :: be_bytes 1 n)
  else if n <? 2 ^ 16 then Ok (xda :: be_bytes 2 n)
  else if n <? 2 ^ 32 then Ok (xdb :: be_bytes 4 n)
  else Raise ValueError.

Definition bin_header (n : Z) : result (list byte) :=
  if n <? 2 ^ 8 then Ok (xc4 :: be_bytes 1 n)
  else if n <? 2 ^ 16 then Ok (xc5 :: be_bytes 2 n)
  else if n <? 2 ^ 32 then Ok (xc6 :: be_bytes 4 n)
  else Raise ValueError.

Definition array_header (n : Z) : result (list byte) :=
  if n <? 16 then Ok [byte_of_Z (144 + n)]
  else if n <? 2 ^ 16 then Ok (xdc :: be_bytes 2 n)
  else if n <? 2 ^ 32 then Ok (xdd :: be_bytes 4 n)
  else Raise ValueError.

Definition map_header (n : Z) : result (list byte) :=
  if n <? 16 then Ok [byte_of_Z (128 + n)]
  else if n <? 2 ^ 16 then Ok (xde :: be_bytes 2 n)
  else if n <? 2 ^ 32 then Ok (xdf :: be_bytes 4 n)
  else Raise ValueError.

Section PackItems.
Variable pack_item : value -> result (list byte).

Fixpoint pack_list (l : list value) : result (list byte) :=
  match l with
  | [] => Ok []
  | v :: l' =>
      b <- pack_item v ;;
      bs <- pack_list l' ;;
      Ok (b ++ bs)
  end.

Fixpoint pack_pairs (d : list (value * value)) : result (list byte) :=
  match d with
  | [] => Ok []
  | (k, v) :: d' =>
      bk <- pack_item k ;;
      bv <- pack_item v ;;
      bs <- pack_pairs d' ;;
      Ok (bk ++ bv ++ bs)
  end.
End PackItems.

(** [Packer._pack(o, nest_limit)]: [nest] is [nest_limit + 1], and the
    packer raises when the limit has gone below zero. *)
Fixpoint pack (nest : nat) (o : value) : result (list byte) :=
  match nest with
  | O => Raise ValueError
  | S nest' =>
      match o with
      | VNone => Ok [xc0]
      | VBool b => Ok [if b then xc3 else xc2]
      | VInt z => pack_int z
      | VFloat bits => Ok (xcb :: be_bytes 8 bits)
      | VBytes b =>
          h <- bin_header (len_Z b) ;;
          Ok (h ++ b)
      | VStr s =>
          let b := list_byte_of_string s in
          h <- str_header (len_Z b) ;;
          Ok (h ++ b)
      | VDict d =>
          h <- map_header (len_Z d) ;;
          bs <- pack_pairs (pack nest') d ;;
          Ok (h ++ bs)
      | VList l | VTuple l =>
          h <- array_header (len_Z l) ;;
          bs <- pack_list (pack nest') l ;;
          Ok (h ++ bs)
      end
  end.

(** [DEFAULT_RECURSE_LIMIT] is 511 *)
Definition packb (o : value) : result (list byte) := pack 512 o.

(** [take n bs]: the next [n] bytes and the rest, when there are that many *)
Definition take_bytes (n : Z) (bs : list byte) : result (list byte * list byte) :=
  if len_Z bs <? n then Raise OutOfData
  else Ok (firstn (Z.to_nat n) bs, skipn (Z.to_nat n) bs).

(** an unsigned big-endian integer of [n] bytes *)
Definition take_uint (n : Z) (bs : list byte) : result (Z * list byte) :=
  '(h, rest) <- take_bytes n bs ;;
  Ok (be_value h, rest).

(** a two's complement big-endian integer of [n] bytes *)
Definition take_sint (n : Z) (bs : list byte) : result (Z * list byte) :=
  '(u, rest) <- take_uint n bs ;;
  Ok (if u <? 2 ^ (8 * n - 1) then u else u - 2 ^ (8 * n), rest).

(** with [strict_map_key] a map key is a [str] or a [bytes] *)
Definition map_key_ok (k : value) : bool :=
  match k with
  | VStr _ | VBytes _ => true
  | _ => false
  end.

Section UnpackItems.
Variable unpack_item : list byte -> result (value * list byte).

Fixpoint unpack_list (n : nat) (bs : list byte) : result (list value * list byte) :=
  match n with
  | O => Ok ([], bs)
  | S n' =>
      '(v, bs1) <- unpack_item bs ;;
      '(vs, bs2) <- unpack_list n' bs1 ;;
      Ok (v :: vs, bs2)
  end.

Fixpoint unpack_pairs (n : nat) (bs : list byte)
  : result (list (value * value) * list byte) :=
  match n with
  | O => Ok ([], bs)
  | S n' =>
      '(k, bs1) <- unpack_item bs ;;
      if map_key_ok k then
        '(v, bs2) <- unpack_item bs1 ;;
        '(kvs, bs3) <- unpack_pairs n' bs2 ;;
        Ok ((k, v) :: kvs, bs3)
      else Raise ValueError
  end.
End UnpackItems.

(** with [raw=False] the bytes of a str are decoded as UTF-8; a [str]
    being the [string] of its UTF-8 bytes, the decoding keeps the bytes,
    and the rejection of bytes that are no UTF-8 text is not modelled *)
Definition unpack_str (n : Z) (bs : list byte) : result (value * list byte) :=
  '(b, rest) <- take_bytes n bs ;;
  Ok (VStr (string_of_list_byte b), rest).

Definition unpack_bin (n : Z) (bs : list byte) : result (value * list byte) :=
  '(b, rest) <- take_bytes n bs ;;
  Ok (VBytes b, rest).

Definition unpack_array (un : list byte -> result (value * list byte))
  (n : Z) (bs : list byte) : result (value * list byte) :=
  '(l, rest) <- unpack_list un (Z.to_nat n) bs ;;
  Ok (VList l, rest).

Definition unpack_map (un : list byte -> result (value * list byte))
  (n : Z) (bs : list byte) : result (value * list byte) :=
  '(d, rest) <- unpack_pairs un (Z.to_nat n) bs ;;
  Ok (VDict (dict_of_pairs key_eqb d), rest).

(** the object that starts with the byte [t]; [un] unpacks the items of
    a container.  The formats that [pack] never emits (float32, ext, and
    the reserved byte) are a [FormatError] here. *)
Definition unpack_tag (un : list byte -> result (value * list byte))
  (t : Z) (rest : list byte) : result (value * list byte) :=
  if t <=? 127 then Ok (VInt t, rest)
  else if t <=? 143 then unpack_map un (t - 128) rest
  else if t <=? 159 then unpack_array un (t - 144) rest
  else if t <=? 191 then unpack_str (t - 160) rest
  else if t =? 192 then Ok (VNone, rest)
  else if t =? 194 then Ok (VBool false, rest)
  else if t =? 195 then Ok (VBool true, rest)
  else if t =? 196 then '(n, r) <- take_uint 1 rest ;; unpack_bin n r
  else if t =? 197 then '(n, r) <- take_uint 2 rest ;; unpack_bin n r
  else if t =? 198 then '(n, r) <- take_uint 4 rest ;; unpack_bin n r
  else if t =? 203 then '(f, r) <- take_uint 8 rest ;; Ok (VFloat f, r)
  else if t =? 204 then '(n, r) <- take_uint 1 rest ;; Ok (VInt n, r)
  else if t =? 205 then '(n, r) <- take_uint 2 rest ;; Ok (VInt n, r)
  else if t =? 206 then '(n, r) <- take_uint 4 rest ;; Ok (VInt n, r)
  else if t =? 207 then '(n, r) <- take_uint 8 rest ;; Ok (VInt n, r)
  else if t =? 208 then '(n, r) <- take_sint 1 rest ;; Ok (VInt n, r)
  else if t =? 209 then '(n, r) <- take_sint 2 rest ;; Ok (VInt n, r)
  else if t =? 210 then '(n, r) <- take_sint 4 rest ;; Ok (VInt n, r)
  else if t =? 211 then '(n, r) <- take_sint 8 rest ;; Ok (VInt n, r)
  else if t =? 217 then '(n, r) <- take_uint 1 rest ;; unpack_str n r
  else if t =? 218 then '(n, r) <- take_uint 2 rest ;; unpack_str n r
  else if t =? 219 then '(n, r) <- take_uint 4 rest ;; unpack_str n r
  else if t =? 220 then '(n, r) <- take_uint 2 rest ;; unpack_array un n r
  else if t =? 221 then '(n, r) <- take_uint 4 rest ;; unpack_array un n r
  else if t =? 222 then '(n, r) <- take_uint 2 rest ;; unpack_map un n r
  else if t =? 223 then '(n, r) <- take_uint 4 rest ;; unpack_map un n r
  else if 224 <=? t then Ok (VInt (t - 256), rest)
  else Raise FormatError.

(** One object from the front of [bs].  [nest] bounds the nesting of
    containers as the unpacker's stack does. *)
Fixpoint unpack (nest : nat) (bs : list byte) : result (value * list byte) :=
  match nest with
  | O => Raise StackError
  | S nest' =>
      match bs with
      | [] => Raise OutOfData
      | b :: rest => unpack_tag (unpack nest') (Z_of_byte b) rest
      end
  end.

(** the depth of the unpacker's stack *)
Definition unpack_nest_limit : nat := 1024.

(** [unpackb]: one object, and nothing after it *)
Definition unpackb (bs : list byte) : result value :=
  '(v, rest) <- unpack unpack_nest_limit bs ;;
  match rest with
  | [] => Ok v
  | _ :: _ => Raise ExtraData
  end.

(** The values that [packb] encodes and [unpackb] gives back unchanged:
    integers of 64 bits, items shorter than 2^32, no tuple (it would come
    back as a list), dictionaries keyed by distinct strings or bytes. *)
Fixpoint value_ok (v : value) : bool :=
  match v with
  | VNone | VBool _ => true
  | VInt z => (- 2 ^ 63 <=? z) && (z <? 2 ^ 64)
  | VFloat bits => (0 <=? bits) && (bits <? 2 ^ 64)
  | VStr s => len_Z (list_byte_of_string s) <? 2 ^ 32
  | VBytes b => len_Z b <? 2 ^ 32
  | VList l => (len_Z l <? 2 ^ 32) && forallb value_ok l
  | VTuple _ => false
  | VDict d =>
      (len_Z d <? 2 ^ 32)
      && forallb (fun kv => match kv with
                            | (k, x) => map_key_ok k && value_ok k && value_ok x
                            end) d
      && dict_wf key_eqb d
  end.

(** the nesting of a value: 1 for a scalar *)
Fixpoint depth (v : value) : nat :=
  match v with
  | VList l | VTuple l => S (fold_right (fun x acc => Nat.max (depth x) acc) O l)
  | VDict d =>
      S (fold_right (fun kv acc => match kv with
                                   | (k, x) => Nat.max (depth k) (Nat.max (depth x) acc)
                                   end) O d)
  | _ => 1%nat
  end.

(** a field value of a message: the message is a dictionary, which
    leaves 511 of the packer's 512 levels to its values *)
Definition field_ok (v : value) : bool := value_ok v && (depth v <=? 511)%nat.

(** *** Dataclasses: [asdict(self)] and [cls( **d)] *)

Definition asdict (fields : list (string * value)) : value :=
  VDict (map (fun kv => (VStr (fst kv), snd kv)) fields).

(** the keyword arguments of [cls( **d)]: [d] is a mapping whose keys
    are strings *)
Fixpoint kwargs_of (d : list (value * value)) : result (list (string * value)) :=
  match d with
  | [] => Ok []
  | (VStr k, v) :: d' => kw <- kwargs_of d' ;; Ok ((k, v) :: kw)
  | _ :: _ => Raise TypeError
  end.

Definition kwargs (d : value) : result (list (string * value)) :=
  match d with
  | VDict l => kwargs_of l
  | _ => Raise TypeError
  end.

(** every keyword names a field *)
Definition known (fields : list string) (kw : list (string * value)) : bool :=
  forallb (fun kv => existsb (String.eqb (fst kv)) fields) kw.

Definition required (k : string) (kw : list (string * value)) : result value :=
  of_option TypeError (dict_get String.eqb k kw).

Definition optional (k : string) (default : value) (kw : list (string * value))
  : value :=
  match dict_get String.eqb k kw with
  | Some v => v
  | None => default
  end.

(** The fields of a dataclass are not type-checked by Python: each one
    holds a [value].  [now] is the reading of [time.time()] that the
    default of [timestamp] takes. *)

Module FrameMessage.
Record t : Type := mk {
  wid : value; x : value; y : value; width : value; height : value;
  format : value; data : value; timestamp : value;
  window_title : value; window_class : value; is_focused : value;
  sequence : value }.

Definition fields (m : t) : list (string * value) :=
  [("wid", wid m); ("x", x m); ("y", y m); ("width", width m);
   ("height", height m); ("format", format m); ("data", data m);
   ("timestamp", timestamp m); ("window_title", window_title m);
   ("window_class", window_class m); ("is_focused", is_focused m);
   ("sequence", sequence m)].

Definition names : list string :=
  ["wid"; "x"; "y"; "width"; "height"; "format"; "data"; "timestamp";
   "window_title"; "window_class"; "is_focused"; "sequence"].

Definition serialise (m : t) : result (list byte) := packb (asdict (fields m)).

Definition init (now : Z) (kw : list (string * value)) : result t :=
  if known names kw then
    a <- required "wid" kw ;;
    b <- required "x" kw ;;
    c <- required "y" kw ;;
    d <- required "width" kw ;;
    e <- required "height" kw ;;
    f <- required "format" kw ;;
    g <- required "data" kw ;;
    Ok (mk a b c d e f g
          (optional "timestamp" (VFloat now) kw)
          (optional "window_title" (VStr "") kw)
          (optional "window_class" (VStr "") kw)
          (optional "is_focused" (VBool false) kw)
          (optional "sequence" (VInt 0) kw))
  else Raise TypeError.

Definition deserialise (now : Z) (data : list byte) : result t :=
  d <- unpackb data ;;
  kw <- kwargs d ;;
  init now kw.

Definition valid (m : t) : bool :=
  forallb (fun kv => field_ok (snd kv)) (fields m).
End FrameMessage.

Module EventMessage.
Record t : Type := mk {
  event_type : value; wid : value; timestamp : value; data : value }.

Definition fields (m : t) : list (string * value) :=
  [("event_type", event_type m); ("wid", wid m);
   ("timestamp", timestamp m); ("data", data m)].

Definition names : list string := ["event_type"; "wid"; "timestamp"; "data"].

Definition serialise (m : t) : result (list byte) := packb (asdict (fields m)).

Definition init (now : Z) (kw : list (string * value)) : result t :=
  if known names kw then
    a <- required "event_type" kw ;;
    Ok (mk a
          (optional "wid" (VInt 0) kw)
          (optional "timestamp" (VFloat now) kw)
          (optional "data" (VDict []) kw))
  else Raise TypeError.

Definition deserialise (now : Z) (data : list byte) : result t :=
  d <- unpackb data ;;
  kw <- kwargs d ;;
  init now kw.

Definition valid (m : t) : bool :=
  forallb (fun kv => field_ok (snd kv)) (fields m).
End EventMessage.

Module ControlRequest.
Record t : Type := mk {
  request_type : value; payload : value; request_id : value }.

Definition fields (m : t) : list (string * value) :=
  [("request_type", request_type m); ("payload", payload m);
   ("request_id", request_id m)].

Definition names : list string := ["request_type"; "payload"; "request_id"].

Definition serialise (m : t) : result (list byte) := packb (asdict (fields m)).

Definition init (kw : list (string * value)) : result t :=
  if known names kw then
    a <- required "request_type" kw ;;
    Ok (mk a
          (optional "payload" (VDict []) kw)
          (optional "request_id" (VStr "") kw))
  else Raise TypeError.

Definition deserialise (data : list byte) : result t :=
  d <- unpackb data ;;
  kw <- kwargs d ;;
  init kw.

Definition valid (m : t) : bool :=
  forallb (fun kv => field_ok (snd kv)) (fields m).
End ControlRequest.

Module ControlResponse.
Record t : Type := mk {
  success : value; request_id : value; data : value; error : value }.

Definition fields (m : t) : list (string * value) :=
  [("success", success m); ("request_id", request_id m);
   ("data", data m); ("error", error m)].

Definition names : list string := ["success"; "request_id"; "data"; "error"].

Definition serialise (m : t) : result (list byte) := packb (asdict (fields m)).

Definition init (kw : list (string * value)) : result t :=
  if known names kw then
    a <- required "success" kw ;;
    Ok (mk a
          (optional "request_id" (VStr "") kw)
          (optional "data" VNone kw)
          (optional "error" (VStr "") kw))
  else Raise TypeError.

Definition deserialise (data : list byte) : result t :=
  d <- unpackb data ;;
  kw <- kwargs d ;;
  init kw.

Definition valid (m : t) : bool :=
  forallb (fun kv => field_ok (snd kv)) (fields m).
End ControlResponse.

End Protocol.

(** ** Pillow *)

(** The part of [PIL.Image] that [framebuffer.py] calls.  A mutating method
    ([paste]) returns the image after the call; a method that raises leaves
    its image as it was. *)
Class PIL : Type := {
  Image : Type;
  (** [Image.new("RGB", (w, h), (0, 0, 0))] *)
  image_new : Z -> Z -> result Image;
  (** [Image.frombytes(mode, (w, h), data)] *)
  image_frombytes : string -> Z -> Z -> list byte -> result Image;
  (** [Image.open(io.BytesIO(data))] *)
  image_open : list byte -> result Image;
  (** [img.convert(mode)] *)
  image_convert : Image -> string -> result Image;
  (** [img.paste(region, (x, y))] *)
  image_paste : Image -> Image -> Z -> Z -> result Image;
  (** [img.size] *)
  image_size : Image -> Z * Z;
  (** [img.resize((w, h), Image.LANCZOS)] *)
  image_resize : Image -> Z -> Z -> result Image;
  (** [img.save(buf, format=f, quality=q)] followed by [buf.getvalue()];
      the PNG call passes no quality *)
  image_save : Image -> string -> option Z -> result (list byte);
  (** [img.tobytes()] *)
  image_tobytes : Image -> result (list byte)
}.

(** ** framebuffer.py *)

Module Framebuffer.

(** [a < b] and [int(a)] on the rationals that stand for floats *)
Definition Qltb (a b : Q) : bool := negb (Qle_bool b a).

Definition py_int (q : Q) : Z := Z.quot (Qnum q) (Z.pos (Qden q)).

(** [a / b] of two ints *)
Definition true_div (a b : Z) : result Q :=
  if b =? 0 then Raise ZeroDivisionError else Ok (inject_Z a / inject_Z b)%Q.

(** [coding in (...)] *)
Definition str_in (s : string) (l : list string) : bool :=
  existsb (String.eqb s) l.

Section WithPIL.
Context `{PIL}.

Record WindowFramebuffer : Type := mkWindowFramebuffer {
  wid : Z;
  width : Z;
  height : Z;
  image : Image;
  dirty : bool;
  last_sent : Q;
  sequence : Z }.

Definition set_image (fb : WindowFramebuffer) (img : Image) :=
  mkWindowFramebuffer (wid fb) (width fb) (height fb) img
    (dirty fb) (last_sent fb) (sequence fb).

Definition set_dirty (fb : WindowFramebuffer) (d : bool) :=
  mkWindowFramebuffer (wid fb) (width fb) (height fb) (image fb)
    d (last_sent fb) (sequence fb).

Definition set_size (fb : WindowFramebuffer) (w h : Z) :=
  mkWindowFramebuffer (wid fb) w h (image fb)
    (dirty fb) (last_sent fb) (sequence fb).

Definition set_last_sent (fb : WindowFramebuffer) (t : Q) :=
  mkWindowFramebuffer (wid fb) (width fb) (height fb) (image fb)
    (dirty fb) t (sequence fb).

Definition set_sequence (fb : WindowFramebuffer) (n : Z) :=
  mkWindowFramebuffer (wid fb) (width fb) (height fb) (image fb)
    (dirty fb) (last_sent fb) n.

(** [WindowFramebuffer.__init__] *)
Definition init (wid width height : Z) : result WindowFramebuffer :=
  img <- image_new width height ;;
  Ok (mkWindowFramebuffer wid width height img false 0%Q 0).

(** the decoding branch of [update_region]: [Ok None] is the
    unsupported encoding, for which the method returns early *)
Definition decode_region (w h : Z) (coding : string) (data : list byte)
  : result (option Image) :=
  if str_in coding ["rgb24"; "rgb32"; "rgbx"] then
    let channels := if str_in coding ["rgb32"; "rgbx"] then 4 else 3 in
    let mode := if channels =? 4 then "RGBA" else "RGB" in
    region <- image_frombytes mode w h data ;;
    if String.eqb mode "RGBA"
    then (region' <- image_convert region "RGB" ;; Ok (Some region'))
    else Ok (Some region)
  else if str_in coding ["png"; "jpeg"; "webp"; "png/L"; "png/P"] then
    img <- image_open data ;;
    region <- image_convert img "RGB" ;;
    Ok (Some region)
  else Ok None.

(** the body of the [try] of [update_region] *)
Definition update_region_body (fb : WindowFramebuffer) (x y w h : Z)
  (coding : string) (data : list byte) : result WindowFramebuffer :=
  r <- decode_region w h coding data ;;
  match r with
  | None => Ok fb
  | Some region =>
      img <- image_paste (image fb) region x y ;;
      Ok (set_dirty (set_image fb img) true)
  end.

(** [WindowFramebuffer.update_region]: [except Exception] logs and
    returns *)
Definition update_region (fb : WindowFramebuffer) (x y w h : Z)
  (coding : string) (data : list byte) : WindowFramebuffer :=
  match update_region_body fb x y w h coding data with
  | Ok fb' => fb'
  | Raise _ => fb
  end.

(** [WindowFramebuffer.resize] *)
Definition resize (fb : WindowFramebuffer) (width height : Z)
  : WindowFramebuffer * result unit :=
  let old := image fb in
  match image_new width height with
  | Raise e => (fb, Raise e)
  | Ok blank =>
      match image_paste blank old 0 0 with
      | Raise e => (set_image fb blank, Raise e)
      | Ok img => (set_dirty (set_size (set_image fb img) width height) true, Ok tt)
      end
  end.

(** the part of [snapshot] after the lock is released: downscale, encode *)
Definition downscale (img : Image) (scale : Q) (max_dim : Z) : result Image :=
  let '(w, h) := image_size img in
  if Qltb scale 1 then
    image_resize img (py_int (inject_Z w * scale)) (py_int (inject_Z h * scale))
  else if Z.max w h >? max_dim then
    ratio <- true_div max_dim (Z.max w h) ;;
    image_resize img (py_int (inject_Z w * ratio)) (py_int (inject_Z h * ratio))
  else Ok img.

Definition encode (img : Image) (fmt : string) (quality : Z) : result (list byte) :=
  if String.eqb fmt "jpeg" then image_save img "JPEG" (Some quality)
  else if String.eqb fmt "png" then image_save img "PNG" None
  else if String.eqb fmt "raw" then image_tobytes img
  else image_save img "JPEG" (Some quality).

(** [WindowFramebuffer.snapshot]: [Ok None] is Python's [None].  The
    flag and the counter are written under the lock, before the
    encoding, so they are returned also when the encoding raises. *)
Definition snapshot (fb : WindowFramebuffer) (fmt : string) (quality : Z)
  (scale : Q) (max_dim : Z) : WindowFramebuffer * result (option (list byte)) :=
  if negb (dirty fb) then (fb, Ok None)
  else
    let img := image fb in
    let fb' := set_sequence (set_dirty fb false) (sequence fb + 1) in
    (fb', (img' <- downscale img scale max_dim ;;
           data <- encode img' fmt quality ;;
           Ok (Some data))).

(** *** [FramebufferManager] *)

Record FramebufferManager : Type := mkFramebufferManager {
  _buffers : list (Z * WindowFramebuffer) }.

Definition new_manager : FramebufferManager := mkFramebufferManager [].

Definition create_window (m : FramebufferManager) (wid width height : Z)
  : FramebufferManager * result WindowFramebuffer :=
  match init wid width height with
  | Raise e => (m, Raise e)
  | Ok fb => (mkFramebufferManager (dict_set Z.eqb wid fb (_buffers m)), Ok fb)
  end.

Definition destroy_window (m : FramebufferManager) (wid : Z) : FramebufferManager :=
  mkFramebufferManager (dict_pop Z.eqb wid (_buffers m)).

Definition get (m : FramebufferManager) (wid : Z) : option WindowFramebuffer :=
  dict_get Z.eqb wid (_buffers m).

(** the object that [get] returned has been mutated into [fb] *)
Definition store (m : FramebufferManager) (wid : Z) (fb : WindowFramebuffer) :=
  mkFramebufferManager (dict_set Z.eqb wid fb (_buffers m)).

Definition resize_window (m : FramebufferManager) (wid width height : Z)
  : FramebufferManager * result unit :=
  match get m wid with
  | Some fb => let '(fb', r) := resize fb width height in (store m wid fb', r)
  | None => (m, Ok tt)
  end.

Definition manager_update_region (m : FramebufferManager) (wid x y w h : Z)
  (coding : string) (data : list byte) : FramebufferManager :=
  match get m wid with
  | Some fb => store m wid (update_region fb x y w h coding data)
  | None => m
  end.

(** the rate limit of [get_dirty_snapshots] *)
Definition too_recent (now min_interval : Q) (fb : WindowFramebuffer) : bool :=
  Qltb 0 min_interval && Qltb (now - last_sent fb) min_interval.

(** the loop of [get_dirty_snapshots] over [list(self._buffers.values())];
    the compositors are the objects of the registry, so the ones visited
    before an exception stay mutated *)
Fixpoint collect (now : Q) (fmt : string) (quality : Z) (scale : Q)
  (max_dim : Z) (min_interval : Q) (bufs : list (Z * WindowFramebuffer))
  : list (Z * WindowFramebuffer) * result (list (Z * list byte * Z)) :=
  match bufs with
  | [] => ([], Ok [])
  | (k, fb) :: rest =>
      if too_recent now min_interval fb then
        let '(rest', r) := collect now fmt quality scale max_dim min_interval rest in
        ((k, fb) :: rest', r)
      else
        match snapshot fb fmt quality scale max_dim with
        | (fb', Raise e) => ((k, fb') :: rest, Raise e)
        | (fb', Ok None) =>
            let '(rest', r) := collect now fmt quality scale max_dim min_interval rest in
            ((k, fb') :: rest', r)
        | (fb', Ok (Some data)) =>
            let fb'' := set_last_sent fb' now in
            let '(rest', r) := collect now fmt quality scale max_dim min_interval rest in
            ((k, fb'') :: rest',
             (entries <- r ;; Ok ((wid fb'', data, sequence fb'') :: entries)))
        end
  end.

Definition get_dirty_snapshots (m : FramebufferManager) (now : Q)
  (fmt : string) (quality : Z) (scale : Q) (max_dim : Z) (min_interval : Q)
  : FramebufferManager * result (list (Z * list byte * Z)) :=
  let '(bufs, r) := collect now fmt quality scale max_dim min_interval (_buffers m) in
  (mkFramebufferManager bufs, r).

Definition window_ids (m : FramebufferManager) : list Z := dict_keys (_buffers m).

(** *** Runs of the compositor and of the registry *)

(** [n] calls of [snapshot] in a row, with their answers *)
Fixpoint snapshots (n : nat) (fb : WindowFramebuffer) (fmt : string)
  (quality : Z) (scale : Q) (max_dim : Z)
  : WindowFramebuffer * list (result (option (list byte))) :=
  match n with
  | O => (fb, [])
  | S n' =>
      let '(fb1, r) := snapshot fb fmt quality scale max_dim in
      let '(fb2, rs) := snapshots n' fb1 fmt quality scale max_dim in
      (fb2, r :: rs)
  end.

(** a caller that holds the registry takes a snapshot of one window:
    [fb = self.framebuffers.get(wid)], then [fb.snapshot(...)] *)
Definition snapshot_window (m : FramebufferManager) (wid : Z) (fmt : string)
  (quality : Z) (scale : Q) (max_dim : Z)
  : FramebufferManager * result (option (list byte)) :=
  match get m wid with
  | Some fb =>
      let '(fb', r) := snapshot fb fmt quality scale max_dim in (store m wid fb', r)
  | None => (m, Ok None)
  end.

(** what a call of [get_dirty_snapshots] hands to the publisher *)
Definition published (r : result (list (Z * list byte * Z))) : list (Z * Z) :=
  match r with
  | Ok entries => map (fun e => (fst (fst e), snd e)) entries
  | Raise _ => []
  end.

(** the operations of the registry and of its compositors *)
Inductive op : Type :=
| Create (wid width height : Z)
| ApplyRegion (wid x y w h : Z) (coding : string) (data : list byte)
| Resize (wid width height : Z)
| Snapshot (wid : Z) (fmt : string) (quality : Z) (scale : Q) (max_dim : Z)
| Collect (now : Q) (fmt : string) (quality : Z) (scale : Q) (max_dim : Z)
    (min_interval : Q)
| Destroy (wid : Z).

(** One operation; next to the registry, the snapshots that the caller
    received, each as the window identifier and the sequence number it
    is published with. *)
Definition run_op (m : FramebufferManager) (o : op)
  : FramebufferManager * list (Z * Z) :=
  match o with
  | Create wid width height => (fst (create_window m wid width height), [])
  | ApplyRegion wid x y w h coding data =>
      (manager_update_region m wid x y w h coding data, [])
  | Resize wid width height => (fst (resize_window m wid width height), [])
  | Snapshot wid fmt quality scale max_dim =>
      let '(m', r) := snapshot_window m wid fmt quality scale max_dim in
      (m', match r, get m' wid with
           | Ok (Some _), Some fb => [(wid, sequence fb)]
           | _, _ => []
           end)
  | Collect now fmt quality scale max_dim min_interval =>
      let '(m', r) := get_dirty_snapshots m now fmt quality scale max_dim min_interval in
      (m', published r)
  | Destroy wid => (destroy_window m wid, [])
  end.

Fixpoint run (m : FramebufferManager) (ops : list op)
  : FramebufferManager * list (Z * Z) :=
  match ops with
  | [] => (m, [])
  | o :: ops' =>
      let '(m1, out1) := run_op m o in
      let '(m2, out2) := run m1 ops' in
      (m2, out1 ++ out2)
  end.

(** the counter of the compositor registered under [wid] *)
Definition sequence_of (m : FramebufferManager) (wid : Z) : option Z :=
  option_map sequence (get m wid).

(** the sequence numbers published for [wid] *)
Definition sequences_for (wid : Z) (out : list (Z * Z)) : list Z :=
  map snd (filter (fun e => fst e =? wid) out).

(** [o] registers or removes a compositor under [wid] *)
Definition replaces (wid : Z) (o : op) : bool :=
  match o with
  | Create w _ _ | Destroy w => w =? wid
  | _ => false
  end.

(** every compositor is registered once, under its own identifier *)
Definition registry_ok (m : FramebufferManager) : bool :=
  dict_wf Z.eqb (_buffers m)
  && forallb (fun e => fst e =? wid (snd e)) (_buffers m).

(** the encoding tags that [update_region] decodes *)
Definition supported (coding : string) : bool :=
  str_in coding ["rgb24"; "rgb32"; "rgbx"]
  || str_in coding ["png"; "jpeg"; "webp"; "png/L"; "png/P"].

(** *** The collection, in the words of the specification *)

(** the compositor's [last_sent] is younger than [min_interval] *)
Definition younger (now min_interval : Q) (fb : WindowFramebuffer) : bool :=
  Qltb (now - last_sent fb) min_interval.

(** what the collection does with one compositor: skip it when it is
    too young, else take its snapshot and, when that is present, record
    [last_sent] and append an entry *)
Definition collect_one (now : Q) (fmt : string) (quality : Z) (scale : Q)
  (max_dim : Z) (min_interval : Q) (fb : WindowFramebuffer)
  : WindowFramebuffer * list (Z * list byte * Z) :=
  if younger now min_interval fb then (fb, [])
  else
    match snapshot fb fmt quality scale max_dim with
    | (fb', Ok (Some data)) =>
        (set_last_sent fb' now, [(wid fb', data, sequence fb')])
    | (fb', _) => (fb', [])
    end.

(** no visited compositor makes Pillow raise *)
Definition encodes (now : Q) (fmt : string) (quality : Z) (scale : Q)
  (max_dim : Z) (min_interval : Q) (fb : WindowFramebuffer) : bool :=
  too_recent now min_interval fb
  || is_ok (snd (snapshot fb fmt quality scale max_dim)).

End WithPIL.

End Framebuffer.

(** ** config.py: the settings that the plugin reads *)

Module Config.

Record FrameCaptureConfig : Type := mkFrameCaptureConfig {
  fps : Q;
  format : string;
  quality : Z;
  scale : Q;
  max_dimension : Z;
  delta_only : bool }.

Record ControlConfig : Type := mkControlConfig {
  mode : string;
  kill_switch : string;
  autonomous_timeout : Z;
  human_priority_ms : Z }.

Record Config : Type := mkConfig {
  frame_capture : FrameCaptureConfig;
  control : ControlConfig }.

(** the defaults of the dataclasses *)
Definition default : Config :=
  mkConfig
    (mkFrameCaptureConfig 3 "jpeg" 70 1 1920 true)
    (mkControlConfig "observer" "ctrl+Pause" 300 500).

End Config.

(** ** plugin.py: input gating and queries *)

Module Plugin.
Import Protocol.

(** [send(msg, zmq.NOBLOCK)] on a PUB socket either takes the message or
    raises [zmq.Again]; which of the two is the socket's answer. *)
Inductive send_outcome : Type := Queued | Again.

(** The [EventMessage] that [_publish_event] builds, as it is handed to
    the socket: the value of the event type, the window, the clock
    reading that the default of [timestamp] took, the payload. *)
Record Event : Type := mkEvent {
  event_type : string;
  event_wid : Z;
  event_timestamp : Q;
  event_data : value }.

(** the event that the kill switch publishes when the mode was [old] *)
Definition kill_switch_event (old : InputMode) (now : Q) : Event :=
  mkEvent "kill_switch" 0 now
    (VDict [(VStr "old_mode", VStr (InputMode_value old));
            (VStr "new_mode", VStr "observer")]).

(** the request of the agent for a screenshot of window [w] *)
Definition screenshot_request (rid : value) (w : Z) : ControlRequest.t :=
  ControlRequest.mk (VStr "query")
    (VDict [(VStr "query", VStr "screenshot"); (VStr "wid", VInt w)]) rid.

(** *** What Python does with the values of a packet *)

(** [v.lower()] *)
Definition py_lower (v : value) : result value :=
  match v with
  | VStr s => Ok (VStr (lower s))
  | VBytes b => Ok (VBytes (list_byte_of_string (lower (string_of_list_byte b))))
  | _ => Raise AttributeError
  end.

(** [iter(v)], run to its end; a non-ASCII character of a [str] is seen
    as its bytes *)
Definition py_iter (v : value) : result (list value) :=
  match v with
  | VList l | VTuple l => Ok l
  | VDict d => Ok (dict_keys d)
  | VStr s => Ok (map (fun c => VStr (String c EmptyString)) (list_ascii_of_string s))
  | VBytes b => Ok (map (fun c => VInt (Z_of_byte c)) b)
  | VNone | VBool _ | VInt _ | VFloat _ => Raise TypeError
  end.

Fixpoint map_result {A B} (f : A -> result B) (l : list A) : result (list B) :=
  match l with
  | [] => Ok []
  | a :: l' => b <- f a ;; bs <- map_result f l' ;; Ok (b :: bs)
  end.

(** [hash(v)] succeeds *)
Fixpoint hashable (v : value) : bool :=
  match v with
  | VList _ | VDict _ => false
  | VTuple l => forallb hashable l
  | _ => true
  end.

(** the integer that a binary64 bit pattern denotes, if it denotes one *)
Definition float_int_value (bits : Z) : option Z :=
  let neg := Z.testbit bits 63 in
  let e := (bits / 2 ^ 52) mod 2 ^ 11 in
  let m := bits mod 2 ^ 52 in
  let signed (n : Z) := if neg then - n else n in
  if e =? 2047 then None
  else if e =? 0 then (if m =? 0 then Some 0 else None)
  else
    let mant := 2 ^ 52 + m in
    if 1075 <=? e then Some (signed (mant * 2 ^ (e - 1075)))
    else if mant mod 2 ^ (1075 - e) =? 0 then Some (signed (mant / 2 ^ (1075 - e)))
    else None.

(** the key of an [int]-keyed dict that [v] is equal to: [TypeError] for
    an unhashable [v], [Ok None] when no int is equal to [v] *)
Definition int_key (v : value) : result (option Z) :=
  if hashable v then
    Ok (match v with
        | VInt z => Some z
        | VBool b => Some (if b then 1 else 0)
        | VFloat bits => float_int_value bits
        | _ => None
        end)
  else Raise TypeError.

(** [d.get(k)] on an [int]-keyed dict *)
Definition int_dict_get {V} (d : list (Z * V)) (k : value) : result (option V) :=
  key <- int_key k ;;
  Ok (match key with
      | Some z => dict_get Z.eqb z d
      | None => None
      end).

(** [payload.get(k, default)] *)
Definition payload_get (payload : value) (k : string) (default : value)
  : result value :=
  match payload with
  | VDict d =>
      Ok (match dict_get key_eqb (VStr k) d with
          | Some v => v
          | None => default
          end)
  | _ => Raise AttributeError
  end.

(** [v == s] for a string [s] *)
Definition eq_str (v : value) (s : string) : bool := key_eqb v (VStr s).

(** [bool(v)] *)
Definition truthy (v : value) : bool :=
  match v with
  | VNone => false
  | VBool b => b
  | VInt z => negb (z =? 0)
  | VFloat bits => negb (bits mod 2 ^ 63 =? 0)
  | VStr s => negb (String.eqb s "")
  | VBytes b => negb (len_Z b =? 0)
  | VList l | VTuple l => negb (len_Z l =? 0)
  | VDict d => negb (len_Z d =? 0)
  end.

Section WithHost.
Context `{PIL}.
(** the builtin [str()], used by the f-strings of the error texts *)
Variable py_str : value -> string.

Import Framebuffer.

Record AIControlPlugin : Type := mkAIControlPlugin {
  config : Config.Config;
  mode : InputMode;
  framebuffers : FramebufferManager;
  _window_meta : list (Z * value);
  _focused_wid : Z;
  _human_last_input : Q;
  _autonomous_start : Q;
  (** the calls of [self._event_pub.send], oldest first *)
  _event_pub : list (Event * send_outcome) }.

Definition set_mode (p : AIControlPlugin) (m : InputMode) :=
  mkAIControlPlugin (config p) m (framebuffers p) (_window_meta p)
    (_focused_wid p) (_human_last_input p) (_autonomous_start p) (_event_pub p).

Definition set_human_last_input (p : AIControlPlugin) (t : Q) :=
  mkAIControlPlugin (config p) (mode p) (framebuffers p) (_window_meta p)
    (_focused_wid p) t (_autonomous_start p) (_event_pub p).

Definition set_event_pub (p : AIControlPlugin) (l : list (Event * send_outcome)) :=
  mkAIControlPlugin (config p) (mode p) (framebuffers p) (_window_meta p)
    (_focused_wid p) (_human_last_input p) (_autonomous_start p) l.

Definition set_framebuffers (p : AIControlPlugin) (m : FramebufferManager) :=
  mkAIControlPlugin (config p) (mode p) m (_window_meta p)
    (_focused_wid p) (_human_last_input p) (_autonomous_start p) (_event_pub p).

(** [_publish_event]: the message is sent without blocking and
    [zmq.Again] is swallowed *)
Definition _publish_event (p : AIControlPlugin) (now : Q) (o : send_outcome)
  (event_type : EventType) (wid : Z) (data : option value) : AIControlPlugin :=
  let msg := mkEvent (EventType_value event_type) wid now
               (match data with
                | Some d => if truthy d then d else VDict []
                | None => VDict []
                end) in
  set_event_pub p (_event_pub p ++ [(msg, o)]).

(** the body of the [try] of [_is_kill_switch] *)
Definition _is_kill_switch_body (p : AIControlPlugin) (packet : list value)
  : result bool :=
  let keyname := if len_Z packet >? 2 then nth 2%nat packet VNone else VStr "" in
  let modifiers := if len_Z packet >? 4 then nth 4%nat packet VNone else VList [] in
  let ks := lower (Config.kill_switch (Config.control (config p))) in
  let parts := split "+" ks in
  let key_part := last parts "" in
  let mod_parts := removelast parts in
  k <- py_lower keyname ;;
  if eq_str k key_part then
    ms <- py_iter modifiers ;;
    lowered <- map_result py_lower ms ;;
    Ok (forallb (fun m => existsb (fun l => eq_str l m) lowered) mod_parts)
  else Ok false.

(** [_is_kill_switch] *)
Definition _is_kill_switch (p : AIControlPlugin) (input_type : string)
  (packet : list value) : result bool :=
  if negb (String.eqb input_type "key-action") then Ok false
  else
    match _is_kill_switch_body p packet with
    | Raise IndexError | Raise AttributeError => Ok false
    | r => r
    end.

(** [_trigger_kill_switch] *)
Definition _trigger_kill_switch (p : AIControlPlugin) (now : Q) (o : send_outcome)
  : AIControlPlugin :=
  let old_mode := mode p in
  let p1 := set_mode p OBSERVER in
  _publish_event p1 now o KILL_SWITCH 0
    (Some (VDict [(VStr "old_mode", VStr (InputMode_value old_mode));
                  (VStr "new_mode", VStr "observer")])).

(** [filter_input]: [true] lets the event through to the host.  [now]
    is the clock reading, [o] the answer of the events socket, should the
    call reach them. *)
Definition filter_input (p : AIControlPlugin) (now : Q) (o : send_outcome)
  (input_type : string) (packet : list value) : AIControlPlugin * result bool :=
  match _is_kill_switch p input_type packet with
  | Raise e => (p, Raise e)
  | Ok true => (_trigger_kill_switch p now o, Ok true)
  | Ok false =>
      match mode p with
      | OBSERVER => (p, Ok true)
      | AUTONOMOUS => (p, Ok false)
      | SUPERVISED => (p, Ok true)
      | COLLABORATIVE => (set_human_last_input p now, Ok true)
      end
  end.

(** [ai_can_act] *)
Definition ai_can_act (p : AIControlPlugin) (now : Q) : bool :=
  match mode p with
  | AUTONOMOUS | SUPERVISED => true
  | COLLABORATIVE =>
      let elapsed := ((now - _human_last_input p) * 1000)%Q in
      Qltb (inject_Z (Config.human_priority_ms (Config.control (config p)))) elapsed
  | OBSERVER => false
  end.

Definition response (success : bool) (request_id data : value) (error : string)
  : ControlResponse.t :=
  ControlResponse.mk (VBool success) request_id data (VStr error).

Definition option_value (o : option value) : value :=
  match o with Some v => v | None => VNone end.

(** [_handle_query]; [clipboard] is what [_get_clipboard] reads *)
Definition _handle_query (p : AIControlPlugin) (clipboard : string)
  (req : ControlRequest.t) : AIControlPlugin * result ControlResponse.t :=
  let rid := ControlRequest.request_id req in
  let payload := ControlRequest.payload req in
  match payload_get payload "query" (VStr "") with
  | Raise e => (p, Raise e)
  | Ok query =>
      if eq_str query (QueryType_value WINDOW_LIST) then
        (p, Ok (response true rid (VList (dict_values (_window_meta p))) ""))
      else if eq_str query (QueryType_value WINDOW_INFO) then
        (p, (wid <- payload_get payload "wid" (VInt 0) ;;
             meta <- int_dict_get (_window_meta p) wid ;;
             Ok (response (match meta with Some _ => true | None => false end)
                   rid (option_value meta)
                   (if truthy (option_value meta) then ""
                    else "No window " ++ py_str wid))))
      else if eq_str query (QueryType_value FOCUSED_WINDOW) then
        (p, Ok (response true rid
                  (VDict [(VStr "wid", VInt (_focused_wid p));
                          (VStr "meta",
                           option_value (dict_get Z.eqb (_focused_wid p)
                                           (_window_meta p)))])
                  ""))
      else if eq_str query (QueryType_value SCREENSHOT) then
        match (wid <- payload_get payload "wid" (VInt (_focused_wid p)) ;;
               key <- int_key wid ;;
               Ok (wid, key)) with
        | Raise e => (p, Raise e)
        | Ok (wid, key) =>
            match match key with
                  | Some k => option_map (pair k) (get (framebuffers p) k)
                  | None => None
                  end with
            | Some (k, fb) =>
                let fc := Config.frame_capture (config p) in
                let '(fb', r) :=
                  snapshot fb (Config.format fc) (Config.quality fc)
                    (Config.scale fc) (Config.max_dimension fc) in
                let p' := set_framebuffers p (store (framebuffers p) k fb') in
                match r with
                | Raise e => (p', Raise e)
                | Ok data =>
                    (* [fb.snapshot] is a bound method: it has no
                       [__wrapped__], and the fallback is [b""] *)
                    let data' := match data with Some d => d | None => [] end in
                    (p', Ok (response true rid (VBytes data') ""))
                end
            | None =>
                (p, Ok (response false rid VNone
                          ("No framebuffer for wid " ++ py_str wid)))
            end
        end
      else if eq_str query (QueryType_value CURRENT_MODE) then
        (p, Ok (response true rid
                  (VDict [(VStr "mode", VStr (InputMode_value (mode p)))]) ""))
      else if eq_str query (QueryType_value CLIPBOARD) then
        (p, Ok (response true rid (VDict [(VStr "text", VStr clipboard)]) ""))
      else
        (p, Ok (response false rid VNone ("Unknown query: " ++ py_str query)))
  end.

End WithHost.

End Plugin.

(** ** A small raster implementation of the Pillow interface

    Uncompressed RGB rasters with a toy container format in place of the
    JPEG and PNG codecs.  It is what the examples below run on; no
    general statement depends on it. *)

Module Raster.
Import Protocol.

Definition pixel : Type := (byte * byte * byte)%type.

Record image : Type := mkImage {
  img_w : Z;
  img_h : Z;
  img_px : list pixel (* row after row, [img_w * img_h] of them *) }.

Definition black : pixel := (x00, x00, x00).

Definition new (w h : Z) : result image :=
  if (w <? 0) || (h <? 0) then Raise ValueError
  else Ok (mkImage w h (repeat black (Z.to_nat (w * h)))).

(** the pixels of a raw buffer of [ch] channels per pixel; a fourth
    channel is dropped *)
Fixpoint pixels_of (ch : nat) (fuel : nat) (bs : list byte) : list pixel :=
  match fuel with
  | O => []
  | S fuel' =>
      match bs with
      | r :: g :: b :: rest => (r, g, b) :: pixels_of ch fuel' (skipn (ch - 3) rest)
      | _ => []
      end
  end.

Definition frombytes (mode : string) (w h : Z) (data : list byte) : result image :=
  let ch := if String.eqb mode "RGBA" then 4 else 3 in
  if (w <? 0) || (h <? 0) then Raise ValueError
  else if len_Z data =? ch * w * h
  then Ok (mkImage w h (pixels_of (Z.to_nat ch) (Z.to_nat (w * h)) data))
  else Raise ValueError.

Definition bytes_of (px : list pixel) : list byte :=
  flat_map (fun p => let '(r, g, b) := p in [r; g; b]) px.

(** the container: a tag, the width, the height, the pixels *)
Definition save (img : image) (fmt : string) (quality : option Z)
  : result (list byte) :=
  if (img_w img <? 1) || (img_h img <? 1) || (255 <? img_w img) || (255 <? img_h img)
  then Raise ImageError
  else Ok ((if String.eqb fmt "PNG" then x50 else x4a)
           :: byte_of_Z (img_w img) :: byte_of_Z (img_h img)
           :: bytes_of (img_px img)).

Definition open (data : list byte) : result image :=
  match data with
  | _ :: w :: h :: rest => frombytes "RGB" (Z_of_byte w) (Z_of_byte h) rest
  | _ => Raise ImageError
  end.

Definition pixel_at (img : image) (i j : Z) : pixel :=
  nth (Z.to_nat (j * img_w img + i)) (img_px img) black.

(** the raster whose pixel at column [i], row [j] is [f i j] *)
Definition tabulate (w h : Z) (f : Z -> Z -> pixel) : image :=
  mkImage w h
    (map (fun n => let k := Z.of_nat n in f (k mod w) (k / w))
       (seq 0 (Z.to_nat (w * h)))).

(** paste with clipping to the bounds of [base] *)
Definition paste (base region : image) (x y : Z) : result image :=
  Ok (tabulate (img_w base) (img_h base)
        (fun i j =>
           if (x <=? i) && (i <? x + img_w region)
              && (y <=? j) && (j <? y + img_h region)
           then pixel_at region (i - x) (j - y)
           else pixel_at base i j)).

(** nearest-neighbour resampling *)
Definition resize (img : image) (w h : Z) : result image :=
  if (w <? 1) || (h <? 1) then Raise ValueError
  else Ok (tabulate w h
             (fun i j => pixel_at img (i * img_w img / w) (j * img_h img / h))).

#[export] Instance raster_pil : PIL := {|
  Image := image;
  image_new := new;
  image_frombytes := frombytes;
  image_open := open;
  image_convert := fun img _ => Ok img;
  image_paste := paste;
  image_size := fun img => (img_w img, img_h img);
  image_resize := resize;
  image_save := save;
  image_tobytes := fun img => Ok (bytes_of (img_px img)) |}.

(** [str()] of the values that the examples format *)
Definition str (v : value) : string :=
  match v with
  | VStr s => s
  | VNone => "None"
  | VBool true => "True"
  | VBool false => "False"
  | _ => "?"
  end.

End Raster.

(** ** The inputs of the examples *)

Module Examples.
Import Protocol Framebuffer Plugin Raster.

(** a new window of two pixels by one *)
Definition blank : image := mkImage 2 1 [black; black].

Definition window (wid : Z) : WindowFramebuffer :=
  mkWindowFramebuffer wid 2 1 blank false 0 0.

(** one red pixel, as raw RGB *)
Definition red : list byte := [xff; x00; x00].

Definition red_left : image := mkImage 2 1 [(xff, x00, x00); black].

(** window 1 after the red pixel has been pasted at its origin *)
Definition painted : WindowFramebuffer :=
  mkWindowFramebuffer 1 2 1 red_left true 0 0.

(** the toy JPEG of [red_left] *)
Definition red_left_jpeg : list byte :=
  [x4a; x02; x01; xff; x00; x00; x00; x00; x00].

(** the registry with the windows 1 and 2 *)
Definition two_windows : FramebufferManager :=
  mkFramebufferManager [(1, window 1); (2, window 2)].

Definition two_windows_painted : FramebufferManager :=
  mkFramebufferManager [(1, painted); (2, window 2)].

(** ... after window 1 has been collected at clock reading 100 *)
Definition two_windows_collected : FramebufferManager :=
  mkFramebufferManager
    [(1, mkWindowFramebuffer 1 2 1 red_left false 100 1); (2, window 2)].

(** create, paint, snapshot, and the same once more for the same
    identifier *)
Definition recreate : list op :=
  [Create 1 2 1;
   ApplyRegion 1 0 0 1 1 "rgb24" red;
   Snapshot 1 "jpeg" 70 1 1920;
   Create 1 2 1;
   ApplyRegion 1 0 0 1 1 "rgb24" red;
   Snapshot 1 "jpeg" 70 1 1920].

(** window 1 is painted and its snapshot taken; after a resize, and with
    window 2 coming and going, the collection takes its next snapshot *)
Definition busy : list op :=
  [ApplyRegion 1 0 0 1 1 "rgb24" red;
   Snapshot 1 "jpeg" 70 1 1920;
   Resize 1 2 1;
   Create 2 2 1;
   Collect 100 "png" 70 1 1920 0;
   Destroy 2].

(** a plugin in mode [m] that tracks window 1 *)
Definition plugin (m : InputMode) : AIControlPlugin :=
  mkAIControlPlugin Config.default m
    (mkFramebufferManager [(1, window 1)])
    [(1, VDict [(VStr "wid", VInt 1); (VStr "title", VStr "xterm")])]
    1 0 0 [].

(** the key-action packet of ctrl+Pause:
    [type, wid, keyname, pressed, modifiers] *)
Definition pause_packet : list value :=
  [VStr "key-action"; VInt 1; VStr "Pause"; VBool true;
   VList [VStr "Control"; VStr "ctrl"]].

(** the messages of the tests of the repository; 4611686018427387904 is
    the bit pattern of 2.0 *)
Definition frame : FrameMessage.t :=
  FrameMessage.mk (VInt 1) (VInt 0) (VInt 0) (VInt 800) (VInt 600)
    (VStr "jpeg") (VBytes (list_byte_of_string "fake-jpeg-data"))
    (VFloat 4611686018427387904) (VStr "xterm") (VStr "XTerm")
    (VBool true) (VInt 42).

Definition event : EventMessage.t :=
  EventMessage.mk (VStr "window_create") (VInt 5) (VFloat 4611686018427387904)
    (VDict [(VStr "title", VStr "Firefox"); (VStr "width", VInt 1024)]).

Definition request : ControlRequest.t :=
  ControlRequest.mk (VStr "action")
    (VDict [(VStr "action", VStr "click"); (VStr "wid", VInt 1);
            (VStr "x", VInt 100); (VStr "y", VInt 200); (VStr "button", VInt 1)])
    (VStr "").

Definition reply : ControlResponse.t :=
  ControlResponse.mk (VBool true) (VStr "req-001")
    (VDict [(VStr "mode", VStr "observer")]) (VStr "").

End Examples.

(** ** protocol.py: the helper constructors *)

Module Requests.
Import Protocol.

Inductive ActionType : Type :=
| CLICK | DOUBLE_CLICK | RIGHT_CLICK | MOUSE_MOVE | MOUSE_DOWN | MOUSE_UP
| SCROLL | KEY_PRESS | KEY_DOWN | KEY_UP | TYPE_TEXT | SET_CLIPBOARD.

Definition ActionType_value (a : ActionType) : string :=
  match a with
  | CLICK => "click"
  | DOUBLE_CLICK => "double_click"
  | RIGHT_CLICK => "right_click"
  | MOUSE_MOVE => "mouse_move"
  | MOUSE_DOWN => "mouse_down"
  | MOUSE_UP => "mouse_up"
  | SCROLL => "scroll"
  | KEY_PRESS => "key_press"
  | KEY_DOWN => "key_down"
  | KEY_UP => "key_up"
  | TYPE_TEXT => "type_text"
  | SET_CLIPBOARD => "set_clipboard"
  end.

(** the dict display [{k: v, **kwargs}]: a keyword equal to [k] replaces
    [v] and keeps its place *)
Definition display (k : string) (v : value) (kwargs : list (string * value))
  : value :=
  VDict (fold_left (fun d kv => dict_set key_eqb (VStr (fst kv)) (snd kv) d)
           kwargs [(VStr k, v)]).

Definition make_action (action_type : ActionType) (kwargs : list (string * value))
  : ControlRequest.t :=
  ControlRequest.mk (VStr "action")
    (display "action" (VStr (ActionType_value action_type)) kwargs) (VStr "").

Definition make_query (query_type : QueryType) (kwargs : list (string * value))
  : ControlRequest.t :=
  ControlRequest.mk (VStr "query")
    (display "query" (VStr (QueryType_value query_type)) kwargs) (VStr "").

Definition make_mode_change (mode : InputMode) : ControlRequest.t :=
  ControlRequest.mk (VStr "mode")
    (VDict [(VStr "mode", VStr (InputMode_value mode))]) (VStr "").

(** The keyword dictionaries that the wire carries unchanged: fewer than
    2^32 keys, each a string that [packb] accepts and no key twice, and
    values that [packb] and [unpackb] give back. *)
Definition carried (kw : list (string * value)) : bool :=
  (len_Z kw <? 2 ^ 32)
  && forallb (fun kv => value_ok (VStr (fst kv))) kw
  && dict_wf String.eqb kw
  && forallb (fun kv => field_ok (snd kv)) kw.

End Requests.

(** ** plugin.py: the hooks, the control requests and the frame publisher *)

Module Control.
Import Protocol Framebuffer Plugin Requests.

(** The calls of the injection methods, [_inject_click] to
    [_set_clipboard], with their arguments as [_handle_action] passes
    them.  What a call does on the display (XTest, or xdotool and xclip)
    is outside the program. *)
Inductive injection : Type :=
| InjectClick (wid x y button : value) (count : Z)
| InjectMouseMove (x y : value)
| InjectScroll (x y dx dy : value)
| InjectKey (key : value) (press release : bool)
| InjectText (text : value)
| SetClipboard (text : value).

(** [InputMode(v)]: only a [str] is equal to the value of a member *)
Definition InputMode_of_value (v : value) : result InputMode :=
  match v with
  | VStr s => InputMode_of_string s
  | _ => Raise ValueError
  end.

(** [p[k]] on the payload *)
Definition payload_item (payload : value) (k : string) : result value :=
  match payload with
  | VDict d => of_option KeyError (dict_get key_eqb (VStr k) d)
  | _ => Raise TypeError
  end.

(** [meta.update( **kw)] and [meta[k] = v] *)
Definition py_update (meta : value) (kw : list (string * value)) : result value :=
  match meta with
  | VDict d =>
      Ok (VDict (fold_left (fun d kv => dict_set key_eqb (VStr (fst kv)) (snd kv) d)
                   kw d))
  | _ => Raise AttributeError
  end.

Definition py_setitem (meta : value) (k : string) (v : value) : result value :=
  match meta with
  | VDict d => Ok (VDict (dict_set key_eqb (VStr k) v d))
  | _ => Raise TypeError
  end.

(** the window that an operation of the registry is addressed to; the
    collection visits all of them *)
Definition addressed_to (o : op) : option Z :=
  match o with
  | Create w _ _ | ApplyRegion w _ _ _ _ _ _ | Resize w _ _
  | Snapshot w _ _ _ _ | Destroy w => Some w
  | Collect _ _ _ _ _ _ => None
  end.

(** The sockets and counters of the frame publisher. *)
Record FramePublisher : Type := mkFramePublisher {
  (** the calls of [self._frame_pub.send], oldest first *)
  _frame_pub : list (list byte * send_outcome);
  _frames_sent : Z;
  _last_stats : Q }.

(** how the [try] of one round of the publisher ended *)
Inductive round_end : Type :=
| Completed
| HighWaterMark            (* [zmq.Again], passed over *)
| Logged (e : exn).        (* any other exception, logged *)

Section WithHost.
Context `{PIL}.
(** the builtin [str()] on the values and on the exceptions that the
    error texts are made of *)
Variable py_str : value -> string.
Variable exn_str : exn -> string.
(** what the body of an injection method does: it returns or raises *)
Variable sink : injection -> result unit.

Definition set_window_meta (p : AIControlPlugin) (d : list (Z * value)) :=
  mkAIControlPlugin (config p) (mode p) (framebuffers p) d
    (_focused_wid p) (_human_last_input p) (_autonomous_start p) (_event_pub p).

Definition set_focused_wid (p : AIControlPlugin) (w : Z) :=
  mkAIControlPlugin (config p) (mode p) (framebuffers p) (_window_meta p)
    w (_human_last_input p) (_autonomous_start p) (_event_pub p).

Definition set_autonomous_start (p : AIControlPlugin) (t : Q) :=
  mkAIControlPlugin (config p) (mode p) (framebuffers p) (_window_meta p)
    (_focused_wid p) (_human_last_input p) t (_event_pub p).

(** *** The hooks

    [now] is the clock reading and [o] the answer of the events socket. *)

(** [on_draw] *)
Definition on_draw (p : AIControlPlugin) (wid x y width height : Z)
  (coding : string) (data : list byte) : AIControlPlugin :=
  set_framebuffers p
    (manager_update_region (framebuffers p) wid x y width height coding data).

(** [on_new_window]; the geometry, the title, the class and the process
    identifier are what the helpers read from the window object *)
Definition on_new_window (p : AIControlPlugin) (now : Q) (o : send_outcome)
  (wid x y w h : Z) (title wm_class : string) (pid : value)
  : AIControlPlugin * result unit :=
  match create_window (framebuffers p) wid w h with
  | (m, Raise e) => (set_framebuffers p m, Raise e)
  | (m, Ok _) =>
      let meta :=
        VDict [(VStr "wid", VInt wid); (VStr "title", VStr title);
               (VStr "wm_class", VStr wm_class);
               (VStr "x", VInt x); (VStr "y", VInt y);
               (VStr "width", VInt w); (VStr "height", VInt h);
               (VStr "pid", pid)] in
      let p1 := set_framebuffers p m in
      let p2 := set_window_meta p1 (dict_set Z.eqb wid meta (_window_meta p1)) in
      (_publish_event p2 now o WINDOW_CREATE wid (Some meta), Ok tt)
  end.

(** [on_window_destroyed] *)
Definition on_window_destroyed (p : AIControlPlugin) (now : Q) (o : send_outcome)
  (wid : Z) : AIControlPlugin :=
  let p1 := set_framebuffers p (destroy_window (framebuffers p) wid) in
  let p2 := set_window_meta p1 (dict_pop Z.eqb wid (_window_meta p1)) in
  _publish_event p2 now o WINDOW_DESTROY wid None.

(** [on_window_resize]: the dictionary that [get(wid, {})] makes up for
    an unknown window is updated and dropped *)
Definition on_window_resize (p : AIControlPlugin) (now : Q) (o : send_outcome)
  (wid width height : Z) : AIControlPlugin * result unit :=
  let '(m, r) := resize_window (framebuffers p) wid width height in
  let p1 := set_framebuffers p m in
  match r with
  | Raise e => (p1, Raise e)
  | Ok _ =>
      let kw := [("width", VInt width); ("height", VInt height)] in
      match match dict_get Z.eqb wid (_window_meta p1) with
            | Some meta =>
                meta' <- py_update meta kw ;;
                Ok (set_window_meta p1 (dict_set Z.eqb wid meta' (_window_meta p1)))
            | None => Ok p1
            end with
      | Raise e => (p1, Raise e)
      | Ok p2 =>
          (_publish_event p2 now o WINDOW_RESIZE wid
             (Some (VDict [(VStr "width", VInt width); (VStr "height", VInt height)])),
           Ok tt)
      end
  end.

(** [on_focus_change] *)
Definition on_focus_change (p : AIControlPlugin) (now : Q) (o : send_outcome)
  (wid : Z) : AIControlPlugin :=
  _publish_event (set_focused_wid p wid) now o WINDOW_FOCUS wid None.

(** [on_title_change] *)
Definition on_title_change (p : AIControlPlugin) (now : Q) (o : send_outcome)
  (wid : Z) (title : string) : AIControlPlugin * result unit :=
  match match dict_get Z.eqb wid (_window_meta p) with
        | Some meta =>
            meta' <- py_setitem meta "title" (VStr title) ;;
            Ok (set_window_meta p (dict_set Z.eqb wid meta' (_window_meta p)))
        | None => Ok p
        end with
  | Raise e => (p, Raise e)
  | Ok p1 =>
      (_publish_event p1 now o WINDOW_TITLE wid
         (Some (VDict [(VStr "title", VStr title)])),
       Ok tt)
  end.

(** *** The control requests *)

(** [_handle_mode_change]; [now] is the clock reading that
    [_autonomous_start] takes and [later] the one of the event *)
Definition _handle_mode_change (p : AIControlPlugin) (now later : Q)
  (o : send_outcome) (req : ControlRequest.t)
  : AIControlPlugin * result ControlResponse.t :=
  let rid := ControlRequest.request_id req in
  match payload_get (ControlRequest.payload req) "mode" (VStr "") with
  | Raise e => (p, Raise e)
  | Ok new_mode_str =>
      match InputMode_of_value new_mode_str with
      | Raise _ =>
          (p, Ok (response false rid VNone
                    ("Invalid mode: " ++ py_str new_mode_str)))
      | Ok new_mode =>
          let old_mode := mode p in
          let p1 := set_mode p new_mode in
          let p2 := match new_mode with
                    | AUTONOMOUS => set_autonomous_start p1 now
                    | _ => p1
                    end in
          let p3 :=
            _publish_event p2 later o MODE_CHANGE 0
              (Some (VDict [(VStr "old_mode", VStr (InputMode_value old_mode));
                            (VStr "new_mode", VStr (InputMode_value new_mode))])) in
          (p3, Ok (response true rid
                     (VDict [(VStr "mode", VStr (InputMode_value new_mode))]) ""))
      end
  end.

(** the arguments of the call that [_handle_action] makes for [action];
    [None] for an action that no branch names *)
Definition injection_of (action p : value) : result (option injection) :=
  if eq_str action (ActionType_value CLICK) then
    wid <- payload_get p "wid" (VInt 0) ;;
    x <- payload_item p "x" ;;
    y <- payload_item p "y" ;;
    button <- payload_get p "button" (VInt 1) ;;
    Ok (Some (InjectClick wid x y button 1))
  else if eq_str action (ActionType_value DOUBLE_CLICK) then
    wid <- payload_get p "wid" (VInt 0) ;;
    x <- payload_item p "x" ;;
    y <- payload_item p "y" ;;
    button <- payload_get p "button" (VInt 1) ;;
    Ok (Some (InjectClick wid x y button 2))
  else if eq_str action (ActionType_value RIGHT_CLICK) then
    wid <- payload_get p "wid" (VInt 0) ;;
    x <- payload_item p "x" ;;
    y <- payload_item p "y" ;;
    Ok (Some (InjectClick wid x y (VInt 3) 1))
  else if eq_str action (ActionType_value MOUSE_MOVE) then
    x <- payload_item p "x" ;;
    y <- payload_item p "y" ;;
    Ok (Some (InjectMouseMove x y))
  else if eq_str action (ActionType_value SCROLL) then
    x <- payload_item p "x" ;;
    y <- payload_item p "y" ;;
    dx <- payload_get p "dx" (VInt 0) ;;
    dy <- payload_get p "dy" (VInt (-3)) ;;
    Ok (Some (InjectScroll x y dx dy))
  else if eq_str action (ActionType_value KEY_PRESS) then
    key <- payload_item p "key" ;;
    Ok (Some (InjectKey key true true))
  else if eq_str action (ActionType_value KEY_DOWN) then
    key <- payload_item p "key" ;;
    Ok (Some (InjectKey key true false))
  else if eq_str action (ActionType_value KEY_UP) then
    key <- payload_item p "key" ;;
    Ok (Some (InjectKey key false true))
  else if eq_str action (ActionType_value TYPE_TEXT) then
    text <- payload_item p "text" ;;
    Ok (Some (InjectText text))
  else if eq_str action (ActionType_value SET_CLIPBOARD) then
    text <- payload_item p "text" ;;
    Ok (Some (SetClipboard text))
  else Ok None.

(** The members of [ActionType] that a branch of [_handle_action]
    names, and the keys that the branch reads with [p[...]]. *)
Definition handled (a : ActionType) : bool :=
  match a with
  | MOUSE_DOWN | MOUSE_UP => false
  | _ => true
  end.

Definition required_items (a : ActionType) : list string :=
  match a with
  | CLICK | DOUBLE_CLICK | RIGHT_CLICK | MOUSE_MOVE | SCROLL => ["x"; "y"]
  | KEY_PRESS | KEY_DOWN | KEY_UP => ["key"]
  | TYPE_TEXT | SET_CLIPBOARD => ["text"]
  | MOUSE_DOWN | MOUSE_UP => []
  end.

(** the call of an injection method: [_inject_text] and [_set_clipboard]
    catch what their body raises *)
Definition inject (i : injection) : result unit :=
  match i with
  | InjectText _ | SetClipboard _ =>
      match sink i with
      | Ok _ | Raise _ => Ok tt
      end
  | _ => sink i
  end.

(** [_handle_action]; next to the response, the calls of the injection
    methods that were made *)
Definition _handle_action (p : AIControlPlugin) (now : Q) (req : ControlRequest.t)
  : list injection * result ControlResponse.t :=
  let rid := ControlRequest.request_id req in
  if negb (ai_can_act p now) then
    ([], Ok (response false rid VNone
               ("AI cannot act in mode: " ++ InputMode_value (mode p))))
  else
    match payload_get (ControlRequest.payload req) "action" (VStr "") with
    | Raise e => ([], Raise e)
    | Ok action =>
        match injection_of action (ControlRequest.payload req) with
        | Raise e => ([], Ok (response false rid VNone (exn_str e)))
        | Ok None =>
            ([], Ok (response false rid VNone
                       ("Unknown action: " ++ py_str action)))
        | Ok (Some i) =>
            ([i], Ok (match inject i with
                      | Ok _ => response true rid VNone ""
                      | Raise e => response false rid VNone (exn_str e)
                      end))
        end
    end.

(** [_handle_request]; [clipboard] is what [_get_clipboard] reads *)
Definition _handle_request (p : AIControlPlugin) (now later : Q)
  (o : send_outcome) (clipboard : string) (req : ControlRequest.t)
  : AIControlPlugin * list injection * ControlResponse.t :=
  let rid := ControlRequest.request_id req in
  let caught (r : result ControlResponse.t) :=
    match r with
    | Ok resp => resp
    | Raise e => response false rid VNone (exn_str e)
    end in
  let request_type := ControlRequest.request_type req in
  if eq_str request_type "action" then
    let '(calls, r) := _handle_action p now req in (p, calls, caught r)
  else if eq_str request_type "query" then
    let '(p', r) := _handle_query py_str p clipboard req in (p', [], caught r)
  else if eq_str request_type "mode" then
    let '(p', r) := _handle_mode_change p now later o req in (p', [], caught r)
  else
    (p, [], response false rid VNone
              ("Unknown request type: " ++ py_str request_type)).

(** the reply of the [except] clause of [_control_handler_loop]; nothing
    is sent when it cannot be encoded *)
Definition error_reply (e : exn) : option (list byte) :=
  match ControlResponse.serialise (response false (VStr "") VNone (exn_str e)) with
  | Ok raw => Some raw
  | Raise _ => None
  end.

(** One request of [_control_handler_loop]: [raw] is what the socket
    received; the last component is what is sent back. *)
Definition _control_handler_step (p : AIControlPlugin) (now later : Q)
  (o : send_outcome) (clipboard : string) (raw : list byte)
  : AIControlPlugin * list injection * option (list byte) :=
  match ControlRequest.deserialise raw with
  | Raise e => (p, [], error_reply e)
  | Ok request =>
      let '(p', calls, resp) := _handle_request p now later o clipboard request in
      match ControlResponse.serialise resp with
      | Ok reply => (p', calls, Some reply)
      | Raise e => (p', calls, error_reply e)
      end
  end.

(** *** The frame publisher *)

(** [max(cfg.fps, 0.1)] and the interval of the loop *)
Definition interval (cfg : Config.FrameCaptureConfig) : Q :=
  let tenth := (1 # 10)%Q in
  (1 / (if Qltb (Config.fps cfg) tenth then tenth else Config.fps cfg))%Q.

(** the [FrameMessage] of one snapshot; [stamp] is the bit pattern of
    the clock reading that the default of [timestamp] takes *)
Definition frame_message (p : AIControlPlugin) (stamp : Z) (wid : Z)
  (data : list byte) (seq : Z) : result FrameMessage.t :=
  let meta := match dict_get Z.eqb wid (_window_meta p) with
              | Some meta => meta
              | None => VDict []
              end in
  width <- payload_get meta "width" (VInt 0) ;;
  height <- payload_get meta "height" (VInt 0) ;;
  window_title <- payload_get meta "title" (VStr "") ;;
  window_class <- payload_get meta "wm_class" (VStr "") ;;
  Ok (FrameMessage.mk (VInt wid) (VInt 0) (VInt 0) width height
        (VStr (Config.format (Config.frame_capture (config p)))) (VBytes data)
        (VFloat stamp) window_title window_class
        (VBool (wid =? _focused_wid p)) (VInt seq)).

(** the [for] loop over the snapshots: [stamp k] and [answer k] are the
    clock reading and the answer of the frames socket at the message
    number [k] of the round *)
Fixpoint send_frames (p : AIControlPlugin) (stamp : nat -> Z)
  (answer : nat -> send_outcome) (k : nat) (pub : FramePublisher)
  (snapshots : list (Z * list byte * Z)) : FramePublisher * round_end :=
  match snapshots with
  | [] => (pub, Completed)
  | (wid, data, seq) :: rest =>
      match (msg <- frame_message p (stamp k) wid data seq ;;
             FrameMessage.serialise msg) with
      | Raise e => (pub, Logged e)
      | Ok raw =>
          let sent := _frame_pub pub ++ [(raw, answer k)] in
          match answer k with
          | Again =>
              (mkFramePublisher sent (_frames_sent pub) (_last_stats pub),
               HighWaterMark)
          | Queued =>
              send_frames p stamp answer (S k)
                (mkFramePublisher sent (_frames_sent pub + 1) (_last_stats pub))
                rest
          end
      end
  end.

(** One round of [_frame_publisher_loop], up to the sleep.  [now] is the
    clock reading of the collection, [stats_now] the one of the
    statistics and [stats_interval] the interval of the logging
    configuration. *)
Definition _frame_publisher_round (p : AIControlPlugin) (pub : FramePublisher)
  (now : Q) (stamp : nat -> Z) (answer : nat -> send_outcome)
  (stats_now stats_interval : Q)
  : AIControlPlugin * FramePublisher * round_end :=
  let cfg := Config.frame_capture (config p) in
  let '(m, r) :=
    get_dirty_snapshots (framebuffers p) now (Config.format cfg)
      (Config.quality cfg) (Config.scale cfg) (Config.max_dimension cfg)
      (if Config.delta_only cfg then interval cfg else 0%Q) in
  let p' := set_framebuffers p m in
  match r with
  | Raise e => (p', pub, Logged e)
  | Ok snapshots =>
      match send_frames p' stamp answer O pub snapshots with
      | (pub', Completed) =>
          (p',
           if Qltb stats_interval (stats_now - _last_stats pub')
           then mkFramePublisher (_frame_pub pub') 0 stats_now
           else pub',
           Completed)
      | (pub', e) => (p', pub', e)
      end
  end.

(** *** The plugin at work

    The calls that reach the plugin: the hooks and the input filter from
    the server, a request from the control socket, a round of the frame
    publisher; each with what it reads from outside.  They are taken one
    after the other. *)
Inductive call : Type :=
| Draw (wid x y width height : Z) (coding : string) (data : list byte)
| NewWindow (now : Q) (o : send_outcome) (wid x y w h : Z)
    (title wm_class : string) (pid : value)
| WindowDestroyed (now : Q) (o : send_outcome) (wid : Z)
| WindowResize (now : Q) (o : send_outcome) (wid width height : Z)
| FocusChange (now : Q) (o : send_outcome) (wid : Z)
| TitleChange (now : Q) (o : send_outcome) (wid : Z) (title : string)
| Input (now : Q) (o : send_outcome) (input_type : string) (packet : list value)
| Request (now later : Q) (o : send_outcome) (clipboard : string) (raw : list byte)
| PublisherRound (now : Q) (stamp : nat -> Z) (answer : nat -> send_outcome)
    (stats_now stats_interval : Q).

(** [c] hands the plugin a request of the type "mode" *)
Definition mode_request (c : call) : bool :=
  match c with
  | Request _ _ _ _ raw =>
      match ControlRequest.deserialise raw with
      | Ok req => eq_str (ControlRequest.request_type req) "mode"
      | Raise _ => false
      end
  | _ => false
  end.

(** one call; next to the state, the calls of the injection methods
    that it made *)
Definition run_call (s : AIControlPlugin * FramePublisher) (c : call)
  : AIControlPlugin * FramePublisher * list injection :=
  let '(p, pub) := s in
  match c with
  | Draw wid x y width height coding data =>
      (on_draw p wid x y width height coding data, pub, [])
  | NewWindow now o wid x y w h title wm_class pid =>
      (fst (on_new_window p now o wid x y w h title wm_class pid), pub, [])
  | WindowDestroyed now o wid => (on_window_destroyed p now o wid, pub, [])
  | WindowResize now o wid width height =>
      (fst (on_window_resize p now o wid width height), pub, [])
  | FocusChange now o wid => (on_focus_change p now o wid, pub, [])
  | TitleChange now o wid title =>
      (fst (on_title_change p now o wid title), pub, [])
  | Input now o input_type packet =>
      (fst (filter_input p now o input_type packet), pub, [])
  | Request now later o clipboard raw =>
      let '(p', calls, _) := _control_handler_step p now later o clipboard raw in
      (p', pub, calls)
  | PublisherRound now stamp answer stats_now stats_interval =>
      let '(p', pub', _) :=
        _frame_publisher_round p pub now stamp answer stats_now stats_interval in
      (p', pub', [])
  end.

Fixpoint run_calls (s : AIControlPlugin * FramePublisher) (cs : list call)
  : AIControlPlugin * FramePublisher * list injection :=
  match cs with
  | [] => (s, [])
  | c :: cs' =>
      let '(s1, calls1) := run_call s c in
      let '(s2, calls2) := run_calls s1 cs' in
      (s2, calls1 ++ calls2)
  end.

End WithHost.

End Control.

(** ** agent.py: the control interface of the agent *)

Module Agent.
Import Protocol Plugin Requests.

(** what a method of the agent raises: its own [RuntimeError], the
    [zmq.Again] of a receive that timed out, or an exception of the
    message classes *)
Inductive error : Type :=
| NotConnected
| TimedOut
| Python (e : exn).

Inductive outcome (A : Type) : Type :=
| Returns (a : A)
| Raises (e : error).
Arguments Returns {A} a.
Arguments Raises {A} e.

Definition lift {A} (r : result A) : outcome A :=
  match r with
  | Ok a => Returns a
  | Raise e => Raises (Python e)
  end.

Definition and_then {A B} (r : outcome A) (k : A -> outcome B) : outcome B :=
  match r with
  | Returns a => k a
  | Raises e => Raises e
  end.

Section WithPeer.
(** whether [connect] has been called *)
Variable _connected : bool.
(** the REQ socket: the reply to the bytes sent, if one comes in time *)
Variable exchange : list byte -> option (list byte).

(** [_send_request] *)
Definition _send_request (req : ControlRequest.t) : outcome ControlResponse.t :=
  if negb _connected then Raises NotConnected
  else
    and_then (lift (ControlRequest.serialise req)) (fun raw =>
    match exchange raw with
    | None => Raises TimedOut
    | Some reply => lift (ControlResponse.deserialise reply)
    end).

(** [resp.data if resp.success else default] *)
Definition data_or (default : value) (resp : ControlResponse.t) : value :=
  if truthy (ControlResponse.success resp) then ControlResponse.data resp
  else default.

(** [resp.data.get(k, default) if resp.success else default] *)
Definition item_or (k : string) (default : value) (resp : ControlResponse.t)
  : outcome value :=
  if truthy (ControlResponse.success resp)
  then lift (payload_get (ControlResponse.data resp) k default)
  else Returns default.

Definition act (action_type : ActionType) (kwargs : list (string * value))
  : outcome value :=
  and_then (_send_request (make_action action_type kwargs)) (fun resp =>
  Returns (ControlResponse.success resp)).

Definition click (x y wid button : value) : outcome value :=
  act CLICK [("wid", wid); ("x", x); ("y", y); ("button", button)].

Definition double_click (x y wid : value) : outcome value :=
  act DOUBLE_CLICK [("wid", wid); ("x", x); ("y", y)].

Definition right_click (x y wid : value) : outcome value :=
  act RIGHT_CLICK [("wid", wid); ("x", x); ("y", y)].

Definition mouse_move (x y : value) : outcome value :=
  act MOUSE_MOVE [("x", x); ("y", y)].

Definition scroll (x y dy : value) : outcome value :=
  act SCROLL [("x", x); ("y", y); ("dy", dy)].

Definition key_press (key : value) : outcome value := act KEY_PRESS [("key", key)].

Definition key_down (key : value) : outcome value := act KEY_DOWN [("key", key)].

Definition key_up (key : value) : outcome value := act KEY_UP [("key", key)].

Definition type_text (text : value) : outcome value := act TYPE_TEXT [("text", text)].

Definition set_clipboard (text : value) : outcome value :=
  act SET_CLIPBOARD [("text", text)].

Definition query_windows : outcome value :=
  and_then (_send_request (make_query WINDOW_LIST [])) (fun resp =>
  Returns (data_or (VList []) resp)).

Definition query_window (wid : value) : outcome value :=
  and_then (_send_request (make_query WINDOW_INFO [("wid", wid)])) (fun resp =>
  Returns (data_or VNone resp)).

Definition query_focused : outcome value :=
  and_then (_send_request (make_query FOCUSED_WINDOW [])) (fun resp =>
  Returns (data_or VNone resp)).

Definition query_clipboard : outcome value :=
  and_then (_send_request (make_query CLIPBOARD [])) (item_or "text" (VStr "")).

(** [get_screenshot]: [wid] is [None] for the focused window *)
Definition get_screenshot (wid : value) : outcome value :=
  let kwargs := match wid with
                | VNone => []
                | _ => [("wid", wid)]
                end in
  and_then (_send_request (make_query SCREENSHOT kwargs)) (fun resp =>
  Returns (data_or VNone resp)).

(** [set_mode] *)
Definition set_mode (mode : string) : outcome value :=
  and_then (lift (InputMode_of_string mode)) (fun m =>
  and_then (_send_request (make_mode_change m)) (fun resp =>
  Returns (ControlResponse.success resp))).

(** [get_mode] *)
Definition get_mode : outcome value :=
  and_then (_send_request (make_query CURRENT_MODE []))
    (item_or "mode" (VStr "unknown")).

End WithPeer.

End Agent.

(** ** The inputs of the examples of the control plane *)

Module Session.
Import Protocol Framebuffer Plugin Raster Examples Requests Control.

(** [str()] of an exception, in the examples the name of its class *)
Definition exn_name (e : exn) : string :=
  match e with
  | TypeError => "TypeError"
  | ValueError => "ValueError"
  | AttributeError => "AttributeError"
  | IndexError => "IndexError"
  | KeyError => "KeyError"
  | OverflowError => "OverflowError"
  | ZeroDivisionError => "ZeroDivisionError"
  | OutOfData => "OutOfData"
  | ExtraData => "ExtraData"
  | StackError => "StackError"
  | FormatError => "FormatError"
  | ImageError => "ImageError"
  end.

(** a display on which every injection succeeds *)
Definition accept (i : injection) : result unit := Ok tt.

(** a publisher that has sent nothing *)
Definition idle : FramePublisher := mkFramePublisher [] 0 0.

End Session.

(* ================================================================= *)
(** * Properties *)

(** ** Dictionaries *)

Section DictFacts.
Context {V : Type}.
Implicit Types (d : list (Z * V)) (k : Z) (v : V).

Lemma dict_get_None_pop d k :
  dict_get Z.eqb k d = None -> dict_pop Z.eqb k d = d.
Proof.
  induction d as [|[k' v'] d IH]; simpl; intros Hget.
  - reflexivity.
  - destruct (Z.eqb k k'); [discriminate|].
    now rewrite IH.
Qed.

Lemma dict_get_pop_same d k : dict_get Z.eqb k (dict_pop Z.eqb k d) = None.
Proof.
  induction d as [|[k' v'] d IH]; simpl.
  - reflexivity.
  - destruct (Z.eqb k k') eqn:E; simpl; [assumption|].
    now rewrite E.
Qed.

Lemma dict_get_pop_other d k k' :
  k <> k' -> dict_get Z.eqb k (dict_pop Z.eqb k' d) = dict_get Z.eqb k d.
Proof.
  intros Hne. induction d as [|[k0 v0] d IH]; simpl.
  - reflexivity.
  - destruct (Z.eqb k' k0) eqn:E'; simpl.
    + apply Z.eqb_eq in E'. subst k0.
      destruct (Z.eqb k k') eqn:E; [apply Z.eqb_eq in E; contradiction|].
      assumption.
    + destruct (Z.eqb k k0); [reflexivity|assumption].
Qed.

Lemma dict_get_set_same d k v : dict_get Z.eqb k (dict_set Z.eqb k v d) = Some v.
Proof.
  induction d as [|[k' v'] d IH]; simpl.
  - now rewrite Z.eqb_refl.
  - destruct (Z.eqb k k') eqn:E; simpl; rewrite E; [reflexivity|assumption].
Qed.

Lemma dict_get_set_other d k k' v :
  k <> k' -> dict_get Z.eqb k (dict_set Z.eqb k' v d) = dict_get Z.eqb k d.
Proof.
  intros Hne. induction d as [|[k0 v0] d IH]; simpl.
  - destruct (Z.eqb k k') eqn:E; [apply Z.eqb_eq in E; contradiction|reflexivity].
  - destruct (Z.eqb k' k0) eqn:E'; simpl.
    + apply Z.eqb_eq in E'. subst k0.
      destruct (Z.eqb k k') eqn:E; [apply Z.eqb_eq in E; contradiction|reflexivity].
    + destruct (Z.eqb k k0); [reflexivity|assumption].
Qed.

(** writing back the object that is already stored changes nothing *)
Lemma dict_set_get_id d k v :
  dict_get Z.eqb k d = Some v -> dict_set Z.eqb k v d = d.
Proof.
  induction d as [|[k' v'] d IH]; simpl; intros Hget.
  - discriminate.
  - destruct (Z.eqb k k') eqn:E.
    + now inversion Hget.
    + now rewrite IH.
Qed.

Lemma dict_keys_set_present d k v v0 :
  dict_get Z.eqb k d = Some v0 ->
  dict_keys (dict_set Z.eqb k v d) = dict_keys d.
Proof.
  induction d as [|[k' v'] d IH]; simpl; intros Hget.
  - discriminate.
  - destruct (Z.eqb k k') eqn:E; simpl; [reflexivity|].
    f_equal. now apply IH.
Qed.

Lemma dict_get_In d k v : dict_get Z.eqb k d = Some v -> In (k, v) d.
Proof.
  induction d as [|[k' v'] d IH]; simpl; intros Hget.
  - discriminate.
  - destruct (Z.eqb k k') eqn:E.
    + apply Z.eqb_eq in E. inversion Hget. subst. now left.
    + right. now apply IH.
Qed.

Lemma dict_mem_false_get d k : dict_mem Z.eqb k d = false -> dict_get Z.eqb k d = None.
Proof.
  unfold dict_mem, dict_keys.
  induction d as [|[k' v'] d IH]; simpl; intros Hm.
  - reflexivity.
  - apply orb_false_iff in Hm. destruct Hm as [E Hm].
    rewrite E. now apply IH.
Qed.

Lemma dict_In_get d k v :
  dict_wf Z.eqb d = true -> In (k, v) d -> dict_get Z.eqb k d = Some v.
Proof.
  induction d as [|[k' v'] d IH]; simpl; intros Hwf Hin.
  - contradiction.
  - apply andb_true_iff in Hwf. destruct Hwf as [Hk Hwf].
    destruct Hin as [Heq|Hin].
    + inversion Heq. subst. now rewrite Z.eqb_refl.
    + destruct (Z.eqb k k') eqn:E.
      * apply Z.eqb_eq in E. subst k'.
        apply negb_true_iff in Hk. apply dict_mem_false_get in Hk.
        rewrite (IH Hwf Hin) in Hk. discriminate.
      * now apply IH.
Qed.
End DictFacts.

(** ** The window compositor *)

Section CompositorFacts.
Context `{PIL}.
Import Framebuffer.

Implicit Types (fb : WindowFramebuffer) (m : FramebufferManager).

Lemma decode_region_unsupported w h coding data :
  supported coding = false -> decode_region w h coding data = Ok None.
Proof.
  unfold supported, decode_region. intros Hs.
  apply orb_false_iff in Hs. destruct Hs as [-> ->]. reflexivity.
Qed.

Lemma decode_region_supported w h coding data region :
  decode_region w h coding data = Ok (Some region) -> supported coding = true.
Proof.
  unfold supported. intros Hd.
  destruct (str_in coding ["rgb24"; "rgb32"; "rgbx"]) eqn:E1; [reflexivity|].
  destruct (str_in coding ["png"; "jpeg"; "webp"; "png/L"; "png/P"]) eqn:E2;
    [reflexivity|].
  unfold decode_region in Hd. rewrite E1, E2 in Hd. discriminate.
Qed.

(** [update_region] either leaves the compositor as it was or pastes the
    decoded region and sets the flag *)
Lemma update_region_cases fb x y w h coding data :
  update_region fb x y w h coding data = fb
  \/ exists region img,
      decode_region w h coding data = Ok (Some region)
      /\ image_paste (image fb) region x y = Ok img
      /\ update_region fb x y w h coding data = set_dirty (set_image fb img) true.
Proof.
  unfold update_region, update_region_body.
  destruct (decode_region w h coding data) as [[region|]|e]; simpl; auto.
  destruct (image_paste (image fb) region x y) as [img|e] eqn:Hp; simpl; auto.
  right. exists region, img. auto.
Qed.

Lemma update_region_ok fb x y w h coding data region img :
  decode_region w h coding data = Ok (Some region) ->
  image_paste (image fb) region x y = Ok img ->
  update_region fb x y w h coding data = set_dirty (set_image fb img) true.
Proof.
  intros Hd Hp. unfold update_region, update_region_body.
  rewrite Hd. simpl. now rewrite Hp.
Qed.

Lemma update_region_sequence fb x y w h coding data :
  sequence (update_region fb x y w h coding data) = sequence fb.
Proof.
  destruct (update_region_cases fb x y w h coding data)
    as [->|(region & img & _ & _ & ->)]; reflexivity.
Qed.

Lemma update_region_wid fb x y w h coding data :
  wid (update_region fb x y w h coding data) = wid fb.
Proof.
  destruct (update_region_cases fb x y w h coding data)
    as [->|(region & img & _ & _ & ->)]; reflexivity.
Qed.

Lemma resize_sequence fb w h : sequence (fst (resize fb w h)) = sequence fb.
Proof.
  unfold resize. destruct (image_new w h) as [blank|e]; [|reflexivity].
  destruct (image_paste blank (image fb) 0 0); reflexivity.
Qed.

Lemma resize_wid fb w h : wid (fst (resize fb w h)) = wid fb.
Proof.
  unfold resize. destruct (image_new w h) as [blank|e]; [|reflexivity].
  destruct (image_paste blank (image fb) 0 0); reflexivity.
Qed.

Lemma snapshot_clean fb fmt quality scale max_dim :
  dirty fb = false -> snapshot fb fmt quality scale max_dim = (fb, Ok None).
Proof. intros Hd. unfold snapshot. now rewrite Hd. Qed.

Lemma snapshot_dirty fb fmt quality scale max_dim :
  dirty fb = true ->
  snapshot fb fmt quality scale max_dim =
    (set_sequence (set_dirty fb false) (sequence fb + 1),
     (img' <- downscale (image fb) scale max_dim ;;
      data <- encode img' fmt quality ;;
      Ok (Some data))).
Proof. intros Hd. unfold snapshot. now rewrite Hd. Qed.

(** a snapshot never answers [None] for a dirty buffer *)
Lemma snapshot_dirty_not_absent fb fmt quality scale max_dim :
  dirty fb = true -> snd (snapshot fb fmt quality scale max_dim) <> Ok None.
Proof.
  intros Hd. rewrite (snapshot_dirty _ _ _ _ _ Hd). simpl.
  destruct (downscale (image fb) scale max_dim) as [img'|e]; simpl;
    [|discriminate].
  destruct (encode img' fmt quality); simpl; discriminate.
Qed.

Lemma snapshot_wid fb fmt quality scale max_dim :
  wid (fst (snapshot fb fmt quality scale max_dim)) = wid fb.
Proof. unfold snapshot. destruct (dirty fb); reflexivity. Qed.

Lemma snapshot_leaves_clean fb fmt quality scale max_dim :
  dirty (fst (snapshot fb fmt quality scale max_dim)) = false.
Proof. unfold snapshot. destruct (dirty fb) eqn:E; simpl; auto. Qed.

(** the counter moves by one exactly when the buffer was dirty *)
Lemma snapshot_sequence fb fmt quality scale max_dim :
  sequence (fst (snapshot fb fmt quality scale max_dim)) =
    if dirty fb then sequence fb + 1 else sequence fb.
Proof. unfold snapshot. destruct (dirty fb); reflexivity. Qed.

Lemma snapshot_present_dirty fb fmt quality scale max_dim data :
  snd (snapshot fb fmt quality scale max_dim) = Ok (Some data) -> dirty fb = true.
Proof.
  unfold snapshot. destruct (dirty fb); simpl; [reflexivity|discriminate].
Qed.

Lemma encode_unknown_format img fmt quality :
  str_in fmt ["jpeg"; "png"; "raw"] = false ->
  encode img fmt quality = image_save img "JPEG" (Some quality).
Proof.
  unfold str_in, encode. simpl. intros Hf.
  destruct (String.eqb fmt "jpeg"); [discriminate|].
  destruct (String.eqb fmt "png"); [discriminate|].
  destruct (String.eqb fmt "raw"); [discriminate|reflexivity].
Qed.

(** an unknown format name takes the JPEG branch, whatever the buffer *)
Lemma snapshot_unknown_format fb fmt quality scale max_dim :
  str_in fmt ["jpeg"; "png"; "raw"] = false ->
  snapshot fb fmt quality scale max_dim = snapshot fb "jpeg" quality scale max_dim.
Proof.
  intros Hf. unfold snapshot. destruct (dirty fb); simpl; [|reflexivity].
  f_equal. destruct (downscale (image fb) scale max_dim); simpl; [|reflexivity].
  now rewrite (encode_unknown_format _ _ _ Hf).
Qed.

Lemma snapshots_clean n fb fmt quality scale max_dim :
  dirty fb = false ->
  snapshots n fb fmt quality scale max_dim = (fb, repeat (Ok None) n).
Proof.
  intros Hd. induction n as [|n IH]; simpl; [reflexivity|].
  rewrite (snapshot_clean _ _ _ _ _ Hd), IH. reflexivity.
Qed.

(** C10: a region with an unsupported encoding tag, or one whose payload
    does not decode, leaves the compositor exactly as it was: the pixel
    buffer, the dirty flag and the sequence counter keep their values.  In
    particular it does not mark a clean window dirty, so the next snapshot
    is still absent. *)
Theorem failed_region_leaves_compositor fb x y w h coding data :
  supported coding = false \/ (exists e, decode_region w h coding data = Raise e) ->
  update_region fb x y w h coding data = fb
  /\ (dirty fb = false ->
      forall fmt quality scale max_dim,
        snapshot (update_region fb x y w h coding data) fmt quality scale max_dim
        = (fb, Ok None)).
Proof.
  intros Hfail.
  assert (Hsame : update_region fb x y w h coding data = fb).
  { unfold update_region, update_region_body.
    destruct Hfail as [Hs|[e He]].
    - now rewrite (decode_region_unsupported _ _ _ _ Hs).
    - now rewrite He. }
  split; [exact Hsame|].
  intros Hd fmt quality scale max_dim. rewrite Hsame.
  now apply snapshot_clean.
Qed.

(** a region that decodes but cannot be pasted is dropped in the same way *)
Lemma unpasted_region_leaves_compositor fb x y w h coding data region e :
  decode_region w h coding data = Ok (Some region) ->
  image_paste (image fb) region x y = Raise e ->
  update_region fb x y w h coding data = fb.
Proof.
  intros Hd Hp. unfold update_region, update_region_body.
  rewrite Hd. simpl. now rewrite Hp.
Qed.

(** C9: a format name other than "jpeg", "png" and "raw" is encoded as
    JPEG at the requested quality.  On a dirty buffer whose JPEG encoding
    Pillow produces, the call returns that data (not [None], no
    exception), clears the flag and adds one to the counter, and it is in
    every respect the call with [fmt = "jpeg"]. *)
Theorem unknown_format_falls_back_to_jpeg
  fb fmt quality scale max_dim img' data :
  str_in fmt ["jpeg"; "png"; "raw"] = false ->
  dirty fb = true ->
  downscale (image fb) scale max_dim = Ok img' ->
  image_save img' "JPEG" (Some quality) = Ok data ->
  snapshot fb fmt quality scale max_dim
  = (set_sequence (set_dirty fb false) (sequence fb + 1), Ok (Some data))
  /\ snapshot fb fmt quality scale max_dim
     = snapshot fb "jpeg" quality scale max_dim.
Proof.
  intros Hf Hd Hs He. split.
  - rewrite (snapshot_dirty _ _ _ _ _ Hd), Hs. simpl.
    now rewrite (encode_unknown_format _ _ _ Hf), He.
  - now apply snapshot_unknown_format.
Qed.

(** C3, as amended: a freshly created compositor answers [None]; after
    an [update_region] whose tag is supported and whose payload is decoded
    and pasted, the next snapshot (whose encoding Pillow produces) returns
    data, and every snapshot after that, with no further region, returns
    [None] and changes nothing. *)
Theorem dirty_then_clear
  wid0 width0 height0 fb x y w h coding data region img
  fmt quality scale max_dim img' bytes fb2 :
  init wid0 width0 height0 = Ok fb ->
  decode_region w h coding data = Ok (Some region) ->
  image_paste (image fb) region x y = Ok img ->
  downscale img scale max_dim = Ok img' ->
  encode img' fmt quality = Ok bytes ->
  fb2 = fst (snapshot (update_region fb x y w h coding data)
               fmt quality scale max_dim) ->
  snapshot fb fmt quality scale max_dim = (fb, Ok None)
  /\ snd (snapshot (update_region fb x y w h coding data) fmt quality scale max_dim)
     = Ok (Some bytes)
  /\ forall n fmt' quality' scale' max_dim',
      snapshots n fb2 fmt' quality' scale' max_dim' = (fb2, repeat (Ok None) n).
Proof.
  intros Hi Hd Hp Hs He ->.
  assert (Hfresh : dirty fb = false).
  { unfold init in Hi. destruct (image_new width0 height0); simpl in Hi;
      inversion Hi; reflexivity. }
  rewrite (update_region_ok _ _ _ _ _ _ _ _ _ Hd Hp).
  split; [now apply snapshot_clean|].
  rewrite snapshot_dirty by reflexivity. simpl.
  rewrite Hs. simpl. rewrite He. simpl.
  split; [reflexivity|].
  intros n fmt' quality' scale' max_dim'. now apply snapshots_clean.
Qed.

End CompositorFacts.

(** ** The compositor registry *)

Section RegistryFacts.
Context `{PIL}.
Import Framebuffer.

Implicit Types (fb : WindowFramebuffer) (m : FramebufferManager).

Lemma manager_eta m : mkFramebufferManager (_buffers m) = m.
Proof. now destruct m. Qed.

Lemma get_new_manager wid0 : get new_manager wid0 = None.
Proof. reflexivity. Qed.

Lemma get_destroyed m wid0 : get (destroy_window m wid0) wid0 = None.
Proof. unfold get, destroy_window. simpl. apply dict_get_pop_same. Qed.

Lemma get_destroy_other m wid0 wid1 :
  wid0 <> wid1 -> get (destroy_window m wid1) wid0 = get m wid0.
Proof. intros Hne. unfold get, destroy_window. simpl. now apply dict_get_pop_other. Qed.

Lemma get_store_same m wid0 fb : get (store m wid0 fb) wid0 = Some fb.
Proof. unfold get, store. simpl. apply dict_get_set_same. Qed.

Lemma get_store_other m wid0 wid1 fb :
  wid0 <> wid1 -> get (store m wid1 fb) wid0 = get m wid0.
Proof. intros Hne. unfold get, store. simpl. now apply dict_get_set_other. Qed.

Lemma store_same m wid0 fb : get m wid0 = Some fb -> store m wid0 fb = m.
Proof.
  unfold get, store. intros Hg.
  rewrite (dict_set_get_id _ _ _ Hg). apply manager_eta.
Qed.

Lemma create_window_ok m wid0 w h fb :
  init wid0 w h = Ok fb ->
  create_window m wid0 w h = (store m wid0 fb, Ok fb).
Proof. intros Hi. unfold create_window. now rewrite Hi. Qed.

Lemma init_fields wid0 w h fb :
  init wid0 w h = Ok fb ->
  wid fb = wid0 /\ dirty fb = false /\ sequence fb = 0 /\ last_sent fb = 0%Q.
Proof.
  unfold init. destruct (image_new w h); simpl; intros Hi; inversion Hi.
  repeat split.
Qed.

(** C7: for a window identifier that is not in the registry (never
    created, or destroyed), [update_region], [resize_window] and
    [destroy_window] return normally and leave the registry as it was:
    every registered compositor and the number of windows are unchanged. *)
Theorem unknown_window_is_safe m wid0 :
  get m wid0 = None ->
  (forall x y w h coding data,
      manager_update_region m wid0 x y w h coding data = m)
  /\ (forall w h, resize_window m wid0 w h = (m, Ok tt))
  /\ destroy_window m wid0 = m
  /\ List.length (window_ids (destroy_window m wid0)) = List.length (window_ids m).
Proof.
  intros Hg.
  assert (Hd : destroy_window m wid0 = m).
  { unfold destroy_window. unfold get in Hg.
    rewrite (dict_get_None_pop _ _ Hg). apply manager_eta. }
  repeat split.
  - intros. unfold manager_update_region. now rewrite Hg.
  - intros. unfold resize_window. now rewrite Hg.
  - exact Hd.
  - now rewrite Hd.
Qed.

(** *** The collection of dirty snapshots *)

Lemma Qltb_lt a b : Qltb a b = true <-> (a < b)%Q.
Proof.
  unfold Qltb. rewrite negb_true_iff. split.
  - intros Hle. apply Qnot_le_lt. intros Hc.
    apply Qle_bool_iff in Hc. congruence.
  - intros Hlt. destruct (Qle_bool b a) eqn:E; [|reflexivity].
    apply Qle_bool_iff in E. exfalso. exact (Qlt_not_le _ _ Hlt E).
Qed.

(** once the clock has passed [last_sent], the guard of the source is the
    comparison of the age with [min_interval] *)
Lemma too_recent_younger now min_interval fb :
  (last_sent fb <= now)%Q ->
  too_recent now min_interval fb = younger now min_interval fb.
Proof.
  intros Hclock. unfold too_recent, younger.
  destruct (Qltb (now - last_sent fb) min_interval) eqn:Hy;
    [|apply andb_false_r].
  rewrite andb_true_r. apply Qltb_lt. apply Qltb_lt in Hy.
  apply Qle_lt_trans with (y := (now - last_sent fb)%Q); [|exact Hy].
  unfold Qminus. rewrite <- (Qplus_opp_r (last_sent fb)).
  apply Qplus_le_l. exact Hclock.
Qed.

Lemma collect_as_specified now fmt quality scale max_dim min_interval bufs :
  (forall k fb, In (k, fb) bufs -> (last_sent fb <= now)%Q) ->
  forallb (fun e => encodes now fmt quality scale max_dim min_interval (snd e)) bufs
  = true ->
  collect now fmt quality scale max_dim min_interval bufs
  = (map (fun e => (fst e,
                    fst (collect_one now fmt quality scale max_dim min_interval (snd e))))
       bufs,
     Ok (flat_map
           (fun e => snd (collect_one now fmt quality scale max_dim min_interval (snd e)))
           bufs)).
Proof.
  induction bufs as [|[k fb] bufs IH]; simpl; intros Hclock Henc.
  - reflexivity.
  - apply andb_true_iff in Henc. destruct Henc as [Hfb Henc].
    rewrite IH; [|intros k' fb' Hin; apply (Hclock k' fb'); now right|exact Henc].
    unfold collect_one, encodes in *.
    rewrite <- (too_recent_younger now min_interval fb)
      by (apply (Hclock k); now left).
    destruct (too_recent now min_interval fb); simpl in *; [reflexivity|].
    destruct (snapshot fb fmt quality scale max_dim) as [fb' [[data|]|e]];
      simpl in *; try reflexivity.
    discriminate.
Qed.

End RegistryFacts.

(** ** Sequence numbers along a run of the registry *)

Section DictInvariant.
Context {V : Type}.
Implicit Types (d : list (Z * V)) (k : Z) (v : V).

Lemma dict_mem_set d k k' v :
  dict_mem Z.eqb k' (dict_set Z.eqb k v d) = dict_mem Z.eqb k' d || (k' =? k).
Proof.
  unfold dict_mem, dict_keys.
  induction d as [|[k0 v0] d IH]; simpl.
  - now rewrite orb_false_r.
  - destruct (Z.eqb k k0) eqn:E; simpl.
    + apply Z.eqb_eq in E. subst k0.
      destruct (k' =? k); simpl; [reflexivity|now rewrite orb_false_r].
    + rewrite IH. now rewrite orb_assoc.
Qed.

Lemma dict_wf_set d k v : dict_wf Z.eqb d = true -> dict_wf Z.eqb (dict_set Z.eqb k v d) = true.
Proof.
  induction d as [|[k0 v0] d IH]; simpl; intros Hwf.
  - reflexivity.
  - apply andb_true_iff in Hwf. destruct Hwf as [Hk Hwf].
    destruct (Z.eqb k k0) eqn:E; simpl.
    + now rewrite Hk, Hwf.
    + rewrite dict_mem_set, (IH Hwf).
      apply negb_true_iff in Hk. rewrite Hk. simpl.
      rewrite Z.eqb_sym, E. reflexivity.
Qed.

Lemma dict_mem_pop_false d k k' :
  dict_mem Z.eqb k' d = false -> dict_mem Z.eqb k' (dict_pop Z.eqb k d) = false.
Proof.
  unfold dict_mem, dict_keys.
  induction d as [|[k0 v0] d IH]; simpl; intros Hm.
  - reflexivity.
  - apply orb_false_iff in Hm. destruct Hm as [E Hm].
    destruct (Z.eqb k k0); simpl; [now apply IH|].
    rewrite E. now apply IH.
Qed.

Lemma dict_wf_pop d k : dict_wf Z.eqb d = true -> dict_wf Z.eqb (dict_pop Z.eqb k d) = true.
Proof.
  induction d as [|[k0 v0] d IH]; simpl; intros Hwf.
  - reflexivity.
  - apply andb_true_iff in Hwf. destruct Hwf as [Hk Hwf].
    destruct (Z.eqb k k0); simpl; [now apply IH|].
    apply negb_true_iff in Hk.
    rewrite (dict_mem_pop_false _ _ _ Hk). simpl. now apply IH.
Qed.

Lemma forallb_dict_set (P : Z * V -> bool) d k v :
  (forall k0, P (k0, v) = true \/ (k0 =? k) = false) ->
  P (k, v) = true ->
  forallb P d = true -> forallb P (dict_set Z.eqb k v d) = true.
Proof.
  intros Hany Hk.
  induction d as [|[k0 v0] d IH]; simpl; intros Hall.
  - now rewrite Hk.
  - apply andb_true_iff in Hall. destruct Hall as [H0 Hall].
    destruct (Z.eqb k k0) eqn:E; simpl.
    + apply Z.eqb_eq in E. subst k0. now rewrite Hk, Hall.
    + now rewrite H0, IH.
Qed.

Lemma forallb_dict_pop (P : Z * V -> bool) d k :
  forallb P d = true -> forallb P (dict_pop Z.eqb k d) = true.
Proof.
  induction d as [|[k0 v0] d IH]; simpl; intros Hall.
  - reflexivity.
  - apply andb_true_iff in Hall. destruct Hall as [H0 Hall].
    destruct (Z.eqb k k0); simpl; [now apply IH|].
    now rewrite H0, IH.
Qed.
End DictInvariant.

Section SequenceFacts.
Context `{PIL}.
Import Framebuffer.

Implicit Types (fb : WindowFramebuffer) (m : FramebufferManager).

Lemma registry_ok_store m k fb :
  wid fb = k -> registry_ok m = true -> registry_ok (store m k fb) = true.
Proof.
  unfold registry_ok, store. simpl. intros Hw Hok.
  apply andb_true_iff in Hok. destruct Hok as [Hwf Hall].
  rewrite (dict_wf_set _ _ _ Hwf). simpl.
  apply forallb_dict_set; simpl; auto.
  - intros k0. rewrite Hw. destruct (k0 =? k); auto.
  - rewrite Hw. apply Z.eqb_refl.
Qed.

Lemma registry_ok_destroy m k : registry_ok m = true -> registry_ok (destroy_window m k) = true.
Proof.
  unfold registry_ok, destroy_window. simpl. intros Hok.
  apply andb_true_iff in Hok. destruct Hok as [Hwf Hall].
  now rewrite (dict_wf_pop _ _ Hwf), (forallb_dict_pop _ _ _ Hall).
Qed.

Lemma registry_ok_get m k fb :
  registry_ok m = true -> get m k = Some fb -> wid fb = k.
Proof.
  unfold registry_ok, get. intros Hok Hg.
  apply andb_true_iff in Hok. destruct Hok as [_ Hall].
  apply dict_get_In in Hg.
  rewrite forallb_forall in Hall. specialize (Hall _ Hg). simpl in Hall.
  apply Z.eqb_eq in Hall. now symmetry.
Qed.

Lemma sequences_for_app wid0 out1 out2 :
  sequences_for wid0 (out1 ++ out2) = sequences_for wid0 out1 ++ sequences_for wid0 out2.
Proof. unfold sequences_for. now rewrite filter_app, map_app. Qed.

(** *** The loop of the collection, one window at a time *)

Section Collect.
Variables (now : Q) (fmt : string) (quality : Z) (scale : Q) (max_dim : Z)
  (min_interval : Q).

Local Abbreviation loop := (collect now fmt quality scale max_dim min_interval).

(** name the result of the loop on the rest of the list *)
Ltac name_loop bufs :=
  let lr := fresh "lr" in
  let E := fresh "E" in
  remember (loop bufs) as lr eqn:E; clear E;
  let rest := fresh "rest" in
  let r := fresh "r" in
  destruct lr as [rest r]; simpl in *.

Lemma collect_keys bufs : dict_keys (fst (loop bufs)) = dict_keys bufs.
Proof.
  unfold dict_keys.
  induction bufs as [|[k fb] bufs IH]; simpl; [reflexivity|].
  name_loop bufs.
  destruct (too_recent now min_interval fb); simpl; [now rewrite IH|].
  destruct (snapshot fb fmt quality scale max_dim) as [fb' [[data|]|e]];
    simpl; now rewrite ?IH.
Qed.

Lemma collect_wids bufs :
  forallb (fun e => fst e =? wid (snd e)) bufs = true ->
  forallb (fun e => fst e =? wid (snd e)) (fst (loop bufs)) = true.
Proof.
  induction bufs as [|[k fb] bufs IH]; simpl; [reflexivity|].
  intros Hall. apply andb_true_iff in Hall. destruct Hall as [Hk Hall].
  specialize (IH Hall). name_loop bufs.
  destruct (too_recent now min_interval fb); simpl; [now rewrite Hk|].
  pose proof (snapshot_wid fb fmt quality scale max_dim) as Hw.
  destruct (snapshot fb fmt quality scale max_dim) as [fb' [[data|]|e]];
    simpl in *; rewrite Hw, Hk; simpl; assumption.
Qed.

Lemma dict_wf_keys {V W} (d : list (Z * V)) (d' : list (Z * W)) :
  dict_keys d = dict_keys d' -> dict_wf Z.eqb d = dict_wf Z.eqb d'.
Proof.
  revert d'. induction d as [|[k v] d IH]; intros [|[k' v'] d']; simpl;
    intros Hk; try discriminate; [reflexivity|].
  inversion Hk as [[Hk1 Hk2]]. subst k'.
  unfold dict_mem. fold (dict_keys d) (dict_keys d'). rewrite Hk2.
  now rewrite (IH d' Hk2).
Qed.

Lemma registry_ok_collect m :
  registry_ok m = true ->
  registry_ok (fst (get_dirty_snapshots m now fmt quality scale max_dim min_interval))
  = true.
Proof.
  unfold registry_ok, get_dirty_snapshots.
  intros Hok. apply andb_true_iff in Hok. destruct Hok as [Hwf Hall].
  pose proof (collect_keys (_buffers m)) as Hkeys.
  pose proof (collect_wids (_buffers m) Hall) as Hw.
  destruct (loop (_buffers m)) as [bufs r]. simpl in *.
  now rewrite (dict_wf_keys _ _ Hkeys), Hwf, Hw.
Qed.

(** a window that is not in the registry is not in the result *)
Lemma collect_absent wid0 bufs :
  forallb (fun e => fst e =? wid (snd e)) bufs = true ->
  dict_mem Z.eqb wid0 bufs = false ->
  sequences_for wid0 (published (snd (loop bufs))) = [].
Proof.
  unfold dict_mem, dict_keys.
  induction bufs as [|[k fb] bufs IH]; simpl; [reflexivity|].
  intros Hall Hm.
  apply andb_true_iff in Hall. destruct Hall as [Hk Hall].
  apply orb_false_iff in Hm. destruct Hm as [Hne Hm].
  specialize (IH Hall Hm).
  apply Z.eqb_eq in Hk. simpl in Hk.
  name_loop bufs.
  destruct (too_recent now min_interval fb); simpl; [exact IH|].
  pose proof (snapshot_wid fb fmt quality scale max_dim) as Hw.
  destruct (snapshot fb fmt quality scale max_dim) as [fb' [[data|]|e]];
    simpl in *; try exact IH; try reflexivity.
  destruct r as [entries|e]; simpl in *; [|reflexivity].
  unfold sequences_for in *. simpl.
  rewrite Hw, <- Hk, Z.eqb_sym, Hne. exact IH.
Qed.

(** the counter of a registered window after the loop, and what was
    published for it *)
Lemma collect_sequence wid0 bufs fb :
  dict_wf Z.eqb bufs = true ->
  forallb (fun e => fst e =? wid (snd e)) bufs = true ->
  dict_get Z.eqb wid0 bufs = Some fb ->
  exists fb',
    dict_get Z.eqb wid0 (fst (loop bufs)) = Some fb'
    /\ ((sequence fb' = sequence fb
         /\ sequences_for wid0 (published (snd (loop bufs))) = [])
        \/ (sequence fb' = sequence fb + 1
            /\ (sequences_for wid0 (published (snd (loop bufs))) = []
                \/ sequences_for wid0 (published (snd (loop bufs)))
                   = [sequence fb + 1]))).
Proof.
  induction bufs as [|[k fb0] bufs IH]; simpl; [discriminate|].
  intros Hwf Hall Hg.
  apply andb_true_iff in Hwf. destruct Hwf as [Hfresh Hwf].
  apply andb_true_iff in Hall. destruct Hall as [Hk Hall].
  apply negb_true_iff in Hfresh.
  apply Z.eqb_eq in Hk. simpl in Hk.
  destruct (Z.eqb wid0 k) eqn:E.
  - (* the window is the first of the list *)
    apply Z.eqb_eq in E. subst wid0. inversion Hg. subst fb0. clear Hg IH.
    pose proof (collect_absent k bufs Hall Hfresh) as Hrest.
    name_loop bufs.
    destruct (too_recent now min_interval fb); simpl.
    + rewrite Z.eqb_refl. exists fb. split; [reflexivity|]. left. now split.
    + pose proof (snapshot_wid fb fmt quality scale max_dim) as Hw.
      pose proof (snapshot_sequence fb fmt quality scale max_dim) as Hs.
      pose proof (snapshot_present_dirty fb fmt quality scale max_dim) as Hp.
      destruct (snapshot fb fmt quality scale max_dim) as [fb' [[data|]|e]];
        simpl in *; rewrite Z.eqb_refl.
      * exists (set_last_sent fb' now). split; [reflexivity|]. simpl.
        rewrite (Hp data eq_refl) in Hs. right. split; [exact Hs|].
        destruct r as [entries|e]; simpl in *; [right|now left].
        unfold sequences_for in *. simpl.
        rewrite Hw, <- Hk, Z.eqb_refl. simpl. now rewrite Hrest, Hs.
      * exists fb'. split; [reflexivity|].
        destruct (dirty fb); [right|left]; split; auto.
      * exists fb'. split; [reflexivity|].
        destruct (dirty fb); [right|left]; split; auto.
  - (* the window is further down *)
    destruct (IH Hwf Hall Hg) as (fb1 & Hg1 & Hcases). clear IH.
    name_loop bufs.
    destruct (too_recent now min_interval fb0); simpl.
    + rewrite E. exists fb1. split; assumption.
    + pose proof (snapshot_wid fb0 fmt quality scale max_dim) as Hw.
      destruct (snapshot fb0 fmt quality scale max_dim) as [fb' [[data|]|e]];
        simpl in *; rewrite E.
      * exists fb1. split; [assumption|].
        destruct r as [entries|e]; simpl in *; [|assumption].
        unfold sequences_for in *. simpl.
        rewrite Hw, <- Hk, Z.eqb_sym, E. assumption.
      * exists fb1. split; assumption.
      * exists fb. split; [assumption|]. left. now split.
Qed.
End Collect.

End SequenceFacts.

Section RunFacts.
Context `{PIL}.
Import Framebuffer.

Implicit Types (fb : WindowFramebuffer) (m : FramebufferManager).

Lemma registry_ok_new : registry_ok new_manager = true.
Proof. reflexivity. Qed.

Lemma registry_ok_run_op m o : registry_ok m = true -> registry_ok (fst (run_op m o)) = true.
Proof.
  intros Hok. destruct o; simpl.
  - destruct (init wid0 width0 height0) as [fb|e] eqn:Hi.
    + rewrite (create_window_ok _ _ _ _ _ Hi). simpl.
      apply registry_ok_store; [|assumption]. now destruct (init_fields _ _ _ _ Hi).
    + unfold create_window. now rewrite Hi.
  - unfold manager_update_region. destruct (get m wid0) as [fb|] eqn:Hg; [|assumption].
    apply registry_ok_store; [|assumption].
    rewrite update_region_wid. now apply (registry_ok_get m).
  - unfold resize_window. destruct (get m wid0) as [fb|] eqn:Hg; [|assumption].
    pose proof (resize_wid fb width0 height0) as Hw.
    destruct (resize fb width0 height0) as [fb' r]. simpl in *.
    apply registry_ok_store; [|assumption].
    rewrite Hw. now apply (registry_ok_get m).
  - unfold snapshot_window. destruct (get m wid0) as [fb|] eqn:Hg; [|assumption].
    pose proof (snapshot_wid fb fmt quality scale max_dim) as Hw.
    destruct (snapshot fb fmt quality scale max_dim) as [fb' r]. simpl in *.
    apply registry_ok_store; [|assumption].
    rewrite Hw. now apply (registry_ok_get m).
  - pose proof (registry_ok_collect now fmt quality scale max_dim min_interval m Hok)
      as Hc.
    destruct (get_dirty_snapshots m now fmt quality scale max_dim min_interval).
    exact Hc.
  - now apply registry_ok_destroy.
Qed.

(** [create_window] registers a new compositor, whose counter is 0,
    also when the identifier was registered before *)
Lemma create_resets_sequence m wid0 w h fb :
  init wid0 w h = Ok fb ->
  sequence_of (fst (run_op m (Create wid0 w h))) wid0 = Some 0.
Proof.
  intros Hi. simpl. rewrite (create_window_ok _ _ _ _ _ Hi). simpl.
  unfold sequence_of. rewrite get_store_same. simpl.
  now destruct (init_fields _ _ _ _ Hi) as (_ & _ & -> & _).
Qed.

Lemma sequences_for_other wid0 w n : w <> wid0 -> sequences_for wid0 [(w, n)] = [].
Proof.
  intros Hne. unfold sequences_for. simpl.
  destruct (Z.eqb w wid0) eqn:E; [apply Z.eqb_eq in E; contradiction|reflexivity].
Qed.

Lemma sequences_for_same wid0 n : sequences_for wid0 [(wid0, n)] = [n].
Proof. unfold sequences_for. simpl. now rewrite Z.eqb_refl. Qed.

(** One operation that neither registers nor removes [wid0] leaves its
    counter where it was or adds one to it; whatever is published for
    [wid0] carries the counter after the increment. *)
Lemma run_op_sequence m o wid0 s :
  registry_ok m = true ->
  sequence_of m wid0 = Some s ->
  replaces wid0 o = false ->
  exists s',
    sequence_of (fst (run_op m o)) wid0 = Some s'
    /\ ((s' = s /\ sequences_for wid0 (snd (run_op m o)) = [])
        \/ (s' = s + 1
            /\ (sequences_for wid0 (snd (run_op m o)) = []
                \/ sequences_for wid0 (snd (run_op m o)) = [s + 1]))).
Proof.
  intros Hok Hs Hrep. unfold sequence_of in *.
  destruct (get m wid0) as [fb0|] eqn:Hg0; [|discriminate].
  simpl in Hs. inversion Hs as [Hs']. clear Hs. subst s.
  destruct o as [w wd ht|w x y rw rh coding data|w wd ht|w fmt q sc md
                |now fmt q sc md mi|w]; simpl in *.
  - (* Create *)
    apply Z.eqb_neq in Hrep.
    destruct (init w wd ht) as [fb|e] eqn:Hi.
    + rewrite (create_window_ok _ _ _ _ _ Hi). simpl.
      rewrite get_store_other by congruence. rewrite Hg0. simpl.
      exists (sequence fb0). split; [reflexivity|]. left. now split.
    + unfold create_window. rewrite Hi. simpl.
      rewrite Hg0. simpl. exists (sequence fb0). split; [reflexivity|]. left. now split.
  - (* ApplyRegion *)
    unfold manager_update_region.
    destruct (get m w) as [fb|] eqn:Hg.
    + destruct (Z.eq_dec wid0 w) as [->|Hne].
      * rewrite get_store_same. simpl. rewrite update_region_sequence.
        assert (fb = fb0) by congruence. subst fb0.
        exists (sequence fb). split; [reflexivity|]. left. now split.
      * rewrite get_store_other by assumption. rewrite Hg0. simpl.
        exists (sequence fb0). split; [reflexivity|]. left. now split.
    + rewrite Hg0. simpl. exists (sequence fb0). split; [reflexivity|]. left. now split.
  - (* Resize *)
    unfold resize_window.
    destruct (get m w) as [fb|] eqn:Hg.
    + pose proof (resize_sequence fb wd ht) as Hq.
      destruct (resize fb wd ht) as [fb' r]. simpl in *.
      destruct (Z.eq_dec wid0 w) as [->|Hne].
      * rewrite get_store_same. simpl.
        assert (fb = fb0) by congruence. subst fb0.
        exists (sequence fb). split; [congruence|]. left. now split.
      * rewrite get_store_other by assumption. rewrite Hg0. simpl.
        exists (sequence fb0). split; [reflexivity|]. left. now split.
    + simpl. rewrite Hg0. simpl. exists (sequence fb0). split; [reflexivity|]. left. now split.
  - (* Snapshot *)
    unfold snapshot_window.
    destruct (get m w) as [fb|] eqn:Hg.
    + pose proof (snapshot_sequence fb fmt q sc md) as Hq.
      pose proof (snapshot_present_dirty fb fmt q sc md) as Hp.
      destruct (snapshot fb fmt q sc md) as [fb' r]. simpl in *.
      destruct (Z.eq_dec wid0 w) as [->|Hne].
      * rewrite get_store_same. simpl.
        assert (fb = fb0) by congruence. subst fb0.
        exists (sequence fb'). split; [reflexivity|].
        destruct r as [[data|]|e].
        -- rewrite (Hp data eq_refl) in Hq. right. split; [congruence|].
           right. rewrite sequences_for_same. congruence.
        -- destruct (dirty fb); [right|left]; split; auto; congruence.
        -- destruct (dirty fb); [right|left]; split; auto; congruence.
      * rewrite get_store_other by assumption. rewrite Hg0. simpl.
        exists (sequence fb0). split; [reflexivity|]. left. split; [reflexivity|].
        destruct r as [[data|]|e]; try reflexivity.
        rewrite get_store_same. apply sequences_for_other. congruence.
    + simpl. rewrite Hg0. simpl. exists (sequence fb0). split; [reflexivity|]. left. now split.
  - (* Collect *)
    unfold registry_ok in Hok. apply andb_true_iff in Hok. destruct Hok as [Hwf Hall].
    destruct (collect_sequence now fmt q sc md mi wid0 (_buffers m) fb0 Hwf Hall Hg0)
      as (fb' & Hg' & Hcases).
    unfold get_dirty_snapshots.
    destruct (collect now fmt q sc md mi (_buffers m)) as [bufs r]. simpl in *.
    unfold get. simpl. rewrite Hg'. simpl.
    exists (sequence fb'). split; [reflexivity|].
    exact Hcases.
  - (* Destroy *)
    apply Z.eqb_neq in Hrep.
    rewrite get_destroy_other by congruence. rewrite Hg0. simpl.
    exists (sequence fb0). split; [reflexivity|]. left. now split.
Qed.

(** an operation that takes no snapshot does not touch the counter *)
Lemma other_operations_keep_sequence m o wid0 s :
  sequence_of m wid0 = Some s ->
  replaces wid0 o = false ->
  match o with Snapshot _ _ _ _ _ | Collect _ _ _ _ _ _ => False | _ => True end ->
  sequence_of (fst (run_op m o)) wid0 = Some s.
Proof.
  intros Hs Hrep Hkind. unfold sequence_of in *.
  destruct (get m wid0) as [fb0|] eqn:Hg0; [|discriminate].
  destruct o as [w wd ht|w x y rw rh coding data|w wd ht|w fmt q sc md
                |now fmt q sc md mi|w]; simpl in *; try contradiction.
  - apply Z.eqb_neq in Hrep.
    destruct (init w wd ht) as [fb|e] eqn:Hi.
    + rewrite (create_window_ok _ _ _ _ _ Hi). simpl.
      rewrite get_store_other by congruence. now rewrite Hg0.
    + unfold create_window. rewrite Hi. simpl. now rewrite Hg0.
  - unfold manager_update_region.
    destruct (get m w) as [fb|] eqn:Hg; [|now rewrite Hg0].
    destruct (Z.eq_dec wid0 w) as [->|Hne].
    + rewrite get_store_same. simpl. rewrite update_region_sequence. congruence.
    + rewrite get_store_other by assumption. now rewrite Hg0.
  - unfold resize_window.
    destruct (get m w) as [fb|] eqn:Hg; [|simpl; now rewrite Hg0].
    pose proof (resize_sequence fb wd ht) as Hq.
    destruct (resize fb wd ht) as [fb' r]. simpl in *.
    destruct (Z.eq_dec wid0 w) as [->|Hne].
    + rewrite get_store_same. simpl. congruence.
    + rewrite get_store_other by assumption. now rewrite Hg0.
  - apply Z.eqb_neq in Hrep.
    rewrite get_destroy_other by congruence. now rewrite Hg0.
Qed.

(** along a run that neither registers nor removes [wid0], its counter
    does not decrease and bounds the numbers published for it, which are
    strictly increasing *)
Lemma run_sequence ops :
  forall m wid0 s,
    registry_ok m = true ->
    sequence_of m wid0 = Some s ->
    forallb (fun o => negb (replaces wid0 o)) ops = true ->
    exists s',
      sequence_of (fst (run m ops)) wid0 = Some s'
      /\ s <= s'
      /\ StronglySorted Z.lt (sequences_for wid0 (snd (run m ops)))
      /\ Forall (fun n => s < n <= s') (sequences_for wid0 (snd (run m ops))).
Proof.
  induction ops as [|o ops IH]; intros m wid0 s Hok Hs Hops; simpl in *.
  - exists s. repeat split; auto; try lia; constructor.
  - apply andb_true_iff in Hops. destruct Hops as [Ho Hops].
    apply negb_true_iff in Ho.
    destruct (run_op_sequence m o wid0 s Hok Hs Ho) as (s1 & Hs1 & Hstep).
    pose proof (registry_ok_run_op m o Hok) as Hok1.
    destruct (run_op m o) as [m1 out1]. simpl in *.
    destruct (IH m1 wid0 s1 Hok1 Hs1 Hops) as (s2 & Hs2 & Hle & Hsorted & Hbound).
    destruct (run m1 ops) as [m2 out2]. simpl in *.
    exists s2. rewrite sequences_for_app.
    split; [assumption|].
    destruct Hstep as [[-> ->]|[-> [->| ->]]]; simpl.
    + repeat split; assumption.
    + repeat split; [lia|assumption|].
      eapply Forall_impl; [|exact Hbound]. simpl. intros; lia.
    + repeat split; [lia| |].
      * constructor; [assumption|].
        eapply Forall_impl; [|exact Hbound]. simpl. intros; lia.
      * constructor; [lia|].
        eapply Forall_impl; [|exact Hbound]. simpl. intros; lia.
Qed.

(** C4, as amended: along any run of registry and compositor operations
    with no [create_window] and no [destroy_window] for the identifier, the
    counter registered under it never decreases and the sequence numbers
    published for it are strictly increasing, so none repeats.  Each
    operation of the run leaves the counter as it was or adds exactly one
    to it, and what it publishes for the identifier carries the counter
    after that increment; an operation that takes no snapshot leaves the
    counter as it was. *)
Theorem sequence_increases_between_creations ops m wid0 s :
  registry_ok m = true ->
  sequence_of m wid0 = Some s ->
  forallb (fun o => negb (replaces wid0 o)) ops = true ->
  (exists s',
      sequence_of (fst (run m ops)) wid0 = Some s'
      /\ s <= s'
      /\ StronglySorted Z.lt (sequences_for wid0 (snd (run m ops)))
      /\ Forall (fun n => s < n <= s') (sequences_for wid0 (snd (run m ops))))
  /\ (forall o m1 s1,
         In o ops ->
         registry_ok m1 = true ->
         sequence_of m1 wid0 = Some s1 ->
         exists s1',
           sequence_of (fst (run_op m1 o)) wid0 = Some s1'
           /\ ((s1' = s1 /\ sequences_for wid0 (snd (run_op m1 o)) = [])
               \/ (s1' = s1 + 1
                   /\ (sequences_for wid0 (snd (run_op m1 o)) = []
                       \/ sequences_for wid0 (snd (run_op m1 o)) = [s1 + 1]))))
  /\ (forall o m1 s1,
         In o ops ->
         sequence_of m1 wid0 = Some s1 ->
         match o with
         | Snapshot _ _ _ _ _ | Collect _ _ _ _ _ _ => False
         | _ => True
         end ->
         sequence_of (fst (run_op m1 o)) wid0 = Some s1).
Proof.
  intros Hok Hs Hops. split; [now apply run_sequence|].
  rewrite forallb_forall in Hops. split.
  - intros o m1 s1 Hin Hok1 Hs1. apply run_op_sequence; try assumption.
    apply negb_true_iff. now apply Hops.
  - intros o m1 s1 Hin Hs1 Hkind. apply other_operations_keep_sequence; try assumption.
    apply negb_true_iff. now apply Hops.
Qed.

End RunFacts.

(** ** Rate limiting *)

Section RateLimitFacts.
Context `{PIL}.
Import Framebuffer.

Implicit Types (fb : WindowFramebuffer) (m : FramebufferManager).

Lemma Qltb_ge a b : (b <= a)%Q -> Qltb a b = false.
Proof.
  intros Hle. unfold Qltb. apply negb_false_iff. now apply Qle_bool_iff.
Qed.

(** a compositor that has never been sent is not held back, unless
    [min_interval] reaches beyond the clock reading itself *)
Lemma never_sent_not_too_recent now min_interval fb :
  last_sent fb = 0%Q ->
  (min_interval <= 0 \/ min_interval <= now)%Q ->
  too_recent now min_interval fb = false.
Proof.
  intros Hl Hmi. unfold too_recent. rewrite Hl.
  destruct Hmi as [Hmi|Hmi].
  - now rewrite (Qltb_ge _ _ Hmi).
  - rewrite (Qltb_ge (now - 0) min_interval); [apply andb_false_r|].
    assert (Heq : (now - 0 == now)%Q) by ring.
    now rewrite Heq.
Qed.

Lemma collect_cons now fmt quality scale max_dim min_interval k fb rest :
  collect now fmt quality scale max_dim min_interval ((k, fb) :: rest)
  = if too_recent now min_interval fb then
      let '(rest', r) := collect now fmt quality scale max_dim min_interval rest in
      ((k, fb) :: rest', r)
    else
      match snapshot fb fmt quality scale max_dim with
      | (fb', Raise e) => ((k, fb') :: rest, Raise e)
      | (fb', Ok None) =>
          let '(rest', r) := collect now fmt quality scale max_dim min_interval rest in
          ((k, fb') :: rest', r)
      | (fb', Ok (Some data)) =>
          let fb'' := set_last_sent fb' now in
          let '(rest', r) := collect now fmt quality scale max_dim min_interval rest in
          ((k, fb'') :: rest',
           (entries <- r ;; Ok ((wid fb'', data, sequence fb'') :: entries)))
      end.
Proof. reflexivity. Qed.

Lemma collect_all_clean now fmt quality scale max_dim min_interval bufs :
  forallb (fun e => negb (dirty (snd e))) bufs = true ->
  collect now fmt quality scale max_dim min_interval bufs = (bufs, Ok []).
Proof.
  induction bufs as [|[k fb] bufs IH]; simpl; intros Hall.
  - reflexivity.
  - apply andb_true_iff in Hall. destruct Hall as [Hfb Hall].
    apply negb_true_iff in Hfb. simpl in Hfb.
    rewrite (IH Hall), (snapshot_clean _ _ _ _ _ Hfb).
    now destruct (too_recent now min_interval fb).
Qed.

(** two windows of which one received a region: the collection returns
    one entry, for that window, and nothing when called again *)
Lemma two_windows_one_updated
  w1 w2 wd1 ht1 wd2 ht2 fb1 fb2 x y w h coding data region img
  now fmt quality scale max_dim min_interval img' bytes m1 m2 m3 :
  w1 <> w2 ->
  init w1 wd1 ht1 = Ok fb1 ->
  init w2 wd2 ht2 = Ok fb2 ->
  decode_region w h coding data = Ok (Some region) ->
  image_paste (image fb1) region x y = Ok img ->
  (min_interval <= 0 \/ min_interval <= now)%Q ->
  downscale img scale max_dim = Ok img' ->
  encode img' fmt quality = Ok bytes ->
  m1 = fst (create_window (fst (create_window new_manager w1 wd1 ht1)) w2 wd2 ht2) ->
  m2 = manager_update_region m1 w1 x y w h coding data ->
  m3 = fst (get_dirty_snapshots m2 now fmt quality scale max_dim min_interval) ->
  snd (get_dirty_snapshots m2 now fmt quality scale max_dim min_interval)
  = Ok [(w1, bytes, 1)]
  /\ forall now' fmt' quality' scale' max_dim' min_interval',
      snd (get_dirty_snapshots m3 now' fmt' quality' scale' max_dim' min_interval')
      = Ok [].
Proof.
  intros Hne Hi1 Hi2 Hd Hp Hmi Hs He -> -> ->.
  destruct (init_fields _ _ _ _ Hi1) as (Hw1 & Hd1 & Hq1 & Hl1).
  destruct (init_fields _ _ _ _ Hi2) as (Hw2 & Hd2 & Hq2 & Hl2).
  rewrite (create_window_ok _ _ _ _ _ Hi1). simpl.
  rewrite (create_window_ok _ _ _ _ _ Hi2). simpl.
  assert (E21 : (w2 =? w1) = false) by (apply Z.eqb_neq; congruence).
  assert (E12 : (w1 =? w2) = false) by (apply Z.eqb_neq; congruence).
  unfold manager_update_region, get, store, new_manager. simpl.
  rewrite E21. simpl. rewrite Z.eqb_refl. simpl.
  rewrite (update_region_ok _ _ _ _ _ _ _ _ _ Hd Hp).
  set (fb1' := set_dirty (set_image fb1 img) true).
  assert (Ht1 : too_recent now min_interval fb1' = false)
    by (apply never_sent_not_too_recent; [exact Hl1|exact Hmi]).
  assert (Ht2 : too_recent now min_interval fb2 = false)
    by (apply never_sent_not_too_recent; [exact Hl2|exact Hmi]).
  assert (Hsnap1 : snapshot fb1' fmt quality scale max_dim
                   = (set_sequence (set_dirty fb1' false) (sequence fb1' + 1),
                      Ok (Some bytes))).
  { rewrite snapshot_dirty by reflexivity. simpl. rewrite Hs. simpl.
    now rewrite He. }
  unfold get_dirty_snapshots. cbn [_buffers].
  rewrite collect_cons, Ht1, Hsnap1, collect_cons, Ht2,
    (snapshot_clean _ _ _ _ _ Hd2).
  cbn [collect fst snd bind].
  split.
  - simpl. now rewrite Hw1, Hq1.
  - intros. rewrite collect_all_clean; [reflexivity|].
    simpl. now rewrite Hd2.
Qed.

(** C5: [get_dirty_snapshots] visits the compositors in the order of
    the registry; one whose [last_sent] is younger than [min_interval] is
    skipped; for each of the others an entry is appended and [last_sent]
    is set to the clock reading exactly when its snapshot is present
    ([collect_one]).  Consequently, of two registered windows of which
    only one received a region, the call returns the one entry of that
    window, and a second call returns no entry. *)
Theorem collection_is_rate_limited :
  (forall m now fmt quality scale max_dim min_interval,
      (forall k fb, In (k, fb) (_buffers m) -> (last_sent fb <= now)%Q) ->
      forallb (fun e => encodes now fmt quality scale max_dim min_interval (snd e))
        (_buffers m) = true ->
      get_dirty_snapshots m now fmt quality scale max_dim min_interval
      = (mkFramebufferManager
           (map (fun e =>
                   (fst e,
                    fst (collect_one now fmt quality scale max_dim min_interval
                           (snd e))))
              (_buffers m)),
         Ok (flat_map
               (fun e => snd (collect_one now fmt quality scale max_dim min_interval
                                (snd e)))
               (_buffers m))))
  /\ (forall w1 w2 wd1 ht1 wd2 ht2 fb1 fb2 x y w h coding data region img
        now fmt quality scale max_dim min_interval img' bytes m1 m2 m3,
         w1 <> w2 ->
         init w1 wd1 ht1 = Ok fb1 ->
         init w2 wd2 ht2 = Ok fb2 ->
         decode_region w h coding data = Ok (Some region) ->
         image_paste (image fb1) region x y = Ok img ->
         (min_interval <= 0 \/ min_interval <= now)%Q ->
         downscale img scale max_dim = Ok img' ->
         encode img' fmt quality = Ok bytes ->
         m1 = fst (create_window (fst (create_window new_manager w1 wd1 ht1))
                     w2 wd2 ht2) ->
         m2 = manager_update_region m1 w1 x y w h coding data ->
         m3 = fst (get_dirty_snapshots m2 now fmt quality scale max_dim
                     min_interval) ->
         snd (get_dirty_snapshots m2 now fmt quality scale max_dim min_interval)
         = Ok [(w1, bytes, 1)]
         /\ forall now' fmt' quality' scale' max_dim' min_interval',
             snd (get_dirty_snapshots m3 now' fmt' quality' scale' max_dim'
                    min_interval')
             = Ok []).
Proof.
  split.
  - intros m now fmt quality scale max_dim min_interval Hclock Henc.
    unfold get_dirty_snapshots.
    now rewrite (collect_as_specified _ _ _ _ _ _ _ Hclock Henc).
  - intros. eapply two_windows_one_updated; eassumption.
Qed.

End RateLimitFacts.

(** ** The mode gate and the screenshot query *)

Section PluginFacts.
Context `{PIL}.
Variable py_str : value -> string.
Import Protocol Framebuffer Plugin.

Implicit Types (p : AIControlPlugin).

Lemma trigger_kill_switch_spec p now o :
  _trigger_kill_switch p now o
  = set_event_pub (set_mode p OBSERVER)
      (_event_pub p ++ [(kill_switch_event (mode p) now, o)]).
Proof. reflexivity. Qed.

(** the transition is idempotent on the mode *)
Lemma kill_switch_idempotent p now o now' o' :
  mode (_trigger_kill_switch p now o) = OBSERVER
  /\ mode (_trigger_kill_switch (_trigger_kill_switch p now o) now' o') = OBSERVER.
Proof. split; reflexivity. Qed.

Lemma map_result_lower mods :
  map_result py_lower (map VStr mods) = Ok (map (fun s => VStr (lower s)) mods).
Proof.
  induction mods as [|s mods IH]; simpl; [reflexivity|]. now rewrite IH.
Qed.

(** The matcher accepts the configured combination: a key-action packet
    whose key name is the last part of the combination, compared without
    regard to case, and whose modifiers include every other part. *)
Lemma kill_switch_combination_matches p t w keyname pressed mods rest :
  let parts := split "+" (lower (Config.kill_switch (Config.control (config p)))) in
  lower keyname = last parts "" ->
  (forall m, In m (removelast parts) -> In m (map lower mods)) ->
  _is_kill_switch p "key-action"
    (t :: w :: VStr keyname :: pressed :: VList (map VStr mods) :: rest)
  = Ok true.
Proof.
  intros parts Hkey Hmods.
  unfold _is_kill_switch, _is_kill_switch_body. cbn [String.eqb Ascii.eqb Bool.eqb negb].
  fold parts.
  assert (Hlen : len_Z (t :: w :: VStr keyname :: pressed :: VList (map VStr mods) :: rest)
                 = 5 + len_Z rest).
  { unfold len_Z. cbn [List.length]. lia. }
  rewrite Hlen. pose proof (Zle_0_nat (List.length rest)) as Hpos.
  fold (len_Z rest) in Hpos.
  destruct (Z.gtb_spec (5 + len_Z rest) 2) as [_|Hc]; [|lia].
  destruct (Z.gtb_spec (5 + len_Z rest) 4) as [_|Hc]; [|lia].
  cbn [nth py_lower bind]. unfold eq_str at 1. cbn [key_eqb].
  rewrite Hkey, String.eqb_refl. cbn [py_iter bind].
  rewrite map_result_lower. cbn [bind].
  assert (Hall : forallb
                   (fun m => existsb (fun l => eq_str l m)
                               (map (fun s => VStr (lower s)) mods))
                   (removelast parts) = true).
  { apply forallb_forall. intros m Hin. apply existsb_exists.
    specialize (Hmods m Hin). apply in_map_iff in Hmods.
    destruct Hmods as (s0 & Hs0 & Hin0).
    exists (VStr (lower s0)). split.
    - apply in_map_iff. now exists s0.
    - unfold eq_str. cbn [key_eqb]. rewrite Hs0. apply String.eqb_refl. }
  now rewrite Hall.
Qed.

(** C1: whatever the current mode, an input event that matches the
    configured kill-switch combination sets the mode to observer, is let
    through to the host ([filter_input] returns [True]) and hands exactly
    one event, of kind kill_switch, to the events socket; nothing else
    of the plugin changes.  In observer mode the mode stays observer. *)
Theorem kill_switch_dominates p now o input_type packet :
  _is_kill_switch p input_type packet = Ok true ->
  let p' := fst (filter_input p now o input_type packet) in
  snd (filter_input p now o input_type packet) = Ok true
  /\ mode p' = OBSERVER
  /\ _event_pub p' = _event_pub p ++ [(kill_switch_event (mode p) now, o)]
  /\ event_type (kill_switch_event (mode p) now) = EventType_value KILL_SWITCH
  /\ p' = set_event_pub (set_mode p OBSERVER) (_event_pub p')
  /\ mode (_trigger_kill_switch p' now o) = OBSERVER.
Proof.
  intros Hk. unfold filter_input. rewrite Hk. simpl.
  repeat split.
Qed.

(** an event that is not the kill switch publishes nothing and leaves
    the mode alone *)
Lemma filter_input_other p now o input_type packet :
  _is_kill_switch p input_type packet = Ok false ->
  let p' := fst (filter_input p now o input_type packet) in
  mode p' = mode p
  /\ _event_pub p' = _event_pub p
  /\ snd (filter_input p now o input_type packet)
     = Ok (match mode p with AUTONOMOUS => false | _ => true end)
  /\ _human_last_input p'
     = match mode p with COLLABORATIVE => now | _ => _human_last_input p end.
Proof.
  intros Hk. unfold filter_input. rewrite Hk.
  destruct (mode p) eqn:Em; simpl; rewrite ?Em; repeat split.
Qed.

(** C6: [ai_can_act] is true in autonomous and supervised mode, false
    in observer mode, and in collaborative mode true exactly when the time
    since the last recorded human input, in milliseconds, is strictly more
    than [human_priority_ms].  So after a human input has been let through
    in collaborative mode at [t0], the agent may act at [now] exactly when
    [(now - t0) * 1000] exceeds the priority window. *)
Theorem agent_may_act p now :
  (mode p = AUTONOMOUS \/ mode p = SUPERVISED -> ai_can_act p now = true)
  /\ (mode p = OBSERVER -> ai_can_act p now = false)
  /\ (mode p = COLLABORATIVE ->
      (ai_can_act p now = true
       <-> (inject_Z (Config.human_priority_ms (Config.control (config p)))
            < (now - _human_last_input p) * 1000)%Q))
  /\ (forall t0 o input_type packet,
         mode p = COLLABORATIVE ->
         _is_kill_switch p input_type packet = Ok false ->
         let p' := fst (filter_input p t0 o input_type packet) in
         mode p' = COLLABORATIVE
         /\ _human_last_input p' = t0
         /\ (ai_can_act p' now = true
             <-> (inject_Z (Config.human_priority_ms (Config.control (config p)))
                  < (now - t0) * 1000)%Q)).
Proof.
  unfold ai_can_act. split; [|split; [|split]].
  - intros [-> | ->]; reflexivity.
  - intros ->. reflexivity.
  - intros ->. apply Qltb_lt.
  - intros t0 o input_type packet Hm Hk.
    unfold filter_input. rewrite Hk, Hm. simpl. rewrite Hm.
    split; [reflexivity|]. split; [reflexivity|]. apply Qltb_lt.
Qed.

(** C2 fails on the code: for a registered window whose buffer is
    clean, the screenshot query answers success with empty data, and the
    plugin is as before; the snapshot is not forced. *)
Theorem screenshot_of_clean_window_is_empty p clipboard rid w fb :
  get (framebuffers p) w = Some fb ->
  dirty fb = false ->
  _handle_query py_str p clipboard (screenshot_request rid w)
  = (p, Ok (response true rid (VBytes []) "")).
Proof.
  intros Hg Hd. unfold _handle_query, screenshot_request. simpl.
  rewrite Hg. simpl. rewrite (snapshot_clean _ _ _ _ _ Hd).
  rewrite (store_same _ _ _ Hg). now destruct p.
Qed.

(** on a dirty buffer the query does return the encoded snapshot *)
Lemma screenshot_of_dirty_window p clipboard rid w fb img' data :
  get (framebuffers p) w = Some fb ->
  dirty fb = true ->
  let fc := Config.frame_capture (config p) in
  downscale (image fb) (Config.scale fc) (Config.max_dimension fc) = Ok img' ->
  encode img' (Config.format fc) (Config.quality fc) = Ok data ->
  snd (_handle_query py_str p clipboard (screenshot_request rid w))
  = Ok (response true rid (VBytes data) "").
Proof.
  intros Hg Hd fc Hs He. unfold _handle_query, screenshot_request. simpl.
  rewrite Hg. simpl. rewrite (snapshot_dirty _ _ _ _ _ Hd).
  fold fc. rewrite Hs. simpl. now rewrite He.
Qed.

End PluginFacts.

(** ** The wire format *)

Section BytesFacts.
Import Protocol.

Lemma Z_of_byte_range b : 0 <= Z_of_byte b < 256.
Proof.
  unfold Z_of_byte. pose proof (Byte.to_N_bounded b) as Hb.
  split; [apply N2Z.is_nonneg|].
  apply N2Z.inj_le in Hb. simpl in Hb. lia.
Qed.

Lemma Z_of_byte_of_Z z : Z_of_byte (byte_of_Z z) = z mod 256.
Proof.
  unfold byte_of_Z, Z_of_byte.
  assert (Hr : 0 <= z mod 256 < 256) by (apply Z.mod_pos_bound; lia).
  destruct (Byte.of_N (Z.to_N (z mod 256))) as [b|] eqn:E.
  - apply Byte.to_of_N in E. rewrite E. apply Z2N.id. lia.
  - apply Byte.of_N_None_iff in E.
    apply N2Z.inj_lt in E. rewrite Z2N.id in E by lia. simpl in E. lia.
Qed.

Lemma be_bytes_length n z : List.length (be_bytes n z) = n.
Proof. induction n as [|n IH]; simpl; [reflexivity|now rewrite IH]. Qed.

Lemma be_value_bytes_acc n z acc :
  fold_left (fun a b => a * 256 + Z_of_byte b) (be_bytes n z) acc
  = acc * 256 ^ Z.of_nat n + z mod 256 ^ Z.of_nat n.
Proof.
  revert acc. induction n as [|n IH]; intros acc.
  - simpl. rewrite Z.mod_1_r. lia.
  - cbn [be_bytes fold_left]. rewrite IH, Z_of_byte_of_Z.
    rewrite Nat2Z.inj_succ, Z.pow_succ_r by lia.
    assert (Hp : 0 < 256 ^ Z.of_nat n) by (apply Z.pow_pos_nonneg; lia).
    rewrite (Z.mul_comm 256 (256 ^ Z.of_nat n)).
    rewrite (Z.rem_mul_r z (256 ^ Z.of_nat n) 256) by lia.
    lia.
Qed.

Lemma be_value_bytes n z : be_value (be_bytes n z) = z mod 256 ^ Z.of_nat n.
Proof. unfold be_value. rewrite be_value_bytes_acc. lia. Qed.

Lemma take_bytes_app h rest : take_bytes (len_Z h) (h ++ rest) = Ok (h, rest).
Proof.
  unfold take_bytes, len_Z. rewrite length_app.
  destruct (Z.ltb_spec (Z.of_nat (List.length h + List.length rest))
              (Z.of_nat (List.length h))) as [Hlt|_]; [lia|].
  rewrite Nat2Z.id.
  rewrite firstn_app, Nat.sub_diag, firstn_all. simpl. rewrite app_nil_r.
  rewrite skipn_app, Nat.sub_diag, skipn_all. reflexivity.
Qed.

Lemma take_uint_be n z rest :
  0 <= z < 256 ^ Z.of_nat n ->
  take_uint (Z.of_nat n) (be_bytes n z ++ rest) = Ok (z, rest).
Proof.
  intros Hz. unfold take_uint.
  rewrite <- (be_bytes_length n z) at 1. fold (len_Z (be_bytes n z)).
  rewrite take_bytes_app. simpl.
  now rewrite be_value_bytes, Z.mod_small.
Qed.

Lemma take_sint_be n z rest :
  (0 < n)%nat ->
  - 2 ^ (8 * Z.of_nat n - 1) <= z < 0 ->
  take_sint (Z.of_nat n) (be_bytes n z ++ rest) = Ok (z, rest).
Proof.
  intros Hn Hz. unfold take_sint, take_uint.
  rewrite <- (be_bytes_length n z) at 1. fold (len_Z (be_bytes n z)).
  rewrite take_bytes_app. cbn [bind]. rewrite be_value_bytes.
  assert (Hpow : 256 ^ Z.of_nat n = 2 ^ (8 * Z.of_nat n)).
  { change 256 with (2 ^ 8). rewrite <- Z.pow_mul_r by lia. reflexivity. }
  assert (Hhalf : 2 ^ (8 * Z.of_nat n) = 2 * 2 ^ (8 * Z.of_nat n - 1)).
  { rewrite <- Z.pow_succ_r by lia. f_equal. lia. }
  assert (Hpos : 0 < 2 ^ (8 * Z.of_nat n - 1)) by (apply Z.pow_pos_nonneg; lia).
  assert (Hmod : z mod 256 ^ Z.of_nat n = z + 2 ^ (8 * Z.of_nat n)).
  { rewrite Hpow. symmetry. apply Z.mod_unique with (q := -1); lia. }
  rewrite Hmod.
  destruct (Z.ltb_spec (z + 2 ^ (8 * Z.of_nat n)) (2 ^ (8 * Z.of_nat n - 1)));
    [lia|].
  f_equal. f_equal. lia.
Qed.

End BytesFacts.

Section MsgpackFacts.
Import Protocol.

Implicit Types (un : list byte -> result (value * list byte)).

(** decide the comparisons of [unpack_tag] on a tag whose range is known *)
Ltac tag :=
  unfold unpack_tag;
  repeat match goal with
    | |- context [if ?a <=? ?b then _ else _] =>
        destruct (Z.leb_spec a b); try lia
    | |- context [if ?a =? ?b then _ else _] =>
        destruct (Z.eqb_spec a b); try lia
    end.

Lemma take_uint_1 z rest : 0 <= z < 2 ^ 8 -> take_uint 1 (be_bytes 1 z ++ rest) = Ok (z, rest).
Proof. intros Hz. apply (take_uint_be 1 z rest). exact Hz. Qed.

Lemma take_uint_2 z rest : 0 <= z < 2 ^ 16 -> take_uint 2 (be_bytes 2 z ++ rest) = Ok (z, rest).
Proof. intros Hz. apply (take_uint_be 2 z rest). exact Hz. Qed.

Lemma take_uint_4 z rest : 0 <= z < 2 ^ 32 -> take_uint 4 (be_bytes 4 z ++ rest) = Ok (z, rest).
Proof. intros Hz. apply (take_uint_be 4 z rest). exact Hz. Qed.

Lemma take_uint_8 z rest : 0 <= z < 2 ^ 64 -> take_uint 8 (be_bytes 8 z ++ rest) = Ok (z, rest).
Proof. intros Hz. apply (take_uint_be 8 z rest). exact Hz. Qed.

Lemma take_sint_1 z rest : - 2 ^ 7 <= z < 0 -> take_sint 1 (be_bytes 1 z ++ rest) = Ok (z, rest).
Proof. intros Hz. apply (take_sint_be 1 z rest); [lia|exact Hz]. Qed.

Lemma take_sint_2 z rest : - 2 ^ 15 <= z < 0 -> take_sint 2 (be_bytes 2 z ++ rest) = Ok (z, rest).
Proof. intros Hz. apply (take_sint_be 2 z rest); [lia|exact Hz]. Qed.

Lemma take_sint_4 z rest : - 2 ^ 31 <= z < 0 -> take_sint 4 (be_bytes 4 z ++ rest) = Ok (z, rest).
Proof. intros Hz. apply (take_sint_be 4 z rest); [lia|exact Hz]. Qed.

Lemma take_sint_8 z rest : - 2 ^ 63 <= z < 0 -> take_sint 8 (be_bytes 8 z ++ rest) = Ok (z, rest).
Proof. intros Hz. apply (take_sint_be 8 z rest); [lia|exact Hz]. Qed.

(** the one-byte forms: the tag is the value *)
Lemma tag_of_small z : 0 <= z < 256 -> Z_of_byte (byte_of_Z z) = z.
Proof. intros Hz. rewrite Z_of_byte_of_Z. now apply Z.mod_small. Qed.

Lemma tag_of_negative z : - 32 <= z < 0 -> Z_of_byte (byte_of_Z z) = z + 256.
Proof.
  intros Hz. rewrite Z_of_byte_of_Z. symmetry.
  apply Z.mod_unique with (q := -1); lia.
Qed.

Lemma be_bytes_1 z : be_bytes 1 z = [byte_of_Z z].
Proof. cbn [be_bytes]. change (256 ^ Z.of_nat 0) with 1. now rewrite Z.div_1_r. Qed.

(** an integer of 64 bits is packed, and unpacked to itself *)
Lemma pack_int_unpack z :
  - 2 ^ 63 <= z < 2 ^ 64 ->
  exists b bs,
    pack_int z = Ok (b :: bs)
    /\ forall un rest, unpack_tag un (Z_of_byte b) (bs ++ rest) = Ok (VInt z, rest).
Proof.
  intros Hz. unfold pack_int.
  destruct (Z.ltb_spec z (- 2 ^ 63)); [lia|].
  destruct (Z.ltb_spec z (- 2 ^ 31)).
  { do 2 eexists. split; [reflexivity|]. intros un rest.
    change (unpack_tag un (Z_of_byte xd3) (be_bytes 8 z ++ rest))
      with ('(n, r) <- take_sint 8 (be_bytes 8 z ++ rest) ;; Ok (VInt n, r)).
    rewrite take_sint_8 by lia. reflexivity. }
  destruct (Z.ltb_spec z (- 2 ^ 15)).
  { do 2 eexists. split; [reflexivity|]. intros un rest.
    change (unpack_tag un (Z_of_byte xd2) (be_bytes 4 z ++ rest))
      with ('(n, r) <- take_sint 4 (be_bytes 4 z ++ rest) ;; Ok (VInt n, r)).
    rewrite take_sint_4 by lia. reflexivity. }
  destruct (Z.ltb_spec z (- 2 ^ 7)).
  { do 2 eexists. split; [reflexivity|]. intros un rest.
    change (unpack_tag un (Z_of_byte xd1) (be_bytes 2 z ++ rest))
      with ('(n, r) <- take_sint 2 (be_bytes 2 z ++ rest) ;; Ok (VInt n, r)).
    rewrite take_sint_2 by lia. reflexivity. }
  destruct (Z.ltb_spec z (- 2 ^ 5)).
  { do 2 eexists. split; [reflexivity|]. intros un rest.
    change (unpack_tag un (Z_of_byte xd0) (be_bytes 1 z ++ rest))
      with ('(n, r) <- take_sint 1 (be_bytes 1 z ++ rest) ;; Ok (VInt n, r)).
    rewrite take_sint_1 by lia. reflexivity. }
  destruct (Z.ltb_spec z (2 ^ 7)).
  { rewrite be_bytes_1. do 2 eexists. split; [reflexivity|]. intros un rest.
    simpl app.
    destruct (Z.lt_ge_cases z 0) as [Hneg|Hpos].
    - rewrite tag_of_negative by lia. tag. f_equal. f_equal. f_equal. lia.
    - rewrite tag_of_small by lia. tag. reflexivity. }
  destruct (Z.ltb_spec z (2 ^ 8)).
  { do 2 eexists. split; [reflexivity|]. intros un rest.
    change (unpack_tag un (Z_of_byte xcc) (be_bytes 1 z ++ rest))
      with ('(n, r) <- take_uint 1 (be_bytes 1 z ++ rest) ;; Ok (VInt n, r)).
    rewrite take_uint_1 by lia. reflexivity. }
  destruct (Z.ltb_spec z (2 ^ 16)).
  { do 2 eexists. split; [reflexivity|]. intros un rest.
    change (unpack_tag un (Z_of_byte xcd) (be_bytes 2 z ++ rest))
      with ('(n, r) <- take_uint 2 (be_bytes 2 z ++ rest) ;; Ok (VInt n, r)).
    rewrite take_uint_2 by lia. reflexivity. }
  destruct (Z.ltb_spec z (2 ^ 32)).
  { do 2 eexists. split; [reflexivity|]. intros un rest.
    change (unpack_tag un (Z_of_byte xce) (be_bytes 4 z ++ rest))
      with ('(n, r) <- take_uint 4 (be_bytes 4 z ++ rest) ;; Ok (VInt n, r)).
    rewrite take_uint_4 by lia. reflexivity. }
  destruct (Z.ltb_spec z (2 ^ 64)); [|lia].
  do 2 eexists. split; [reflexivity|]. intros un rest.
  change (unpack_tag un (Z_of_byte xcf) (be_bytes 8 z ++ rest))
    with ('(n, r) <- take_uint 8 (be_bytes 8 z ++ rest) ;; Ok (VInt n, r)).
  rewrite take_uint_8 by lia. reflexivity.
Qed.

Lemma unpack_str_app body rest :
  unpack_str (len_Z body) (body ++ rest) = Ok (VStr (string_of_list_byte body), rest).
Proof. unfold unpack_str. now rewrite take_bytes_app. Qed.

Lemma unpack_bin_app body rest :
  unpack_bin (len_Z body) (body ++ rest) = Ok (VBytes body, rest).
Proof. unfold unpack_bin. now rewrite take_bytes_app. Qed.

Lemma len_Z_nonneg {A} (l : list A) : 0 <= len_Z l.
Proof. unfold len_Z. lia. Qed.

Lemma str_header_unpack body :
  len_Z body < 2 ^ 32 ->
  exists b h,
    str_header (len_Z body) = Ok (b :: h)
    /\ forall un rest,
        unpack_tag un (Z_of_byte b) (h ++ body ++ rest)
        = Ok (VStr (string_of_list_byte body), rest).
Proof.
  intros Hn. pose proof (len_Z_nonneg body) as H0. unfold str_header.
  set (n := len_Z body) in *.
  destruct (Z.ltb_spec n 32).
  { do 2 eexists. split; [reflexivity|]. intros un rest. simpl app.
    rewrite tag_of_small by lia. tag.
    replace (160 + n - 160) with n by lia. apply unpack_str_app. }
  destruct (Z.ltb_spec n (2 ^ 8)).
  { do 2 eexists. split; [reflexivity|]. intros un rest.
    change (unpack_tag un (Z_of_byte xd9) (be_bytes 1 n ++ body ++ rest))
      with ('(k, r) <- take_uint 1 (be_bytes 1 n ++ body ++ rest) ;; unpack_str k r).
    rewrite take_uint_1 by lia. apply unpack_str_app. }
  destruct (Z.ltb_spec n (2 ^ 16)).
  { do 2 eexists. split; [reflexivity|]. intros un rest.
    change (unpack_tag un (Z_of_byte xda) (be_bytes 2 n ++ body ++ rest))
      with ('(k, r) <- take_uint 2 (be_bytes 2 n ++ body ++ rest) ;; unpack_str k r).
    rewrite take_uint_2 by lia. apply unpack_str_app. }
  destruct (Z.ltb_spec n (2 ^ 32)); [|lia].
  do 2 eexists. split; [reflexivity|]. intros un rest.
  change (unpack_tag un (Z_of_byte xdb) (be_bytes 4 n ++ body ++ rest))
    with ('(k, r) <- take_uint 4 (be_bytes 4 n ++ body ++ rest) ;; unpack_str k r).
  rewrite take_uint_4 by lia. apply unpack_str_app.
Qed.

Lemma bin_header_unpack body :
  len_Z body < 2 ^ 32 ->
  exists b h,
    bin_header (len_Z body) = Ok (b :: h)
    /\ forall un rest,
        unpack_tag un (Z_of_byte b) (h ++ body ++ rest) = Ok (VBytes body, rest).
Proof.
  intros Hn. pose proof (len_Z_nonneg body) as H0. unfold bin_header.
  set (n := len_Z body) in *.
  destruct (Z.ltb_spec n (2 ^ 8)).
  { do 2 eexists. split; [reflexivity|]. intros un rest.
    change (unpack_tag un (Z_of_byte xc4) (be_bytes 1 n ++ body ++ rest))
      with ('(k, r) <- take_uint 1 (be_bytes 1 n ++ body ++ rest) ;; unpack_bin k r).
    rewrite take_uint_1 by lia. apply unpack_bin_app. }
  destruct (Z.ltb_spec n (2 ^ 16)).
  { do 2 eexists. split; [reflexivity|]. intros un rest.
    change (unpack_tag un (Z_of_byte xc5) (be_bytes 2 n ++ body ++ rest))
      with ('(k, r) <- take_uint 2 (be_bytes 2 n ++ body ++ rest) ;; unpack_bin k r).
    rewrite take_uint_2 by lia. apply unpack_bin_app. }
  destruct (Z.ltb_spec n (2 ^ 32)); [|lia].
  do 2 eexists. split; [reflexivity|]. intros un rest.
  change (unpack_tag un (Z_of_byte xc6) (be_bytes 4 n ++ body ++ rest))
    with ('(k, r) <- take_uint 4 (be_bytes 4 n ++ body ++ rest) ;; unpack_bin k r).
  rewrite take_uint_4 by lia. apply unpack_bin_app.
Qed.

Lemma array_header_unpack n :
  0 <= n < 2 ^ 32 ->
  exists b h,
    array_header n = Ok (b :: h)
    /\ forall un tl, unpack_tag un (Z_of_byte b) (h ++ tl) = unpack_array un n tl.
Proof.
  intros Hn. unfold array_header.
  destruct (Z.ltb_spec n 16).
  { do 2 eexists. split; [reflexivity|]. intros un tl. simpl app.
    rewrite tag_of_small by lia. tag.
    now replace (144 + n - 144) with n by lia. }
  destruct (Z.ltb_spec n (2 ^ 16)).
  { do 2 eexists. split; [reflexivity|]. intros un tl.
    change (unpack_tag un (Z_of_byte xdc) (be_bytes 2 n ++ tl))
      with ('(k, r) <- take_uint 2 (be_bytes 2 n ++ tl) ;; unpack_array un k r).
    now rewrite take_uint_2 by lia. }
  destruct (Z.ltb_spec n (2 ^ 32)); [|lia].
  do 2 eexists. split; [reflexivity|]. intros un tl.
  change (unpack_tag un (Z_of_byte xdd) (be_bytes 4 n ++ tl))
    with ('(k, r) <- take_uint 4 (be_bytes 4 n ++ tl) ;; unpack_array un k r).
  now rewrite take_uint_4 by lia.
Qed.

Lemma map_header_unpack n :
  0 <= n < 2 ^ 32 ->
  exists b h,
    map_header n = Ok (b :: h)
    /\ forall un tl, unpack_tag un (Z_of_byte b) (h ++ tl) = unpack_map un n tl.
Proof.
  intros Hn. unfold map_header.
  destruct (Z.ltb_spec n 16).
  { do 2 eexists. split; [reflexivity|]. intros un tl. simpl app.
    rewrite tag_of_small by lia. tag.
    now replace (128 + n - 128) with n by lia. }
  destruct (Z.ltb_spec n (2 ^ 16)).
  { do 2 eexists. split; [reflexivity|]. intros un tl.
    change (unpack_tag un (Z_of_byte xde) (be_bytes 2 n ++ tl))
      with ('(k, r) <- take_uint 2 (be_bytes 2 n ++ tl) ;; unpack_map un k r).
    now rewrite take_uint_2 by lia. }
  destruct (Z.ltb_spec n (2 ^ 32)); [|lia].
  do 2 eexists. split; [reflexivity|]. intros un tl.
  change (unpack_tag un (Z_of_byte xdf) (be_bytes 4 n ++ tl))
    with ('(k, r) <- take_uint 4 (be_bytes 4 n ++ tl) ;; unpack_map un k r).
  now rewrite take_uint_4 by lia.
Qed.

(** *** Dictionaries come back in their order *)

Lemma bytes_eqb_sym a b : bytes_eqb a b = bytes_eqb b a.
Proof.
  unfold bytes_eqb.
  destruct (list_eq_dec Byte.byte_eq_dec a b), (list_eq_dec Byte.byte_eq_dec b a);
    congruence.
Qed.

Lemma key_eqb_sym a b : key_eqb a b = key_eqb b a.
Proof.
  destruct a, b; simpl; try reflexivity;
    auto using Z.eqb_sym, String.eqb_sym, bytes_eqb_sym.
  now destruct b0, b.
Qed.

Lemma dict_set_fresh (acc : list (value * value)) k v :
  dict_mem key_eqb k acc = false -> dict_set key_eqb k v acc = acc ++ [(k, v)].
Proof.
  unfold dict_mem, dict_keys.
  induction acc as [|[k0 v0] acc IH]; simpl; intros Hm.
  - reflexivity.
  - apply orb_false_iff in Hm. destruct Hm as [E Hm].
    rewrite E. now rewrite IH.
Qed.

Lemma dict_mem_app (a b : list (value * value)) k :
  dict_mem key_eqb k (a ++ b) = dict_mem key_eqb k a || dict_mem key_eqb k b.
Proof. unfold dict_mem, dict_keys. now rewrite map_app, existsb_app. Qed.

(** a later key of a well-formed dictionary is none of the earlier keys *)
Lemma dict_wf_later_fresh (acc rest : list (value * value)) k v :
  dict_wf key_eqb (acc ++ (k, v) :: rest) = true -> dict_mem key_eqb k acc = false.
Proof.
  induction acc as [|[k0 v0] acc IH]; simpl; intros Hwf.
  - reflexivity.
  - apply andb_true_iff in Hwf. destruct Hwf as [Hk Hwf].
    apply negb_true_iff in Hk. rewrite dict_mem_app in Hk.
    apply orb_false_iff in Hk. destruct Hk as [_ Hk].
    unfold dict_mem in Hk. simpl in Hk.
    apply orb_false_iff in Hk. destruct Hk as [Hk _].
    unfold dict_mem. simpl. rewrite key_eqb_sym, Hk. simpl.
    now apply IH.
Qed.

Lemma dict_of_pairs_acc (l acc : list (value * value)) :
  dict_wf key_eqb (acc ++ l) = true ->
  fold_left (fun d kv => dict_set key_eqb (fst kv) (snd kv) d) l acc = acc ++ l.
Proof.
  revert acc. induction l as [|[k v] l IH]; intros acc Hwf; simpl.
  - now rewrite app_nil_r.
  - rewrite (dict_set_fresh _ _ _ (dict_wf_later_fresh _ _ _ _ Hwf)).
    rewrite IH; rewrite <- app_assoc; simpl; [reflexivity|assumption].
Qed.

Lemma dict_of_pairs_wf (d : list (value * value)) :
  dict_wf key_eqb d = true -> dict_of_pairs key_eqb d = d.
Proof. intros Hwf. unfold dict_of_pairs. now rewrite dict_of_pairs_acc. Qed.

(** *** Objects *)

Lemma depth_pos v : (1 <= depth v)%nat.
Proof. destruct v; simpl; lia. Qed.

Lemma depth_items n l :
  (fold_right (fun x acc => Nat.max (depth x) acc) O l <= n)%nat ->
  forall x, In x l -> (depth x <= n)%nat.
Proof.
  induction l as [|v l IHl]; simpl; intros Hmax x Hin; [contradiction|].
  destruct Hin as [->|Hin]; [lia|]. apply IHl; [lia|assumption].
Qed.

Lemma depth_pairs n (d : list (value * value)) :
  (fold_right (fun kv acc => match kv with
                             | (k, x) => Nat.max (depth k) (Nat.max (depth x) acc)
                             end) O d <= n)%nat ->
  forall k x, In (k, x) d -> (depth k <= n)%nat /\ (depth x <= n)%nat.
Proof.
  induction d as [|[k0 x0] d IHd]; simpl; intros Hmax k x Hin; [contradiction|].
  destruct Hin as [Heq|Hin]; [inversion Heq; subst; lia|].
  apply IHd; [lia|assumption].
Qed.

Section Items.
Variable n : nat.
Hypothesis IH :
  forall v,
    value_ok v = true ->
    (depth v <= n)%nat ->
    exists bs,
      pack n v = Ok bs
      /\ forall m rest, (n <= m)%nat -> unpack m (bs ++ rest) = Ok (v, rest).

Lemma pack_list_unpack l :
  forallb value_ok l = true ->
  (forall x, In x l -> (depth x <= n)%nat) ->
  exists bs,
    pack_list (pack n) l = Ok bs
    /\ forall m rest,
        (n <= m)%nat ->
        unpack_list (unpack m) (List.length l) (bs ++ rest) = Ok (l, rest).
Proof.
  induction l as [|v l IHl]; simpl; intros Hall Hdepth.
  - exists []. split; [reflexivity|]. intros m rest _. reflexivity.
  - apply andb_true_iff in Hall. destruct Hall as [Hv Hall].
    destruct (IH v Hv (Hdepth v (or_introl eq_refl))) as (b & Hb & Hub).
    destruct (IHl Hall (fun x Hx => Hdepth x (or_intror Hx))) as (bs & Hbs & Hubs).
    exists (b ++ bs). rewrite Hb, Hbs. split; [reflexivity|].
    intros m rest Hm. rewrite <- app_assoc, (Hub m _ Hm). simpl.
    now rewrite (Hubs m rest Hm).
Qed.

Lemma pack_pairs_unpack d :
  forallb (fun kv => match kv with
                     | (k, x) => map_key_ok k && value_ok k && value_ok x
                     end) d = true ->
  (forall k x, In (k, x) d -> (depth k <= n)%nat /\ (depth x <= n)%nat) ->
  exists bs,
    pack_pairs (pack n) d = Ok bs
    /\ forall m rest,
        (n <= m)%nat ->
        unpack_pairs (unpack m) (List.length d) (bs ++ rest) = Ok (d, rest).
Proof.
  induction d as [|[k v] d IHd]; simpl; intros Hall Hdepth.
  - exists []. split; [reflexivity|]. intros m rest _. reflexivity.
  - apply andb_true_iff in Hall. destruct Hall as [Hkv Hall].
    apply andb_true_iff in Hkv. destruct Hkv as [Hk Hv].
    apply andb_true_iff in Hk. destruct Hk as [Hkey Hk].
    destruct (Hdepth k v (or_introl eq_refl)) as [Hdk Hdv].
    destruct (IH k Hk Hdk) as (bk & Hbk & Hubk).
    destruct (IH v Hv Hdv) as (bv & Hbv & Hubv).
    destruct (IHd Hall (fun k' x' Hx => Hdepth k' x' (or_intror Hx)))
      as (bs & Hbs & Hubs).
    exists (bk ++ bv ++ bs). rewrite Hbk, Hbv, Hbs. split; [reflexivity|].
    intros m rest Hm. rewrite <- !app_assoc, (Hubk m _ Hm). simpl.
    rewrite Hkey, (Hubv m _ Hm). simpl.
    now rewrite (Hubs m rest Hm).
Qed.
End Items.

Lemma unpack_cons m b rest :
  unpack (S m) (b :: rest) = unpack_tag (unpack m) (Z_of_byte b) rest.
Proof. reflexivity. Qed.

(** every valid value that is nested no deeper than [n] is packed, and
    what [unpack] reads from its bytes is the value itself, followed by
    whatever came after *)
Lemma pack_unpack n :
  forall v,
    value_ok v = true ->
    (depth v <= n)%nat ->
    exists bs,
      pack n v = Ok bs
      /\ forall m rest, (n <= m)%nat -> unpack m (bs ++ rest) = Ok (v, rest).
Proof.
  induction n as [|n IHn]; intros v Hv Hd;
    [pose proof (depth_pos v); lia|].
  destruct v as [|b|z|bits|s|body|l|l|d]; cbn [value_ok] in Hv.
  - exists [xc0]. split; [reflexivity|].
    intros [|m] rest Hm; [lia|reflexivity].
  - exists [if b then xc3 else xc2]. split; [reflexivity|].
    intros [|m] rest Hm; [lia|]. now destruct b.
  - apply andb_true_iff in Hv. destruct Hv as [Hlo Hhi].
    apply Z.leb_le in Hlo. apply Z.ltb_lt in Hhi.
    destruct (pack_int_unpack z (conj Hlo Hhi)) as (b & bs & Hp & Hu).
    exists (b :: bs). split; [exact Hp|].
    intros [|m] rest Hm; [lia|]. rewrite <- app_comm_cons. rewrite unpack_cons.
    apply Hu.
  - apply andb_true_iff in Hv. destruct Hv as [Hlo Hhi].
    apply Z.leb_le in Hlo. apply Z.ltb_lt in Hhi.
    exists (xcb :: be_bytes 8 bits). split; [reflexivity|].
    intros [|m] rest Hm; [lia|]. rewrite <- app_comm_cons. rewrite unpack_cons.
    change (unpack_tag (unpack m) (Z_of_byte xcb) (be_bytes 8 bits ++ rest))
      with ('(f, r) <- take_uint 8 (be_bytes 8 bits ++ rest) ;; Ok (VFloat f, r)).
    now rewrite take_uint_8 by lia.
  - apply Z.ltb_lt in Hv.
    destruct (str_header_unpack _ Hv) as (b & h & Hh & Hu).
    exists ((b :: h) ++ list_byte_of_string s). cbn [pack]. rewrite Hh.
    split; [reflexivity|].
    intros [|m] rest Hm; [lia|]. rewrite <- app_assoc. rewrite <- app_comm_cons.
    rewrite unpack_cons, Hu. now rewrite string_of_list_byte_of_string.
  - apply Z.ltb_lt in Hv.
    destruct (bin_header_unpack _ Hv) as (b & h & Hh & Hu).
    exists ((b :: h) ++ body). cbn [pack]. rewrite Hh.
    split; [reflexivity|].
    intros [|m] rest Hm; [lia|]. rewrite <- app_assoc. rewrite <- app_comm_cons.
    now rewrite unpack_cons, Hu.
  - apply andb_true_iff in Hv. destruct Hv as [Hlen Hall].
    apply Z.ltb_lt in Hlen. cbn [depth] in Hd.
    destruct (array_header_unpack (len_Z l) (conj (len_Z_nonneg l) Hlen))
      as (b & h & Hh & Hu).
    destruct (pack_list_unpack n IHn l Hall (depth_items n l ltac:(lia)))
      as (bs & Hbs & Hubs).
    exists (b :: h ++ bs). cbn [pack]. rewrite Hh. cbn [bind]. rewrite Hbs.
    split; [reflexivity|].
    intros [|m] rest Hm; [lia|]. rewrite <- app_comm_cons, <- app_assoc.
    rewrite unpack_cons, Hu. unfold unpack_array, len_Z. rewrite Nat2Z.id.
    now rewrite (Hubs m rest) by lia.
  - discriminate.
  - apply andb_true_iff in Hv. destruct Hv as [Hv Hwf].
    apply andb_true_iff in Hv. destruct Hv as [Hlen Hall].
    apply Z.ltb_lt in Hlen. cbn [depth] in Hd.
    destruct (map_header_unpack (len_Z d) (conj (len_Z_nonneg d) Hlen))
      as (b & h & Hh & Hu).
    destruct (pack_pairs_unpack n IHn d Hall (depth_pairs n d ltac:(lia)))
      as (bs & Hbs & Hubs).
    exists (b :: h ++ bs). cbn [pack]. rewrite Hh. cbn [bind]. rewrite Hbs.
    split; [reflexivity|].
    intros [|m] rest Hm; [lia|]. rewrite <- app_comm_cons, <- app_assoc.
    rewrite unpack_cons, Hu. unfold unpack_map, len_Z. rewrite Nat2Z.id.
    rewrite (Hubs m rest) by lia. cbn [bind].
    now rewrite (dict_of_pairs_wf _ Hwf).
Qed.

(** [unpackb(packb(v)) == v] *)
Lemma packb_unpackb v :
  value_ok v = true ->
  (depth v <= 512)%nat ->
  exists bs, packb v = Ok bs /\ unpackb bs = Ok v.
Proof.
  intros Hv Hd. destruct (pack_unpack 512 v Hv Hd) as (bs & Hp & Hu).
  exists bs. split; [exact Hp|].
  unfold unpackb, unpack_nest_limit.
  specialize (Hu 1024%nat [] ltac:(lia)). rewrite app_nil_r in Hu.
  now rewrite Hu.
Qed.

End MsgpackFacts.


Section MessageFacts.
Import Protocol.

Implicit Types (fields : list (string * value)).

Lemma dict_mem_asdict fields k :
  dict_mem key_eqb (VStr k) (map (fun kv => (VStr (fst kv), snd kv)) fields)
  = dict_mem String.eqb k fields.
Proof.
  unfold dict_mem, dict_keys.
  induction fields as [|[k0 v0] fields IH]; simpl; [reflexivity|].
  now rewrite IH.
Qed.

Lemma dict_wf_asdict fields :
  dict_wf key_eqb (map (fun kv => (VStr (fst kv), snd kv)) fields)
  = dict_wf String.eqb fields.
Proof.
  induction fields as [|[k0 v0] fields IH]; simpl; [reflexivity|].
  now rewrite dict_mem_asdict, IH.
Qed.

Lemma value_ok_dict d :
  value_ok (VDict d)
  = (len_Z d <? 2 ^ 32)
    && forallb (fun kv => match kv with
                          | (k, x) => map_key_ok k && value_ok k && value_ok x
                          end) d
    && dict_wf key_eqb d.
Proof. reflexivity. Qed.

Lemma depth_dict d :
  depth (VDict d)
  = S (fold_right (fun kv acc => match kv with
                                 | (k, x) => Nat.max (depth k) (Nat.max (depth x) acc)
                                 end) O d).
Proof. reflexivity. Qed.

(** the dictionary of a dataclass is valid when its field names are
    distinct and each value is valid *)
Lemma valid_asdict fields :
  (len_Z fields <? 2 ^ 32) = true ->
  forallb (fun kv => value_ok (VStr (fst kv))) fields = true ->
  dict_wf String.eqb fields = true ->
  forallb (fun kv => field_ok (snd kv)) fields = true ->
  value_ok (asdict fields) = true /\ (depth (asdict fields) <= 512)%nat.
Proof.
  intros Hlen Hnames Hwf Hvals. unfold asdict. split.
  - rewrite value_ok_dict.
    unfold len_Z in *. rewrite length_map, Hlen, dict_wf_asdict, Hwf.
    rewrite andb_true_r, andb_true_l.
    rewrite forallb_forall in *. intros [k v] Hin.
    apply in_map_iff in Hin. destruct Hin as ([k0 v0] & Heq & Hin).
    inversion Heq. subst. cbn [fst snd map_key_ok andb].
    specialize (Hnames _ Hin). specialize (Hvals _ Hin).
    cbn [fst snd] in Hnames, Hvals.
    unfold field_ok in Hvals. apply andb_true_iff in Hvals.
    destruct Hvals as [Hv _]. now rewrite Hnames, Hv.
  - rewrite depth_dict. apply le_n_S. clear Hlen Hnames Hwf.
    induction fields as [|[k v] fields IH]; cbn [map fold_right fst snd forallb] in *;
      [lia|].
    apply andb_true_iff in Hvals. destruct Hvals as [Hv Hvals].
    unfold field_ok in Hv. apply andb_true_iff in Hv. destruct Hv as [_ Hd].
    apply Nat.leb_le in Hd. specialize (IH Hvals).
    change (depth (VStr k)) with 1%nat. lia.
Qed.

Lemma kwargs_asdict fields : kwargs (asdict fields) = Ok fields.
Proof.
  unfold kwargs, asdict.
  induction fields as [|[k v] fields IH]; simpl; [reflexivity|].
  now rewrite IH.
Qed.

(** [cls( **unpackb(packb(asdict(m))))] gives the keywords of [m] back *)
Lemma serialised_fields fields :
  (len_Z fields <? 2 ^ 32) = true ->
  forallb (fun kv => value_ok (VStr (fst kv))) fields = true ->
  dict_wf String.eqb fields = true ->
  forallb (fun kv => field_ok (snd kv)) fields = true ->
  exists bs,
    packb (asdict fields) = Ok bs
    /\ (d <- unpackb bs ;; kwargs d) = Ok fields.
Proof.
  intros Hlen Hnames Hwf Hvals.
  destruct (valid_asdict _ Hlen Hnames Hwf Hvals) as [Hok Hdepth].
  destruct (packb_unpackb _ Hok Hdepth) as (bs & Hp & Hu).
  exists bs. split; [exact Hp|].
  rewrite Hu. cbn [bind]. apply kwargs_asdict.
Qed.

Lemma frame_message_round_trip now m :
  FrameMessage.valid m = true ->
  exists bs,
    FrameMessage.serialise m = Ok bs
    /\ FrameMessage.deserialise now bs = Ok m.
Proof.
  intros Hv.
  destruct (serialised_fields (FrameMessage.fields m)) as (bs & Hp & Hu);
    [destruct m; vm_compute; reflexivity ..|exact Hv|].
  exists bs. split; [exact Hp|].
  unfold FrameMessage.deserialise.
  destruct (unpackb bs) as [d|e]; [|discriminate]. cbn [bind] in *.
  rewrite Hu. now destruct m.
Qed.

Lemma event_message_round_trip now m :
  EventMessage.valid m = true ->
  exists bs,
    EventMessage.serialise m = Ok bs
    /\ EventMessage.deserialise now bs = Ok m.
Proof.
  intros Hv.
  destruct (serialised_fields (EventMessage.fields m)) as (bs & Hp & Hu);
    [destruct m; vm_compute; reflexivity ..|exact Hv|].
  exists bs. split; [exact Hp|].
  unfold EventMessage.deserialise.
  destruct (unpackb bs) as [d|e]; [|discriminate]. cbn [bind] in *.
  rewrite Hu. now destruct m.
Qed.

Lemma control_request_round_trip m :
  ControlRequest.valid m = true ->
  exists bs,
    ControlRequest.serialise m = Ok bs
    /\ ControlRequest.deserialise bs = Ok m.
Proof.
  intros Hv.
  destruct (serialised_fields (ControlRequest.fields m)) as (bs & Hp & Hu);
    [destruct m; vm_compute; reflexivity ..|exact Hv|].
  exists bs. split; [exact Hp|].
  unfold ControlRequest.deserialise.
  destruct (unpackb bs) as [d|e]; [|discriminate]. cbn [bind] in *.
  rewrite Hu. now destruct m.
Qed.

Lemma control_response_round_trip m :
  ControlResponse.valid m = true ->
  exists bs,
    ControlResponse.serialise m = Ok bs
    /\ ControlResponse.deserialise bs = Ok m.
Proof.
  intros Hv.
  destruct (serialised_fields (ControlResponse.fields m)) as (bs & Hp & Hu);
    [destruct m; vm_compute; reflexivity ..|exact Hv|].
  exists bs. split; [exact Hp|].
  unfold ControlResponse.deserialise.
  destruct (unpackb bs) as [d|e]; [|discriminate]. cbn [bind] in *.
  rewrite Hu. now destruct m.
Qed.

(** C8: each of the four wire messages, when its field values are
    valid, is serialised, and deserialising the bytes gives a message
    equal to the original in every field. *)
Theorem wire_messages_round_trip :
  (forall now m,
      FrameMessage.valid m = true ->
      exists bs,
        FrameMessage.serialise m = Ok bs
        /\ FrameMessage.deserialise now bs = Ok m)
  /\ (forall now m,
         EventMessage.valid m = true ->
         exists bs,
           EventMessage.serialise m = Ok bs
           /\ EventMessage.deserialise now bs = Ok m)
  /\ (forall m,
         ControlRequest.valid m = true ->
         exists bs,
           ControlRequest.serialise m = Ok bs
           /\ ControlRequest.deserialise bs = Ok m)
  /\ (forall m,
         ControlResponse.valid m = true ->
         exists bs,
           ControlResponse.serialise m = Ok bs
           /\ ControlResponse.deserialise bs = Ok m).
Proof.
  repeat split.
  - apply frame_message_round_trip.
  - apply event_message_round_trip.
  - apply control_request_round_trip.
  - apply control_response_round_trip.
Qed.

(** encoding what was decoded gives the same bytes again *)
Lemma serialise_is_stable :
  (forall now m bs,
      FrameMessage.valid m = true ->
      FrameMessage.serialise m = Ok bs ->
      (m' <- FrameMessage.deserialise now bs ;; FrameMessage.serialise m') = Ok bs)
  /\ (forall now m bs,
         EventMessage.valid m = true ->
         EventMessage.serialise m = Ok bs ->
         (m' <- EventMessage.deserialise now bs ;; EventMessage.serialise m') = Ok bs)
  /\ (forall m bs,
         ControlRequest.valid m = true ->
         ControlRequest.serialise m = Ok bs ->
         (m' <- ControlRequest.deserialise bs ;; ControlRequest.serialise m') = Ok bs)
  /\ (forall m bs,
         ControlResponse.valid m = true ->
         ControlResponse.serialise m = Ok bs ->
         (m' <- ControlResponse.deserialise bs ;; ControlResponse.serialise m') = Ok bs).
Proof.
  split; [|split; [|split]].
  - intros now m bs Hv Hs.
    destruct (frame_message_round_trip now m Hv) as (bs' & Hs' & Hd).
    assert (bs' = bs) by congruence. subst bs'. rewrite Hd. exact Hs.
  - intros now m bs Hv Hs.
    destruct (event_message_round_trip now m Hv) as (bs' & Hs' & Hd).
    assert (bs' = bs) by congruence. subst bs'. rewrite Hd. exact Hs.
  - intros m bs Hv Hs.
    destruct (control_request_round_trip m Hv) as (bs' & Hs' & Hd).
    assert (bs' = bs) by congruence. subst bs'. rewrite Hd. exact Hs.
  - intros m bs Hv Hs.
    destruct (control_response_round_trip m Hv) as (bs' & Hs' & Hd).
    assert (bs' = bs) by congruence. subst bs'. rewrite Hd. exact Hs.
Qed.

(** a tuple is packed as an array and comes back as a list *)
Lemma tuple_comes_back_as_list :
  (bs <- packb (VTuple [VInt 1; VInt 2]) ;; unpackb bs) = Ok (VList [VInt 1; VInt 2]).
Proof. vm_compute. reflexivity. Qed.

End MessageFacts.

(** ** The statements at concrete inputs *)

Section Instances.
Import Protocol Framebuffer Plugin Raster Examples.

(** C10 at a region tagged "tiff" *)
Lemma failed_region_leaves_compositor_witness :
  update_region (window 1) 0 0 1 1 "tiff" red = window 1
  /\ (dirty (window 1) = false ->
      forall fmt quality scale max_dim,
        snapshot (update_region (window 1) 0 0 1 1 "tiff" red)
          fmt quality scale max_dim
        = (window 1, Ok None)).
Proof.
  apply failed_region_leaves_compositor. left. reflexivity.
Defined.

(** C9 at the format name "webp" *)
Lemma unknown_format_falls_back_to_jpeg_witness :
  snapshot painted "webp" 70 1 1920
  = (set_sequence (set_dirty painted false) (sequence painted + 1),
     Ok (Some red_left_jpeg))
  /\ snapshot painted "webp" 70 1 1920 = snapshot painted "jpeg" 70 1 1920.
Proof.
  apply (unknown_format_falls_back_to_jpeg painted "webp" 70 1 1920 red_left);
    reflexivity.
Defined.

(** C3 as stated fails: after a region with an unsupported tag the next
    snapshot of a new compositor is still absent *)
Lemma dirty_then_clear_counterexample :
  init 1 2 1 = Ok (window 1)
  /\ snd (snapshot (update_region (window 1) 0 0 1 1 "tiff" red) "jpeg" 70 1 1920)
     = Ok None.
Proof. split; reflexivity. Qed.

(** C3 as amended, at a red pixel pasted into a new window *)
Lemma dirty_then_clear_witness :
  snapshot (window 1) "jpeg" 70 1 1920 = (window 1, Ok None)
  /\ snd (snapshot (update_region (window 1) 0 0 1 1 "rgb24" red) "jpeg" 70 1 1920)
     = Ok (Some red_left_jpeg)
  /\ forall n fmt' quality' scale' max_dim',
      snapshots n
        (fst (snapshot (update_region (window 1) 0 0 1 1 "rgb24" red)
                "jpeg" 70 1 1920))
        fmt' quality' scale' max_dim'
      = (fst (snapshot (update_region (window 1) 0 0 1 1 "rgb24" red)
                "jpeg" 70 1 1920),
         repeat (Ok None) n).
Proof.
  apply (dirty_then_clear 1 2 1 (window 1) 0 0 1 1 "rgb24" red
           (mkImage 1 1 [(xff, x00, x00)]) red_left "jpeg" 70 1 1920 red_left);
    reflexivity.
Defined.

(** C4 as stated fails: creating window 1 again puts its counter back
    from 1 to 0, and the next snapshot is published with the sequence
    number 1 a second time *)
Lemma sequence_counterexample :
  sequence_of (fst (run new_manager (firstn 3 recreate))) 1 = Some 1
  /\ sequence_of (fst (run new_manager (firstn 4 recreate))) 1 = Some 0
  /\ sequences_for 1 (snd (run new_manager recreate)) = [1; 1].
Proof. repeat split; reflexivity. Qed.

(** C4 as amended, along [busy] from the registry with window 1: the
    snapshots of window 1 are published as 1 and 2 *)
Lemma sequence_increases_between_creations_witness :
  sequence_of (fst (run (mkFramebufferManager [(1, window 1)]) busy)) 1 = Some 2
  /\ sequences_for 1 (snd (run (mkFramebufferManager [(1, window 1)]) busy)) = [1; 2]
  /\ StronglySorted Z.lt
       (sequences_for 1 (snd (run (mkFramebufferManager [(1, window 1)]) busy))).
Proof.
  destruct (sequence_increases_between_creations busy
              (mkFramebufferManager [(1, window 1)]) 1 0
              eq_refl eq_refl eq_refl)
    as ((s' & Hs' & _ & Hsorted & _) & _).
  split; [reflexivity|split; [reflexivity|exact Hsorted]].
Defined.

(** C5 at the windows 1 and 2, of which window 1 was painted *)
Lemma collection_is_rate_limited_witness :
  snd (get_dirty_snapshots two_windows_painted 100 "jpeg" 70 1 1920 0)
  = Ok [(1, red_left_jpeg, 1)]
  /\ forall now' fmt' quality' scale' max_dim' min_interval',
      snd (get_dirty_snapshots two_windows_collected
             now' fmt' quality' scale' max_dim' min_interval')
      = Ok [].
Proof.
  apply (proj2 collection_is_rate_limited
           1 2 2 1 2 1 (window 1) (window 2) 0 0 1 1 "rgb24" red
           (mkImage 1 1 [(xff, x00, x00)]) red_left
           100%Q "jpeg" 70 1%Q 1920 0%Q red_left red_left_jpeg
           two_windows two_windows_painted two_windows_collected);
    try reflexivity.
  - lia.
  - left. apply Qle_refl.
Defined.

(** C7 at window 7, which the registry of windows 1 and 2 does not know *)
Lemma unknown_window_is_safe_witness :
  (forall x y w h coding data,
      manager_update_region two_windows 7 x y w h coding data = two_windows)
  /\ (forall w h, resize_window two_windows 7 w h = (two_windows, Ok tt))
  /\ destroy_window two_windows 7 = two_windows
  /\ List.length (window_ids (destroy_window two_windows 7))
     = List.length (window_ids two_windows).
Proof.
  apply unknown_window_is_safe. reflexivity.
Defined.

(** C1 at ctrl+Pause, pressed in autonomous mode *)
Lemma kill_switch_dominates_witness :
  let p' := fst (filter_input (plugin AUTONOMOUS) 100 Queued "key-action" pause_packet) in
  snd (filter_input (plugin AUTONOMOUS) 100 Queued "key-action" pause_packet) = Ok true
  /\ mode p' = OBSERVER
  /\ _event_pub p'
     = _event_pub (plugin AUTONOMOUS)
       ++ [(kill_switch_event (mode (plugin AUTONOMOUS)) 100, Queued)]
  /\ event_type (kill_switch_event (mode (plugin AUTONOMOUS)) 100)
     = EventType_value KILL_SWITCH
  /\ p' = set_event_pub (set_mode (plugin AUTONOMOUS) OBSERVER) (_event_pub p')
  /\ mode (_trigger_kill_switch p' 100 Queued) = OBSERVER.
Proof.
  apply (kill_switch_dominates (plugin AUTONOMOUS) 100 Queued "key-action" pause_packet).
  reflexivity.
Defined.

(** C6 with the priority window of 500 ms: a human input at 10 s, the
    agent asks at 10.1 s and at 10.6 s *)
Lemma agent_may_act_witness :
  let p' := fst (filter_input (plugin COLLABORATIVE) 10 Queued "pointer-position" []) in
  ai_can_act p' (101 # 10) = false /\ ai_can_act p' (106 # 10) = true.
Proof.
  destruct (agent_may_act (plugin COLLABORATIVE) (101 # 10))
    as (_ & _ & _ & Hearly).
  destruct (agent_may_act (plugin COLLABORATIVE) (106 # 10))
    as (_ & _ & _ & Hlate).
  specialize (Hearly 10%Q Queued "pointer-position" [] eq_refl eq_refl).
  specialize (Hlate 10%Q Queued "pointer-position" [] eq_refl eq_refl).
  destruct Hearly as (_ & _ & Hearly). destruct Hlate as (_ & _ & Hlate).
  split.
  - apply not_true_is_false. intros Hact. apply Hearly in Hact.
    vm_compute in Hact. discriminate.
  - apply Hlate. reflexivity.
Defined.

(** C2 at window 1, which is registered and clean *)
Lemma screenshot_of_clean_window_is_empty_witness :
  _handle_query Raster.str (plugin SUPERVISED) "" (screenshot_request (VStr "r1") 1)
  = (plugin SUPERVISED, Ok (response true (VStr "r1") (VBytes []) "")).
Proof.
  apply (screenshot_of_clean_window_is_empty Raster.str (plugin SUPERVISED) ""
           (VStr "r1") 1 (window 1)); reflexivity.
Defined.

(** C8 at the messages of the tests *)
Lemma wire_messages_round_trip_witness :
  (exists bs,
      FrameMessage.serialise frame = Ok bs /\ FrameMessage.deserialise 0 bs = Ok frame)
  /\ (exists bs,
         EventMessage.serialise event = Ok bs
         /\ EventMessage.deserialise 0 bs = Ok event)
  /\ (exists bs,
         ControlRequest.serialise request = Ok bs
         /\ ControlRequest.deserialise bs = Ok request)
  /\ (exists bs,
         ControlResponse.serialise reply = Ok bs
         /\ ControlResponse.deserialise bs = Ok reply).
Proof.
  destruct wire_messages_round_trip as (Hf & He & Hq & Hr).
  repeat split.
  - apply (Hf 0 frame). vm_compute. reflexivity.
  - apply (He 0 event). vm_compute. reflexivity.
  - apply (Hq request). vm_compute. reflexivity.
  - apply (Hr reply). vm_compute. reflexivity.
Defined.

End Instances.
